(* ===== verification/_CoqProject ===== *)
-Q . S2P
Prelude.v
JsString.v
Calendar.v
DateParser.v
DueClassifier.v
MessageComposer.v
Aggregator.v
Effects.v
Pipeline.v
Scheduler.v
Server.v
