(* ===== verification/Prelude.v ===== *)
(** * Bin Bot: a verification development

    The program (repository Crispioso/bin-bot) reads a council's
    waste-collection feed, decides which bins are collected today or
    tomorrow and posts one sentence to a webhook.  It exists twice:

    - src/index.js, an Express server with a cron job: [binIsDue],
      [getCollectionDate], [getDaysUntilDue], [formatData],
      [buildResponseData], [webhookRequest], [handleNewData] with its
      local [createMessage], and the job scheduled at 06:00 and 18:00;
    - src/lambda/index.js, an AWS Lambda handler: [getData] with its
      retries, [getDueBins] with its local [getBinDates], [isDue] and
      [getDueDay], [formatData], [buildMessage] with [buildMessageForDay],
      [sendWebhook] and [handler].

    The parts interact in one direction: the feed (fetched, converted
    from XML) gives one title per bin; the date parser turns a title
    into a collection time; the classifier decides whether that time is
    due and labels it; the aggregator collects the statuses of all bins;
    the message composer turns the due bins into a sentence; the
    pipeline fetches, aggregates, composes and posts.

    ** Layout (dependency order, as in _CoqProject)

    - [Prelude] (this file): the [outcome] error monad standing for
      JavaScript exceptions with its notation in [js_scope], the
      [binbot] hint databases, the tactics [lia_div], [case_tests],
      [split_tests], [zbool_hyps], and generic lemmas on strings, integer
      division and bounded checks ([all_in_range]).
    - [JsString]: the string built-ins the code calls ([split], [join],
      the regular expressions [/^[0-9]*/] and [/^\w/], [toLowerCase],
      number to string, the two-digit and zero-padded fields of date
      strings, [JSON.stringify] of a string), the truthiness of a
      configuration value ([truthy]) and its [||] default ([js_or]),
      with the decimal print/parse round trip ([show_nat_parse]).
    - [Calendar]: ECMAScript time values in milliseconds: [DayFromYear],
      [YearFromDay], [MonthFromDay], [DateFromDay], [MakeDay], [MakeTime],
      [MakeDate], [TimeClip]; local time with a fixed offset; the [Date]
      constructor with components, [toLocaleDateString("en-GB")],
      [toISOString], and the date-fns v1 helpers [addDays], [isAfter],
      [distanceInWordsStrict] in days.  Theorems: the day number /
      calendar date round trips, [addDays] as a shift by whole days,
      that two date strings agree exactly on the same local day, and
      that [toISOString] is injective on the years 0 to 9999
      ([toISOString_inj]: the ISO strings the programs pass around stand
      for their time values).
    - [DateParser]: [getCollectionDate] (src/index.js:58-67) and the
      lambda's [binDate] (src/lambda/index.js:68-73), over [Module V8], a
      model of V8's legacy date parser on the strings the code builds
      ("<month> <digits>, <year> 23:00:00"): month words by their first
      three letters, the day composer with its padding and two-digit
      year window, a word after a number as an error.  Theorems: a
      well-formed title parses to 23:00 of its date (a round trip for
      valid dates), the TypeError and RangeError of short titles, and the
      first-of-the-month reading of a day without digits.
    - [DueClassifier]: the rule of the specification ([classify] with the
      21:11 cutoff), [IndexJs.binIsDue] and [IndexJs.getDaysUntilDue],
      [Lambda.getBinDates], [Lambda.isDue] and [Lambda.getDueDay].
      Theorems: [binIsDue] refines the rule; the lambda's [isDue]
      implements only its "tomorrow" half; [getDaysUntilDue] gives only
      "Today" or "<n> day(s)", never "Tomorrow"; the labels of
      collections today, tomorrow, and tomorrow seen after 23:00.
    - [MessageComposer]: [createMessage] and the joining of the two
      sentences ([composeMessage]), [Lambda.buildMessageForDay] and
      [Lambda.buildMessage].  Theorems: the closed form of the loop and
      the loss of the middle bins, the empty message exactly when no bin
      is listed, the equivalence of the two programs on one-day messages,
      and the lambda's doubled full stop.
    - [Aggregator]: [IndexJs.formatData] over the three channels and
      [Lambda.getDueBins]/[Lambda.formatData] over all channels.
      Theorems: one malformed title fails the whole aggregation in both
      programs; every bin the lambda reports is labelled "tomorrow".
    - [Effects]: the outside world as explicit state ([net]: pending
      responses, number of fetches, whether the current body was read,
      the webhook requests sent, and the console: every [console.log],
      [console.warn] and [console.error] call with its arguments) in a
      state monad [M] with [mcatch] for [try]/[catch], [console] and
      [lift]; [fetch_feed], [text] and [post_webhook].  The XML
      converter, the webhook's answers, node-fetch's test of an absolute
      URL (with its laws for "undefined" and "") and the environment
      variables [WEBHOOK_URL] and [PORT] are the [Collaborators] class,
      so the theorems hold for any converter, any endpoint and any
      configuration.  Lemmas bound the fetches ([costs]) and the webhook
      requests ([posts_at_most]) of a computation and show that the
      console only grows ([logs_grow]), compositionally.
    - [Pipeline]: [Lambda.getData], [Lambda.formatData_run] and
      [Lambda.buildMessage_run] (with their console lines),
      [Lambda.sendWebhook], [Lambda.announce_key] and [Lambda.handler];
      the module's key check [IndexJs.check_webhookKey],
      [IndexJs.buildResponseData], [IndexJs.webhookRequest],
      [IndexJs.handleNewData] with its warnings and the cron
      [IndexJs.job].  Theorems:
      [getData] fetches at most three times, gives up after three failed
      responses, and its re-parse always fails; the handler posts at most
      once, nothing when no bin is due, so nothing on a collection day
      with no collection the next day, "Bin Bot alert: <message>" when
      the webhook accepts it and the webhook's error status otherwise;
      end to end, from a feed of three channels to the posted message,
      the lambda posts the [createMessage] sentence naming the reported
      bins as collected "tomorrow" ([handler_end_to_end], composing the
      aggregator's and the composer's lemmas); the lambda writes the
      webhook URL, which holds the IFTTT key, to its log on every run;
      the cron job announces the bins collected today before 21:11, but
      posts every message twice, and posts the empty message when the
      bins are due tomorrow; a failed fetch, conversion or formatting,
      and a webhook answering with an error status, end the job
      normally with the error on the console; without a
      usable [WEBHOOK_URL] no request is ever sent, the job swallowing
      the error (it never throws) and the lambda reporting it.
    - [Scheduler]: the cron expression '0 6,18 * * *' of src/index.js:215
      as [cron_fires] on the local time fields ([HourFromTime],
      [MinFromTime], ... of [Calendar]) and node-schedule's next
      invocation [next_fire].  Theorems: the job fires exactly at 06:00
      and 18:00; [next_fire] is the next firing, within twelve hours,
      with none in between; and (liveness) from any instant before 06:00
      of a collection day some later run flags the collection as due
      before it happens.
    - [Server]: the process of src/index.js as a transition system
      [server_step] over [server] (network and console, the
      [dataForLoad] promise, the HTTP answers sent, the port listened
      on): loading the module (the key check, then [buildResponseData]
      once), [app.listen] on [port] ([PORT || "8000"]), cron firings
      (the job) and HTTP requests through the CORS middleware to [GET /]
      ([render] of the global [response], which nothing assigns, with
      its [console.error] on a template error) and [GET /api/bins]
      ([res.json] of a promise).  The ejs template is the [Templates]
      class.  Theorems, by induction over [rtc server_step]: every answer
      carries the CORS headers, the page always shows the initial
      [response] and the API always "{}"; at most two webhook requests
      are sent per fetch of the feed; the process keeps to its
      configuration ([server_config]: the warning heads the console
      exactly when [WEBHOOK_URL] is falsy, and the port is [PORT] or
      8000).

    Each file ends with witnesses: the theorems with hypotheses applied
    to the feed of Sunday 8 July 2018 (UTC), whose titles name Monday 9,
    Friday 13 and Monday 16 July.

    ** Modelling conventions, bounds and fuel

    The wall clock is an explicit argument [now] (a time value), never a
    global: each [new Date()] of a function reads the same instant.  A
    fixed local time-zone offset [tza] (no daylight saving) is a
    parameter of every time computation.  Exceptions are values of
    [outcome], with the message the JavaScript engine would give.  A
    console call is recorded with its arguments, objects by their
    values, not by Node's rendering of them ([util.format]).
    Time values are integers ([Z]) with the [TimeClip] bound of
    8.64e15 ms written out; [in_range] asks for an offset of at most a
    day and a clock two days inside that bound, enough for [addDays] by
    one day to stay valid.  [show_nat] recurses on fuel
    [1 + log2 n], enough for every digit of [n] ([show_nat_fuel]), and
    any fuel covering the digits gives the same string
    ([show_fuel_agree]);
    the month table is checked for all 366 days of both year kinds by
    [all_in_range].  The parser model covers the years 100 to 9999, the
    domain where the date string renders the year as four digits.

    ** Not modelled

    The XML libraries and node-fetch's URL parser (given by
    [Collaborators]) and the ejs template (given by [Templates]), which
    are not in the sources; the module's [require]s and the lambda's
    constant [dataURL], which only name libraries and the feed's
    address; Node's text rendering of logged objects; the interleaving of two
    runs of the pipeline inside one process (each run is one step of
    [server_step]); daylight saving; V8's date parser outside the
    strings the code builds; ICU's rendering of years before 1. *)

From stdpp Require Export base list strings decidable.
From Stdlib Require Export ZArith Lia Ascii.

(** ** JavaScript exceptions as values *)

(** The exceptions the modelled code can raise: a [TypeError] (reading a
    property of [undefined]), a [RangeError] ([toISOString] of an
    invalid date) or an [Error] built with [new Error(msg)]. *)
Inductive js_error :=
| TypeError (what : string)
| RangeError (what : string)
| JsError (msg : string).

#[export] Instance js_error_eq_dec : EqDecision js_error.
Proof. solve_decision. Defined.

(** A computation that returns a value or throws. *)
Inductive outcome (A : Type) :=
| Ok (a : A)
| Throw (e : js_error).
Arguments Ok {A} a.
Arguments Throw {A} e.

Definition obind {A B} (c : outcome A) (k : A -> outcome B) : outcome B :=
  match c with
  | Ok a => k a
  | Throw e => Throw e
  end.

Definition omap {A B} (f : A -> B) (c : outcome A) : outcome B :=
  obind c (fun a => Ok (f a)).

(** [try { c } catch (e) { h(e) }] *)
Definition ocatch {A} (c : outcome A) (h : js_error -> outcome A) : outcome A :=
  match c with
  | Ok a => Ok a
  | Throw e => h e
  end.

Declare Scope js_scope.
Delimit Scope js_scope with js.
Notation "x <- c ;; k" := (obind c (fun x => k))
  (at level 100, c at next level, right associativity) : js_scope.
Open Scope js_scope.

(** [undefined] read as a string inside a template literal. *)
Definition str_or_undefined (o : option string) : string :=
  match o with Some s => s | None => "undefined" end.

(** ** Automation *)

Create HintDb binbot discriminated.
Create Rewrite HintDb binbot_rw.

(** Euclidean division and modulo by constants, then linear arithmetic. *)
Ltac lia_div := Z.to_euclidean_division_equations; lia.
Ltac nia_div := Z.to_euclidean_division_equations; nia.

(** Case analysis on the boolean tests the code performs. *)
Ltac case_tests :=
  repeat match goal with
  | |- context [Z.ltb ?a ?b] => destruct (Z.ltb_spec a b)
  | |- context [Z.leb ?a ?b] => destruct (Z.leb_spec a b)
  | |- context [Z.eqb ?a ?b] => destruct (Z.eqb_spec a b)
  | |- context [bool_decide ?P] => case_bool_decide
  end.

(** Split every boolean test of the goal, simplifying after each. *)
Ltac split_tests := repeat progress (case_tests; simpl).

(** Boolean tests of the code in hypotheses, turned into propositions. *)
Ltac zbool_hyps :=
  repeat match goal with
  | H : _ && _ = true |- _ => apply andb_true_iff in H as [? ?]
  | H : Z.leb _ _ = true |- _ => apply Z.leb_le in H
  | H : Z.ltb _ _ = true |- _ => apply Z.ltb_lt in H
  | H : Z.eqb _ _ = true |- _ => apply Z.eqb_eq in H
  | H : Z.leb _ _ = false |- _ => apply Z.leb_gt in H
  | H : Z.ltb _ _ = false |- _ => apply Z.ltb_ge in H
  | H : Z.eqb _ _ = false |- _ => apply Z.eqb_neq in H
  end.

(** ** Generic lemmas on outcomes *)

Lemma obind_ok {A B} (a : A) (k : A -> outcome B) : obind (Ok a) k = k a.
Proof. reflexivity. Qed.

Lemma obind_throw {A B} e (k : A -> outcome B) : obind (Throw e) k = Throw e.
Proof. reflexivity. Qed.

Lemma obind_Ok_inv {A B} (c : outcome A) (k : A -> outcome B) b :
  obind c k = Ok b -> exists a, c = Ok a /\ k a = Ok b.
Proof. destruct c; simpl; [eauto | discriminate]. Qed.

(** Injectivity of [Ok], without reducing the values (they may hold
    expensive computations on symbolic arguments). *)
Lemma Ok_inj {A} (a b : A) : Ok a = Ok b -> a = b.
Proof. intros H. injection H. auto. Qed.

#[export] Hint Rewrite @obind_ok @obind_throw : binbot_rw.

(** ** Generic lemmas on strings *)

(** stdpp makes [String.append] opaque to [simpl]; this is its
    computation rule. *)
Lemma string_app_cons (c : ascii) (a b : string) :
  String c a +:+ b = String c (a +:+ b).
Proof. reflexivity. Qed.

Lemma string_app_nil_l (a : string) : "" +:+ a = a.
Proof. reflexivity. Qed.

Lemma string_app_assoc (a b c : string) : (a +:+ b) +:+ c = a +:+ (b +:+ c).
Proof. induction a; rewrite ?string_app_nil_l, ?string_app_cons; simpl; congruence. Qed.

Lemma string_app_nil_r (a : string) : a +:+ "" = a.
Proof. induction a; rewrite ?string_app_nil_l, ?string_app_cons; simpl; congruence. Qed.

Lemma string_length_app (a b : string) :
  String.length (a +:+ b) = (String.length a + String.length b)%nat.
Proof. induction a; rewrite ?string_app_nil_l, ?string_app_cons; simpl; congruence. Qed.

(** Two concatenations whose left parts have the same length are equal
    exactly when the parts are. *)
Lemma string_app_inj_len (a1 a2 b1 b2 : string) :
  String.length a1 = String.length a2 ->
  a1 +:+ b1 = a2 +:+ b2 -> a1 = a2 /\ b1 = b2.
Proof.
  revert a2. induction a1 as [|c a1 IH]; intros [|c' a2] Hl H;
    rewrite ?string_app_cons, ?string_app_nil_l in *; simpl in *;
    try discriminate; [auto|].
  injection H as -> H. injection Hl as Hl.
  destruct (IH a2 Hl H) as [-> ->]. auto.
Qed.

#[export] Hint Rewrite string_app_cons string_app_nil_l string_app_assoc string_app_nil_r string_length_app : binbot_rw.

(** ** Generic lemmas on integer division *)

Local Open Scope Z_scope.

(** Floor division is characterised by its bracketing interval. *)
Lemma Z_div_bracket (x k q : Z) :
  0 < k -> k * q <= x < k * (q + 1) -> x / k = q.
Proof. intros. symmetry. apply Z.div_unique_pos with (x - k * q); lia. Qed.

Lemma Z_div_shift (x k q : Z) : 0 < k -> (x + k * q) / k = x / k + q.
Proof. intros. rewrite (Z.mul_comm k q). apply Z.div_add. lia. Qed.

Lemma Z_mod_shift (x k q : Z) : 0 < k -> (x + k * q) mod k = x mod k.
Proof. intros. rewrite (Z.mul_comm k q). apply Z.mod_add. lia. Qed.

(** ** Finite checks by evaluation *)

(** [p] holds on the [n] integers from [z]: a loop the virtual machine
    runs in constant stack. *)
Fixpoint all_in_range (p : Z -> bool) (n : nat) (z : Z) : bool :=
  match n with
  | O => true
  | S n' => if p z then all_in_range p n' (z + 1) else false
  end.

Lemma all_in_range_spec (p : Z -> bool) (n : nat) (z : Z) :
  all_in_range p n z = true -> forall x, z <= x < z + Z.of_nat n -> p x = true.
Proof.
  revert z. induction n as [|n IH]; intros z H x Hx; simpl in *; [lia|].
  destruct (p z) eqn:Hz; [|discriminate].
  destruct (Z.eq_dec x z) as [-> | Hne]; [done|]. apply (IH (z + 1)); [done | lia].
Qed.
