(* ===== verification/JsString.v ===== *)
(** * JavaScript string built-ins

    The string operations the two programs call, on ASCII strings (the
    feed titles and bin names are ASCII):
    - [split]: [String.prototype.split] with a one-character separator
      ([collectionDate.split(" ")], src/index.js:59, src/lambda/index.js:68);
    - [leading_digits]: the first match of [/^[0-9]*/]
      ([dateParts[1].match(/^[0-9]*/)], src/index.js:60,
      src/lambda/index.js:69), which always matches, possibly empty;
    - [digits_value]: the numeric value of a string of decimal digits;
    - [capitalize_first]: [s.replace(/^\w/, c => c.toUpperCase())]
      (src/index.js:179, src/lambda/index.js:145);
    - [to_lower]: [String.prototype.toLowerCase] (src/index.js:157);
    - [show_nat], [pad2], [number_to_string], [zero_pad]: decimal
      rendering of integers, as [String(n)], the two-digit fields of
      [toLocaleDateString("en-GB")] and the zero-padded fields of
      [toISOString];
    - [truthy] and [js_or]: [!v] and [v || d] for a configuration value,
      a string or [undefined] ([process.env.WEBHOOK_URL],
      [process.env.PORT]);
    - [json_quote]: [JSON.stringify] of a string, the QuoteJSONString of
      ECMA-262 with its short escapes and [\u00XX] for the other control
      characters (src/lambda/index.js:185).
    The theorems are the print/parse round trips that make these
    renderings injective, the adequacy of the fuel of the digit loop,
    and [split]/[join] round trips. *)

From S2P Require Import Prelude.

Local Open Scope Z_scope.

(** ** Characters *)

Definition is_digit (c : ascii) : bool :=
  (48 <=? nat_of_ascii c)%nat && (nat_of_ascii c <=? 57)%nat.

Definition is_lower (c : ascii) : bool :=
  (97 <=? nat_of_ascii c)%nat && (nat_of_ascii c <=? 122)%nat.

Definition is_upper (c : ascii) : bool :=
  (65 <=? nat_of_ascii c)%nat && (nat_of_ascii c <=? 90)%nat.

(** [\w] in a JavaScript regular expression: [[A-Za-z0-9_]]. *)
Definition is_word_char (c : ascii) : bool :=
  is_lower c || is_upper c || is_digit c || bool_decide (c = "_"%char).

Definition digit_value (c : ascii) : Z := Z.of_nat (nat_of_ascii c) - 48.

Definition digit_char (d : Z) : ascii := ascii_of_nat (48 + Z.to_nat d).
(* [simpl] would otherwise unfold the character code of a symbolic digit. *)
#[global] Arguments digit_char : simpl never.

Definition to_upper_char (c : ascii) : ascii :=
  if is_lower c then ascii_of_nat (nat_of_ascii c - 32) else c.

Definition to_lower_char (c : ascii) : ascii :=
  if is_upper c then ascii_of_nat (nat_of_ascii c + 32) else c.

(** ** String operations *)

(** [s.split(sep)] for a one-character separator: the pieces between
    separators, with empty pieces kept; [""].split(sep) is [[""]]. *)
Fixpoint split (sep : ascii) (s : string) : list string :=
  match s with
  | EmptyString => [EmptyString]
  | String c s' =>
      let r := split sep s' in
      if bool_decide (c = sep) then EmptyString :: r
      else match r with
           | t :: ts => String c t :: ts
           | [] => [String c EmptyString]
           end
  end.

(** [l.join(sep)], the inverse of [split] on separator-free pieces. *)
Fixpoint join (sep : ascii) (l : list string) : string :=
  match l with
  | [] => EmptyString
  | [t] => t
  | t :: ts => t +:+ String sep (join sep ts)
  end.

Fixpoint has_char (c : ascii) (s : string) : bool :=
  match s with
  | EmptyString => false
  | String c' s' => bool_decide (c' = c) || has_char c s'
  end.

(** The match of [/^[0-9]*/]: the longest prefix of decimal digits. *)
Fixpoint leading_digits (s : string) : string :=
  match s with
  | String c s' => if is_digit c then String c (leading_digits s') else EmptyString
  | EmptyString => EmptyString
  end.

Fixpoint all_digits (s : string) : bool :=
  match s with
  | EmptyString => true
  | String c s' => is_digit c && all_digits s'
  end.

(** Value of a digit string read left to right from an accumulator. *)
Fixpoint digits_value_from (acc : Z) (s : string) : Z :=
  match s with
  | EmptyString => acc
  | String c s' => digits_value_from (acc * 10 + digit_value c) s'
  end.

Definition digits_value (s : string) : Z := digits_value_from 0 s.

(** [s.replace(/^\w/, c => c.toUpperCase())] *)
Definition capitalize_first (s : string) : string :=
  match s with
  | String c s' => if is_word_char c then String (to_upper_char c) s' else s
  | EmptyString => EmptyString
  end.

(** [s.toLowerCase()] on ASCII. *)
Fixpoint to_lower (s : string) : string :=
  match s with
  | String c s' => String (to_lower_char c) (to_lower s')
  | EmptyString => EmptyString
  end.

(** ** Decimal rendering of integers *)

(** Most significant digits first; the fuel bounds the number of digits. *)
Fixpoint show_fuel (fuel : nat) (n : Z) : string :=
  match fuel with
  | O => EmptyString
  | S f =>
      if n <? 10 then String (digit_char n) EmptyString
      else show_fuel f (n / 10) +:+ String (digit_char (n mod 10)) EmptyString
  end.

(** [String(n)] for [n >= 0]: the number of binary digits of [n] is
    enough fuel, since [n < 2^(log2 n + 1) <= 10^(log2 n + 1)]. *)
Definition show_nat (n : Z) : string := show_fuel (S (Z.to_nat (Z.log2 n))) n.

(** [String(n)] for any integer. *)
Definition number_to_string (n : Z) : string :=
  if n <? 0 then "-" +:+ show_nat (- n) else show_nat n.

(** A two-digit field, as in the day and month of "09/07/2018". *)
Definition pad2 (n : Z) : string :=
  if n <? 10 then "0" +:+ show_nat n else show_nat n.

(** [k] zeros. *)
Fixpoint zeros (k : nat) : string :=
  match k with
  | O => EmptyString
  | S k => String "0" (zeros k)
  end.

(** [ToZeroPaddedDecimalString(n, k)]: [String(n)] with zeros in front
    up to [k] characters, as in the fields of [toISOString]. *)
Definition zero_pad (k : nat) (n : Z) : string :=
  zeros (k - String.length (show_nat n)) +:+ show_nat n.

(** ** Configuration values: a string or [undefined] *)

(** [!v] is false exactly for a non-empty string: [undefined] and ""
    are falsy. *)
Definition truthy (v : option string) : bool :=
  match v with
  | Some s => negb (bool_decide (s = EmptyString))
  | None => false
  end.

(** [v || d] for a string or [undefined]. *)
Definition js_or (v : option string) (d : string) : string :=
  if truthy v then str_or_undefined v else d.

(** ** [JSON.stringify] of a string *)

(** A lowercase hexadecimal digit. *)
Definition hex_digit (n : nat) : ascii :=
  if Nat.ltb n 10 then ascii_of_nat (48 + n) else ascii_of_nat (87 + n).

(** One character of QuoteJSONString: the short escapes, [\u00XX] for
    the other control characters, the character itself otherwise. *)
Definition json_escape (c : ascii) : string :=
  let n := nat_of_ascii c in
  if Nat.eqb n 8 then String "092" "b"
  else if Nat.eqb n 9 then String "092" "t"
  else if Nat.eqb n 10 then String "092" "n"
  else if Nat.eqb n 12 then String "092" "f"
  else if Nat.eqb n 13 then String "092" "r"
  else if Nat.eqb n 34 then String "092" (String "034" EmptyString)
  else if Nat.eqb n 92 then String "092" (String "092" EmptyString)
  else if Nat.ltb n 32 then
    String "092" ("u00" +:+ String (hex_digit (n / 16)) (String (hex_digit (n mod 16)) EmptyString))
  else String c EmptyString.

Fixpoint json_escape_all (s : string) : string :=
  match s with
  | EmptyString => EmptyString
  | String c r => json_escape c +:+ json_escape_all r
  end.

(** [JSON.stringify(s)] of a string [s]: QuoteJSONString. *)
Definition json_quote (s : string) : string :=
  String "034" (json_escape_all s +:+ String "034" EmptyString).

(** ** Characters: the finite facts *)

Lemma digit_value_char (d : Z) : 0 <= d < 10 -> digit_value (digit_char d) = d.
Proof.
  intros H. assert (d = 0 \/ d = 1 \/ d = 2 \/ d = 3 \/ d = 4 \/ d = 5 \/
                    d = 6 \/ d = 7 \/ d = 8 \/ d = 9) as Hd by lia.
  repeat destruct Hd as [-> | Hd]; subst; reflexivity.
Qed.

Lemma is_digit_char (d : Z) : 0 <= d < 10 -> is_digit (digit_char d) = true.
Proof.
  intros H. assert (d = 0 \/ d = 1 \/ d = 2 \/ d = 3 \/ d = 4 \/ d = 5 \/
                    d = 6 \/ d = 7 \/ d = 8 \/ d = 9) as Hd by lia.
  repeat destruct Hd as [-> | Hd]; subst; reflexivity.
Qed.

Lemma digit_value_bound (c : ascii) : is_digit c = true -> 0 <= digit_value c < 10.
Proof.
  unfold is_digit, digit_value. intros H.
  apply andb_true_iff in H as [H1 H2].
  apply Nat.leb_le in H1, H2. lia.
Qed.

#[export] Hint Resolve digit_value_char is_digit_char digit_value_bound : binbot.

(** ** Digit strings *)

Lemma digits_value_from_app (acc : Z) (a b : string) :
  digits_value_from acc (a +:+ b) = digits_value_from (digits_value_from acc a) b.
Proof. revert acc. induction a; intros acc; simpl; auto. Qed.

Lemma all_digits_app (a b : string) :
  all_digits (a +:+ b) = all_digits a && all_digits b.
Proof. induction a; simpl; [reflexivity|]. rewrite IHa, andb_assoc. reflexivity. Qed.

(** Appending a digit multiplies by ten and adds it. *)
Lemma digits_value_snoc (s : string) (c : ascii) :
  digits_value (s +:+ String c EmptyString) = digits_value s * 10 + digit_value c.
Proof. unfold digits_value. rewrite digits_value_from_app. reflexivity. Qed.

#[export] Hint Rewrite digits_value_snoc all_digits_app : binbot_rw.

(** Given [n < 10^fuel], the rendering with that fuel reads back as [n]. *)
Lemma show_fuel_value (f : nat) (n : Z) :
  0 <= n < 10 ^ Z.of_nat f -> digits_value (show_fuel f n) = n.
Proof.
  revert n. induction f as [|f IH]; intros n Hn; simpl show_fuel.
  - simpl in Hn. assert (n = 0) as -> by lia. reflexivity.
  - rewrite Nat2Z.inj_succ, Z.pow_succ_r in Hn by lia.
    destruct (Z.ltb_spec n 10).
    + unfold digits_value. simpl. rewrite digit_value_char; lia.
    + rewrite digits_value_snoc, IH, digit_value_char.
      * pose proof (Z.div_mod n 10). lia.
      * apply Z.mod_pos_bound. lia.
      * split; [apply Z.div_pos; lia | apply Z.div_lt_upper_bound; lia].
Qed.

Lemma show_fuel_digits (f : nat) (n : Z) : 0 <= n -> all_digits (show_fuel f n) = true.
Proof.
  revert n. induction f as [|f IH]; intros n Hn; cbn [show_fuel]; [reflexivity|].
  destruct (Z.ltb_spec n 10).
  - cbn [all_digits]. rewrite is_digit_char; [reflexivity | lia].
  - rewrite all_digits_app, IH by (apply Z.div_pos; lia). cbn [all_digits].
    rewrite is_digit_char; [reflexivity | apply Z.mod_pos_bound; lia].
Qed.

(** The fuel of [show_nat] is enough. *)
Lemma show_nat_fuel (n : Z) : 0 <= n -> n < 10 ^ Z.of_nat (S (Z.to_nat (Z.log2 n))).
Proof.
  intros Hn. rewrite Nat2Z.inj_succ, Z2Nat.id by apply Z.log2_nonneg.
  destruct (Z.eq_dec n 0) as [-> | Hn0]; [simpl; lia|].
  destruct (Z.log2_spec n) as [_ H2]; [lia|].
  assert (2 ^ Z.succ (Z.log2 n) <= 10 ^ Z.succ (Z.log2 n)).
  { apply Z.pow_le_mono_l. lia. }
  lia.
Qed.

Lemma show_fuel_S (f : nat) (n : Z) :
  show_fuel (S f) n =
  if n <? 10 then String (digit_char n) EmptyString
  else show_fuel f (n / 10) +:+ String (digit_char (n mod 10)) EmptyString.
Proof. reflexivity. Qed.

(** Two fuels that both cover the digits of [n] give the same string. *)
Lemma show_fuel_agree (f g : nat) (n : Z) :
  0 <= n -> n < 10 ^ Z.of_nat (S f) -> n < 10 ^ Z.of_nat (S g) ->
  show_fuel (S f) n = show_fuel (S g) n.
Proof.
  revert g n. induction f as [|f IH]; intros g n Hn Hf Hg;
    rewrite (show_fuel_S _ n), (show_fuel_S g n); destruct (Z.ltb_spec n 10); try reflexivity.
  - simpl in Hf. lia.
  - destruct g as [|g]; [simpl in Hg; lia|].
    rewrite Nat2Z.inj_succ, Z.pow_succ_r in Hf, Hg by lia.
    rewrite (IH g (n / 10)); [reflexivity | apply Z.div_pos; lia | |];
      apply Z.div_lt_upper_bound; lia.
Qed.

(** [String(n)] of a non-negative integer reads back as [n]. *)
Lemma show_nat_value (n : Z) : 0 <= n -> digits_value (show_nat n) = n.
Proof. intros Hn. apply show_fuel_value. split; [lia | apply show_nat_fuel; lia]. Qed.

Lemma show_nat_digits (n : Z) : 0 <= n -> all_digits (show_nat n) = true.
Proof. apply show_fuel_digits. Qed.

Lemma show_nat_nonempty (n : Z) : exists c s, show_nat n = String c s.
Proof.
  unfold show_nat. cbn [show_fuel]. case_tests; [eauto|].
  destruct (show_fuel _ (n / 10)); rewrite ?string_app_nil_l, ?string_app_cons; eauto.
Qed.

Lemma show_nat_inj (a b : Z) : 0 <= a -> 0 <= b -> show_nat a = show_nat b -> a = b.
Proof.
  intros Ha Hb H. rewrite <- (show_nat_value a), <- (show_nat_value b) by done.
  by rewrite H.
Qed.

#[export] Hint Rewrite show_nat_value using lia : binbot_rw.

(** ** Zero-padded fields *)

Lemma show_fuel_length (f : nat) (n : Z) : (String.length (show_fuel f n) <= f)%nat.
Proof.
  revert n. induction f as [|f IH]; intros n; cbn [show_fuel]; [simpl; lia|].
  destruct (n <? 10); [simpl; lia|].
  rewrite string_length_app. specialize (IH (n / 10)). simpl. lia.
Qed.

(** [String(n)] has at most [k] digits when [n < 10^k]. *)
Lemma show_nat_length (k : nat) (n : Z) :
  0 <= n < 10 ^ Z.of_nat k -> (0 < k)%nat -> (String.length (show_nat n) <= k)%nat.
Proof.
  intros Hn Hk. destruct k as [|k]; [lia|]. unfold show_nat.
  rewrite (show_fuel_agree _ k n); [apply show_fuel_length | lia | apply show_nat_fuel; lia | lia].
Qed.

Lemma zeros_length (k : nat) : String.length (zeros k) = k.
Proof. induction k; simpl; congruence. Qed.

Lemma zeros_value (k : nat) : digits_value_from 0 (zeros k) = 0.
Proof. induction k; [reflexivity | exact IHk]. Qed.

Lemma zeros_digits (k : nat) : all_digits (zeros k) = true.
Proof. induction k; [reflexivity | exact IHk]. Qed.

Lemma zero_pad_length (k : nat) (n : Z) :
  0 <= n < 10 ^ Z.of_nat k -> (0 < k)%nat -> String.length (zero_pad k n) = k.
Proof.
  intros Hn Hk. pose proof (show_nat_length k n Hn Hk).
  unfold zero_pad. rewrite string_length_app, zeros_length. lia.
Qed.

Lemma zero_pad_value (k : nat) (n : Z) : 0 <= n -> digits_value (zero_pad k n) = n.
Proof.
  intros Hn. unfold zero_pad, digits_value.
  rewrite digits_value_from_app, zeros_value. by apply show_nat_value.
Qed.

Lemma zero_pad_digits (k : nat) (n : Z) : 0 <= n -> all_digits (zero_pad k n) = true.
Proof.
  intros Hn. unfold zero_pad. rewrite all_digits_app, zeros_digits. by apply show_nat_digits.
Qed.

Lemma zero_pad_inj (k : nat) (a b : Z) : 0 <= a -> 0 <= b -> zero_pad k a = zero_pad k b -> a = b.
Proof.
  intros Ha Hb H. rewrite <- (zero_pad_value k a), <- (zero_pad_value k b) by done. by rewrite H.
Qed.

(** The regular expression [/^[0-9]*/] returns a digit prefix that is
    followed by a non-digit or by the end of the string. *)
Lemma leading_digits_app (a rest : string) :
  all_digits a = true ->
  match rest with String c _ => is_digit c = false | EmptyString => True end ->
  leading_digits (a +:+ rest) = a.
Proof.
  intros Ha Hr. induction a as [|c a IH]; simpl in *.
  - destruct rest as [|c r]; simpl; [reflexivity|]. by rewrite Hr.
  - apply andb_true_iff in Ha as [-> Ha]. by rewrite IH.
Qed.

(** Signed rendering: [String(n)] is injective on all integers. *)
Lemma number_to_string_inj (a b : Z) : number_to_string a = number_to_string b -> a = b.
Proof.
  unfold number_to_string. intros H.
  destruct (Z.ltb_spec a 0), (Z.ltb_spec b 0).
  - injection H as H. apply show_nat_inj in H; lia.
  - pose proof (show_nat_digits b ltac:(lia)) as Hd. rewrite <- H in Hd. discriminate.
  - pose proof (show_nat_digits a ltac:(lia)) as Hd. rewrite H in Hd. discriminate.
  - apply show_nat_inj; [lia | lia | exact H].
Qed.

(** The two-digit fields, checked over their whole domain [0..99]. *)
Definition pad2_ok (n : Z) : bool :=
  Nat.eqb (String.length (pad2 n)) 2 && all_digits (pad2 n) && Z.eqb (digits_value (pad2 n)) n.

Lemma pad2_ok_all : forallb pad2_ok (map Z.of_nat (seq 0 100)) = true.
Proof. vm_compute. reflexivity. Qed.

Lemma pad2_ok_spec (n : Z) : 0 <= n < 100 -> pad2_ok n = true.
Proof.
  intros Hn. pose proof pad2_ok_all as H. rewrite forallb_forall in H.
  apply H, in_map_iff. exists (Z.to_nat n). split; [lia|]. apply in_seq. lia.
Qed.

Lemma pad2_length (n : Z) : 0 <= n < 100 -> String.length (pad2 n) = 2%nat.
Proof.
  intros Hn. pose proof (pad2_ok_spec n Hn) as H. unfold pad2_ok in H.
  apply andb_true_iff in H as [H _]. apply andb_true_iff in H as [H _].
  by apply Nat.eqb_eq.
Qed.

Lemma pad2_value (n : Z) : 0 <= n < 100 -> digits_value (pad2 n) = n.
Proof.
  intros Hn. pose proof (pad2_ok_spec n Hn) as H. unfold pad2_ok in H.
  apply andb_true_iff in H as [_ H]. by apply Z.eqb_eq.
Qed.

Lemma pad2_digits (n : Z) : 0 <= n < 100 -> all_digits (pad2 n) = true.
Proof.
  intros Hn. pose proof (pad2_ok_spec n Hn) as H. unfold pad2_ok in H.
  by apply andb_true_iff in H as [[_ H]%andb_true_iff _].
Qed.

(** A two-digit field starts with a digit. *)
Lemma pad2_shape (n : Z) :
  0 <= n < 100 -> exists c r, pad2 n = String c r /\ is_digit c = true.
Proof.
  intros Hn. pose proof (pad2_length n Hn). pose proof (pad2_digits n Hn).
  destruct (pad2 n) as [|c r]; [discriminate|]. exists c, r. split; [done|].
  cbn [all_digits] in *. by apply andb_true_iff in H0 as [-> _].
Qed.

Lemma pad2_inj (a b : Z) : 0 <= a < 100 -> 0 <= b < 100 -> pad2 a = pad2 b -> a = b.
Proof.
  intros Ha Hb H. rewrite <- (pad2_value a), <- (pad2_value b) by done. by rewrite H.
Qed.

(** ** Splitting and joining *)

Lemma split_no_sep (sep : ascii) (s : string) :
  has_char sep s = false -> split sep s = [s].
Proof.
  induction s as [|c s IH]; intros H; [reflexivity|]. cbn [has_char] in H.
  apply orb_false_iff in H as [Hc%bool_decide_eq_false H]. cbn [split].
  by rewrite IH, bool_decide_false.
Qed.

Lemma split_app_sep (sep : ascii) (a b : string) :
  has_char sep a = false -> split sep (a +:+ String sep b) = a :: split sep b.
Proof.
  induction a as [|c a IH]; intros H.
  - rewrite string_app_nil_l. cbn [split]. by rewrite bool_decide_true.
  - cbn [has_char] in H. apply orb_false_iff in H as [Hc%bool_decide_eq_false H].
    rewrite string_app_cons. cbn [split]. by rewrite IH, bool_decide_false.
Qed.

(** [split] after [join] gives back the pieces when no piece holds the
    separator. *)
Lemma split_join (sep : ascii) (l : list string) :
  l <> [] -> Forall (fun t => has_char sep t = false) l -> split sep (join sep l) = l.
Proof.
  induction l as [|t ts IH]; intros Hne Hl; [done|].
  apply Forall_cons_iff in Hl as [Ht Hts]. destruct ts as [|t' ts].
  - by apply split_no_sep.
  - change (join sep (t :: t' :: ts)) with (t +:+ String sep (join sep (t' :: ts))).
    rewrite split_app_sep, IH by done. reflexivity.
Qed.

Lemma all_digits_no_space (s : string) : all_digits s = true -> has_char " " s = false.
Proof.
  induction s as [|c s IH]; intros H; [reflexivity|]. cbn [all_digits has_char] in *.
  apply andb_true_iff in H as [Hc H]. rewrite IH by done.
  destruct (bool_decide (c = " "%char)) eqn:E; [|reflexivity].
  apply bool_decide_eq_true in E. subst. discriminate.
Qed.

Lemma has_char_app (c : ascii) (a b : string) :
  has_char c (a +:+ b) = has_char c a || has_char c b.
Proof.
  induction a as [|c' a IH]; [reflexivity|].
  rewrite string_app_cons. cbn [has_char]. by rewrite IH, orb_assoc.
Qed.

#[export] Hint Rewrite has_char_app : binbot_rw.

Lemma show_nat_ne_empty (n : Z) : bool_decide (show_nat n = EmptyString) = false.
Proof. destruct (show_nat_nonempty n) as (c & s & ->). reflexivity. Qed.

(** [s.split(sep)[0]] for a non-empty separator: the text before the
    first occurrence of [sep]. *)
Fixpoint split_head (sep s : string) : string :=
  match s with
  | EmptyString => EmptyString
  | String c s' => if String.prefix sep s then EmptyString else String c (split_head sep s')
  end.

Lemma prefix_app (s t : string) : String.prefix s (s +:+ t) = true.
Proof.
  induction s as [|c s IH]; [by destruct t|].
  rewrite string_app_cons. cbn. destruct (ascii_dec c c); [done | congruence].
Qed.

(** The text before a separator that starts with a space, when the text
    has no space. *)
Lemma split_head_app (sep' a rest : string) :
  has_char " " a = false ->
  split_head (String " " sep') (a +:+ String " " sep' +:+ rest) = a.
Proof.
  induction a as [|c a IH]; intros H.
  - rewrite string_app_nil_l, string_app_cons. cbn [split_head].
    by rewrite <- string_app_cons, prefix_app.
  - cbn [has_char] in H. apply orb_false_iff in H as [Hc%bool_decide_eq_false H].
    rewrite string_app_cons. cbn [split_head String.prefix].
    destruct (ascii_dec " " c) as [E|_]; [by symmetry in E|]. by rewrite IH.
Qed.

(** A rendered number followed by anything never equals a string that
    starts with a non-digit. *)
Lemma show_nat_app_neq (n : Z) (r : string) (c : ascii) (s : string) :
  0 <= n -> is_digit c = false -> show_nat n +:+ r <> String c s.
Proof.
  intros Hn Hc. pose proof (show_nat_digits n Hn) as Hd.
  destruct (show_nat_nonempty n) as (c' & s' & E). rewrite E in *.
  rewrite string_app_cons. intros H. injection H as -> _.
  cbn [all_digits] in Hd. rewrite Hc in Hd. discriminate.
Qed.

(** [String(n)] for a non-negative integer is a non-empty string of
    decimal digits whose value is [n]. *)
Theorem show_nat_parse (n : Z) :
  0 <= n -> show_nat n <> "" /\ all_digits (show_nat n) = true /\ digits_value (show_nat n) = n.
Proof.
  intros Hn. destruct (show_nat_nonempty n) as (c & s & E).
  split; [by rewrite E|]. split; [by apply show_nat_digits | by apply show_nat_value].
Qed.

Lemma show_nat_parse_witness :
  show_nat 2018 <> "" /\ all_digits (show_nat 2018) = true /\ digits_value (show_nat 2018) = 2018.
Proof. apply show_nat_parse. lia. Defined.

