(* ===== verification/Calendar.v ===== *)
(** * Time values and the calendar

    What the code takes from the JavaScript [Date] object and from
    date-fns v1, at millisecond precision:
    - the proleptic Gregorian calendar: [days_from_civil] and
      [civil_from_days] between day numbers (days since 1970-01-01) and
      civil dates, as ECMAScript's [MakeDay], [YearFromTime],
      [MonthFromTime] and [DateFromTime] define them;
    - time values: [MakeTime], [MakeDate], [TimeClip], the fields
      [HourFromTime], [MinFromTime], [SecFromTime], [msFromTime], and the local-time
      conversions under a fixed time-zone offset [tza] (no daylight
      saving), in a Section whose variable [tza] every local-time
      definition takes;
    - [new Date(y, m, d, h, mi, s, ms)] ([new_Date_local]),
      [toLocaleDateString("en-GB")] ([toLocaleDateString_enGB]),
      [toISOString] (with [iso_year]),
      date-fns [addDays], [isAfter] and [distanceInWordsStrict] with
      [{unit: "d"}] ([distance_in_days], [distanceInWordsStrict_days]).
    The two calendar conversions are inverse to each other: the year
    search is proved with linear arithmetic, and the month table is
    checked by evaluation on its 732 entries.  [toISOString] is
    injective on the years 0 to 9999: its fixed-width fields are peeled
    off one by one ([peel_iso]). *)

From S2P Require Import Prelude JsString.

Local Open Scope Z_scope.

(** ** Civil dates *)

(** A calendar date; [c_month] runs from 1 to 12. *)
Record civil := mk_civil { c_year : Z; c_month : Z; c_day : Z }.

#[export] Instance civil_eq_dec : EqDecision civil.
Proof. solve_decision. Defined.

Definition is_leap (y : Z) : bool :=
  (y mod 4 =? 0) && (negb (y mod 100 =? 0) || (y mod 400 =? 0)).

Definition days_in_month (y m : Z) : Z :=
  if m =? 2 then (if is_leap y then 29 else 28)
  else if (m =? 4) || (m =? 6) || (m =? 9) || (m =? 11) then 30 else 31.

Definition valid_civil (c : civil) : bool :=
  (1 <=? c_month c) && (c_month c <=? 12) &&
  (1 <=? c_day c) && (c_day c <=? days_in_month (c_year c) (c_month c)).

(** [DaysInYear] as a 0/1 leap indicator: [InLeapYear]. *)
Definition InLeapYear (y : Z) : Z := if is_leap y then 1 else 0.

(** [DayFromYear(y)]: the day number of 1 January of year [y]. *)
Definition DayFromYear (y : Z) : Z :=
  365 * (y - 1970) + (y - 1969) / 4 - (y - 1901) / 100 + (y - 1601) / 400.

(** [YearFromTime], on day numbers: the largest [y] with
    [DayFromYear y <= z].  The estimate [1970 + 400 z / 146097] is off
    by at most one year, which the two tests correct. *)
Definition YearFromDay (z : Z) : Z :=
  let y0 := 1970 + (400 * z) / 146097 in
  if DayFromYear (y0 + 1) <=? z then y0 + 1
  else if DayFromYear y0 <=? z then y0
  else y0 - 1.

Definition DayWithinYear (z : Z) : Z := z - DayFromYear (YearFromDay z).

(** Days of the year before the first day of the 0-based month [m0]
    (the table of [MonthFromTime]), [leap] being 0 or 1. *)
Definition month_start (m0 leap : Z) : Z :=
  match m0 with
  | 0 => 0 | 1 => 31 | 2 => 59 + leap | 3 => 90 + leap
  | 4 => 120 + leap | 5 => 151 + leap | 6 => 181 + leap | 7 => 212 + leap
  | 8 => 243 + leap | 9 => 273 + leap | 10 => 304 + leap | 11 => 334 + leap
  | _ => 365 + leap
  end.

(** [MonthFromTime] on a day of the year: the last month whose start is
    at most [doy]. *)
Definition month_of_doy (doy leap : Z) : Z :=
  if doy <? month_start 1 leap then 0
  else if doy <? month_start 2 leap then 1
  else if doy <? month_start 3 leap then 2
  else if doy <? month_start 4 leap then 3
  else if doy <? month_start 5 leap then 4
  else if doy <? month_start 6 leap then 5
  else if doy <? month_start 7 leap then 6
  else if doy <? month_start 8 leap then 7
  else if doy <? month_start 9 leap then 8
  else if doy <? month_start 10 leap then 9
  else if doy <? month_start 11 leap then 10
  else 11.

(** [MonthFromTime] (0-based) and [DateFromTime] on day numbers. *)
Definition MonthFromDay (z : Z) : Z :=
  month_of_doy (DayWithinYear z) (InLeapYear (YearFromDay z)).

Definition DateFromDay (z : Z) : Z :=
  DayWithinYear z - month_start (MonthFromDay z) (InLeapYear (YearFromDay z)) + 1.

(** Civil date of a day number. *)
Definition civil_from_days (z : Z) : civil :=
  mk_civil (YearFromDay z) (MonthFromDay z + 1) (DateFromDay z).

(** Day number of a civil date with a month in 1..12. *)
Definition days_from_civil (y m d : Z) : Z :=
  DayFromYear y + month_start (m - 1) (InLeapYear y) + d - 1.

(** ** ECMAScript time values *)

Definition msPerSecond : Z := 1000.
Definition msPerMinute : Z := 60000.
Definition msPerHour : Z := 3600000.
Definition msPerDay : Z := 86400000.

(** [Day(t)] and [TimeWithinDay(t)]. *)
Definition Day (t : Z) : Z := t / msPerDay.
Definition TimeWithinDay (t : Z) : Z := t mod msPerDay.

Definition MakeTime (h mi s ms : Z) : Z :=
  h * msPerHour + mi * msPerMinute + s * msPerSecond + ms.

(** [HourFromTime], [MinFromTime], [SecFromTime], [msFromTime]: the
    fields of a time value, as the [get*] methods read them. *)
Definition HourFromTime (t : Z) : Z := (t / msPerHour) mod 24.
Definition MinFromTime (t : Z) : Z := (t / msPerMinute) mod 60.
Definition SecFromTime (t : Z) : Z := (t / msPerSecond) mod 60.
Definition msFromTime (t : Z) : Z := t mod msPerSecond.

(** [MakeDay(year, month, date)] with a 0-based month that may overflow
    into the following years, and a date that may overflow the month. *)
Definition MakeDay (year month date : Z) : Z :=
  let ym := year + month / 12 in
  let mn := month mod 12 in
  DayFromYear ym + month_start mn (InLeapYear ym) + date - 1.

Definition MakeDate (day time : Z) : Z := day * msPerDay + time.

(** [TimeClip]: a time value beyond 8.64e15 ms is NaN ([None]). *)
Definition TimeClip (t : Z) : option Z :=
  if Z.abs t <=? 8640000000000000 then Some t else None.

(** [isAfter(a, b)] of date-fns: a comparison of time values, false as
    soon as one of them is NaN. *)
Definition isAfter (a b : option Z) : bool :=
  match a, b with
  | Some x, Some y => y <? x
  | _, _ => false
  end.

(** [Date.prototype.toISOString()]: "YYYY-MM-DDTHH:mm:ss.sssZ" in UTC,
    the year as four digits in 0..9999 and otherwise as a sign and six
    digits; a [RangeError] for an invalid date. *)
Definition iso_year (y : Z) : string :=
  if (0 <=? y) && (y <=? 9999) then zero_pad 4 y
  else (if y <? 0 then "-" else "+") +:+ zero_pad 6 (Z.abs y).

Definition toISOString (t : option Z) : outcome string :=
  match t with
  | None => Throw (RangeError "Invalid time value")
  | Some t =>
      let c := civil_from_days (Day t) in
      Ok (iso_year (c_year c) +:+ "-" +:+ zero_pad 2 (c_month c) +:+ "-" +:+ zero_pad 2 (c_day c) +:+
          "T" +:+ zero_pad 2 (HourFromTime t) +:+ ":" +:+ zero_pad 2 (MinFromTime t) +:+ ":" +:+
          zero_pad 2 (SecFromTime t) +:+ "." +:+ zero_pad 3 (msFromTime t) +:+ "Z")
  end.

Section LocalTime.

(** The local time-zone adjustment in milliseconds, fixed (no daylight
    saving). *)
Variable tza : Z.

Definition LocalTime (t : Z) : Z := t + tza.
Definition UTC (l : Z) : Z := l - tza.

(** Local calendar date of a time value: [getFullYear], [getMonth] + 1
    and [getDate]. *)
Definition local_day (t : Z) : Z := Day (LocalTime t).
Definition local_date (t : Z) : civil := civil_from_days (local_day t).

(** [new Date(y, m, d, h, mi, s, ms)] in local time, [m] 0-based. *)
Definition new_Date_local (y m d h mi s ms : Z) : option Z :=
  TimeClip (UTC (MakeDate (MakeDay y m d) (MakeTime h mi s ms))).

(** [toLocaleDateString("en-GB")]: "DD/MM/YYYY", or "Invalid Date". *)
Definition toLocaleDateString_enGB (t : option Z) : string :=
  match t with
  | None => "Invalid Date"
  | Some t =>
      let c := local_date t in
      pad2 (c_day c) +:+ "/" +:+ pad2 (c_month c) +:+ "/" +:+ number_to_string (c_year c)
  end.

(** date-fns v1 [addDays(date, n)]: [date.setDate(date.getDate() + n)],
    which keeps the local time of day. *)
Definition addDays (t n : Z) : option Z :=
  let l := LocalTime t in
  let c := civil_from_days (Day l) in
  TimeClip (UTC (MakeDate (MakeDay (c_year c) (c_month c - 1) (c_day c + n))
                          (TimeWithinDay l))).

End LocalTime.

(** date-fns v1 [distanceInWordsStrict(a, b, {unit: "d"})]: the larger
    date minus the smaller in whole seconds, then whole minutes
    ([Math.floor]) minus the difference of the two time-zone offsets
    (zero under a fixed offset), then whole days. *)
Definition distance_in_days (a b : Z) : Z :=
  let seconds := Z.abs (b - a) / msPerSecond in
  let minutes := seconds / 60 - 0 in
  minutes / 1440.

(** The English [xDays] phrase: "1 day", otherwise "N days". *)
Definition xDays (days : Z) : string :=
  if days =? 1 then "1 day" else number_to_string days +:+ " days".

Definition distanceInWordsStrict_days (a b : Z) : string := xDays (distance_in_days a b).

(** ** The year of a day number *)

Lemma DayFromYear_succ (y : Z) :
  DayFromYear (y + 1) = DayFromYear y + 365 + InLeapYear y.
Proof. unfold DayFromYear, InLeapYear, is_leap. case_tests; simpl; lia_div. Qed.

Lemma DayFromYear_mono (a b : Z) : a <= b -> DayFromYear a <= DayFromYear b.
Proof. unfold DayFromYear. intros. lia_div. Qed.

Lemma InLeapYear_bound (y : Z) : 0 <= InLeapYear y <= 1.
Proof. unfold InLeapYear. destruct (is_leap y); lia. Qed.

(** The estimate of [YearFromDay] is within one year of the answer. *)
Lemma year_estimate (z : Z) :
  let y0 := 1970 + (400 * z) / 146097 in
  DayFromYear (y0 - 1) <= z < DayFromYear (y0 + 2).
Proof. unfold DayFromYear. simpl. lia_div. Qed.

(** [YearFromDay z] is the year whose days contain [z]. *)
Lemma YearFromDay_spec (z : Z) :
  DayFromYear (YearFromDay z) <= z < DayFromYear (YearFromDay z + 1).
Proof.
  pose proof (year_estimate z) as He. unfold YearFromDay. cbv zeta in *.
  set (y0 := 1970 + (400 * z) / 146097) in *.
  pose proof (DayFromYear_succ (y0 + 1)) as H2. pose proof (InLeapYear_bound (y0 + 1)).
  replace (y0 + 1 + 1) with (y0 + 2) in H2 by lia.
  case_tests; [replace (y0 + 1 + 1) with (y0 + 2) by lia | |
               replace (y0 - 1 + 1) with y0 by lia]; lia.
Qed.

Lemma YearFromDay_unique (y z : Z) :
  DayFromYear y <= z < DayFromYear (y + 1) -> YearFromDay z = y.
Proof.
  intros Hz. pose proof (YearFromDay_spec z) as Hs.
  destruct (Z.lt_trichotomy (YearFromDay z) y) as [Hlt | [Heq | Hgt]]; [| done |].
  - pose proof (DayFromYear_mono (YearFromDay z + 1) y). lia.
  - pose proof (DayFromYear_mono (y + 1) (YearFromDay z)). lia.
Qed.

Lemma DayWithinYear_bound (z : Z) :
  0 <= DayWithinYear z < 365 + InLeapYear (YearFromDay z).
Proof.
  unfold DayWithinYear. pose proof (YearFromDay_spec z).
  pose proof (DayFromYear_succ (YearFromDay z)). lia.
Qed.

(** ** The month table, checked on its whole domain *)

(** Every day of a year falls in one month, between its start and the
    next month's. *)
Definition month_table_ok (leap : Z) : bool :=
  all_in_range (fun doy =>
    let m0 := month_of_doy doy leap in
    (0 <=? m0) && (m0 <? 12) &&
    (month_start m0 leap <=? doy) && (doy <? month_start (m0 + 1) leap))
    (Z.to_nat (365 + leap)) 0.

Lemma month_table_ok_all : month_table_ok 0 = true /\ month_table_ok 1 = true.
Proof. split; vm_compute; reflexivity. Qed.

Lemma month_of_doy_spec (doy leap : Z) :
  0 <= leap <= 1 -> 0 <= doy < 365 + leap ->
  0 <= month_of_doy doy leap < 12 /\
  month_start (month_of_doy doy leap) leap <= doy < month_start (month_of_doy doy leap + 1) leap.
Proof.
  intros Hl Hd. destruct month_table_ok_all as [H0 H1].
  assert (month_table_ok leap = true) as H by (destruct (Z.eq_dec leap 0) as [->|]; [done|];
    replace leap with 1 by lia; done).
  unfold month_table_ok in H.
  pose proof (all_in_range_spec _ _ _ H doy ltac:(rewrite Z2Nat.id; lia)) as Hm.
  cbv beta zeta in Hm. zbool_hyps. lia.
Qed.

(** The table is monotone: a month starts after the months before it. *)
Lemma month_start_mono (m m' leap : Z) :
  0 <= leap <= 1 -> 0 <= m <= m' -> m' <= 12 -> month_start m leap <= month_start m' leap.
Proof.
  intros Hl Hm Hm'.
  assert (m = 0 \/ m = 1 \/ m = 2 \/ m = 3 \/ m = 4 \/ m = 5 \/ m = 6 \/ m = 7 \/
          m = 8 \/ m = 9 \/ m = 10 \/ m = 11 \/ m = 12) as Hc by lia.
  assert (m' = 0 \/ m' = 1 \/ m' = 2 \/ m' = 3 \/ m' = 4 \/ m' = 5 \/ m' = 6 \/ m' = 7 \/
          m' = 8 \/ m' = 9 \/ m' = 10 \/ m' = 11 \/ m' = 12) as Hc' by lia.
  repeat destruct Hc as [-> | Hc]; repeat destruct Hc' as [-> | Hc']; subst; simpl; lia.
Qed.

(** A day within a month finds that month back. *)
Lemma month_of_doy_inv (m0 doy leap : Z) :
  0 <= leap <= 1 -> 0 <= m0 < 12 ->
  month_start m0 leap <= doy < month_start (m0 + 1) leap ->
  month_of_doy doy leap = m0.
Proof.
  intros Hl Hm Hd.
  assert (0 <= doy < 365 + leap).
  { pose proof (month_start_mono 0 m0 leap). pose proof (month_start_mono (m0 + 1) 12 leap).
    simpl in *. lia. }
  destruct (month_of_doy_spec doy leap) as [Hb [Hlo Hhi]]; [lia | lia |].
  destruct (Z.lt_trichotomy (month_of_doy doy leap) m0) as [Hlt | [Heq | Hgt]]; [| done |].
  - pose proof (month_start_mono (month_of_doy doy leap + 1) m0 leap). lia.
  - pose proof (month_start_mono (m0 + 1) (month_of_doy doy leap) leap). lia.
Qed.

(** The table agrees with the lengths of the months. *)
Lemma month_start_days (y m0 : Z) :
  0 <= m0 < 12 ->
  month_start (m0 + 1) (InLeapYear y) - month_start m0 (InLeapYear y) = days_in_month y (m0 + 1).
Proof.
  intros Hm. unfold days_in_month, InLeapYear.
  assert (m0 = 0 \/ m0 = 1 \/ m0 = 2 \/ m0 = 3 \/ m0 = 4 \/ m0 = 5 \/ m0 = 6 \/ m0 = 7 \/
          m0 = 8 \/ m0 = 9 \/ m0 = 10 \/ m0 = 11) as Hc by lia.
  repeat destruct Hc as [-> | Hc]; subst; destruct (is_leap y); simpl; lia.
Qed.

(** ** The two conversions are inverse to each other *)

Lemma MonthFromDay_bound (z : Z) : 0 <= MonthFromDay z < 12.
Proof.
  unfold MonthFromDay. pose proof (DayWithinYear_bound z).
  pose proof (InLeapYear_bound (YearFromDay z)).
  apply month_of_doy_spec; lia.
Qed.

(** Day number, civil date, day number: the identity on every integer. *)
Lemma days_from_civil_of_days (z : Z) :
  days_from_civil (c_year (civil_from_days z)) (c_month (civil_from_days z))
                  (c_day (civil_from_days z)) = z.
Proof.
  unfold days_from_civil, civil_from_days, DateFromDay, DayWithinYear. cbn [c_year c_month c_day].
  replace (MonthFromDay z + 1 - 1) with (MonthFromDay z) by lia. lia.
Qed.

Lemma civil_from_days_inj (a b : Z) : civil_from_days a = civil_from_days b -> a = b.
Proof.
  intros H. rewrite <- (days_from_civil_of_days a), <- (days_from_civil_of_days b), H.
  reflexivity.
Qed.

Lemma days_in_month_bound (y m : Z) : 28 <= days_in_month y m <= 31.
Proof. unfold days_in_month. repeat case_match; lia. Qed.

(** Every day number names a valid calendar date. *)
Lemma civil_from_days_valid (z : Z) : valid_civil (civil_from_days z) = true.
Proof.
  pose proof (DayWithinYear_bound z). pose proof (InLeapYear_bound (YearFromDay z)).
  destruct (month_of_doy_spec (DayWithinYear z) (InLeapYear (YearFromDay z)))
    as [Hm [Hlo Hhi]]; [lia | lia |].
  pose proof (month_start_days (YearFromDay z) (MonthFromDay z) (MonthFromDay_bound z)).
  unfold valid_civil, civil_from_days, DateFromDay, MonthFromDay in *. cbn [c_year c_month c_day].
  case_tests; simpl; lia.
Qed.

Lemma civil_from_days_bounds (z : Z) :
  1 <= c_month (civil_from_days z) <= 12 /\ 1 <= c_day (civil_from_days z) <= 31.
Proof.
  pose proof (civil_from_days_valid z) as H. unfold valid_civil in H. zbool_hyps.
  pose proof (days_in_month_bound (c_year (civil_from_days z)) (c_month (civil_from_days z))).
  lia.
Qed.

(** A valid calendar date, turned into its day number, is
    read back unchanged. *)
Theorem civil_from_days_of_civil (y m d : Z) :
  valid_civil (mk_civil y m d) = true -> civil_from_days (days_from_civil y m d) = mk_civil y m d.
Proof.
  unfold valid_civil. cbn [c_year c_month c_day]. intros H. zbool_hyps.
  pose proof (InLeapYear_bound y) as Hl. pose proof (DayFromYear_succ y).
  pose proof (month_start_days y (m - 1) ltac:(lia)) as Hms.
  replace (m - 1 + 1) with m in Hms by lia.
  pose proof (month_start_mono 0 (m - 1) (InLeapYear y) Hl ltac:(lia) ltac:(lia)).
  pose proof (month_start_mono m 12 (InLeapYear y) Hl ltac:(lia) ltac:(lia)).
  replace (month_start m (InLeapYear y)) with (month_start (m - 1 + 1) (InLeapYear y))
    in * by (f_equal; lia).
  cbn in * |- .
  assert (YearFromDay (days_from_civil y m d) = y) as Hy.
  { apply YearFromDay_unique. unfold days_from_civil. simpl in *. lia. }
  assert (DayWithinYear (days_from_civil y m d) = month_start (m - 1) (InLeapYear y) + d - 1)
    as Hd by (unfold DayWithinYear; rewrite Hy; unfold days_from_civil; lia).
  assert (MonthFromDay (days_from_civil y m d) = m - 1) as Hm.
  { unfold MonthFromDay. rewrite Hd, Hy. apply month_of_doy_inv; lia. }
  unfold civil_from_days, DateFromDay. rewrite Hm, Hd, Hy. f_equal; lia.
Qed.

(** [MakeDay] on the fields of a day's date, with the date moved by [n]
    days, is that day plus [n]: the month never overflows. *)
Lemma MakeDay_civil (z n : Z) :
  MakeDay (c_year (civil_from_days z)) (c_month (civil_from_days z) - 1)
          (c_day (civil_from_days z) + n) = z + n.
Proof.
  pose proof (MonthFromDay_bound z).
  unfold MakeDay, civil_from_days. cbn [c_year c_month c_day].
  replace (MonthFromDay z + 1 - 1) with (MonthFromDay z) by lia.
  rewrite Z.div_small, Z.mod_small, Z.add_0_r by lia.
  unfold DateFromDay, DayWithinYear. lia.
Qed.

(** ** Local time *)

Section LocalTimeFacts.

Variable tza : Z.

Lemma local_day_UTC (d tm : Z) :
  0 <= tm < msPerDay -> local_day tza (UTC tza (MakeDate d tm)) = d.
Proof.
  intros Htm. unfold local_day, LocalTime, UTC, MakeDate, Day.
  apply Z_div_bracket; unfold msPerDay in *; lia.
Qed.

(** [addDays(t, n)] moves a time value by [n] whole days. *)
Lemma addDays_spec (t n : Z) : addDays tza t n = TimeClip (t + n * msPerDay).
Proof.
  unfold addDays. rewrite MakeDay_civil. f_equal.
  unfold UTC, MakeDate, TimeWithinDay, LocalTime, Day.
  pose proof (Z.div_mod (t + tza) msPerDay). unfold msPerDay in *. lia.
Qed.

(** [new Date(getFullYear(), getMonth(), getDate(), h, mi, s, ms)] is
    that time of the same local day. *)
Lemma new_Date_local_same_day (t h mi s ms : Z) :
  new_Date_local tza (c_year (local_date tza t)) (c_month (local_date tza t) - 1)
                 (c_day (local_date tza t)) h mi s ms =
  TimeClip (UTC tza (MakeDate (local_day tza t) (MakeTime h mi s ms))).
Proof.
  unfold new_Date_local, local_date.
  pose proof (MakeDay_civil (local_day tza t) 0) as H. rewrite !Z.add_0_r in H.
  by rewrite H.
Qed.

(** Two valid dates print the same "DD/MM/YYYY" exactly when they fall
    on the same local day. *)
Lemma toLocaleDateString_enGB_eq (a b : Z) :
  toLocaleDateString_enGB tza (Some a) = toLocaleDateString_enGB tza (Some b) <->
  local_day tza a = local_day tza b.
Proof.
  split; [|intros H; unfold toLocaleDateString_enGB, local_date; by rewrite H].
  unfold toLocaleDateString_enGB, local_date. intros H.
  apply civil_from_days_inj.
  pose proof (civil_from_days_bounds (local_day tza a)) as Ba.
  pose proof (civil_from_days_bounds (local_day tza b)) as Bb.
  destruct (civil_from_days (local_day tza a)) as [ya ma da],
           (civil_from_days (local_day tza b)) as [yb mb db]; cbn in *.
  assert (String.length (pad2 da) = String.length (pad2 db)) as L1
    by (rewrite !pad2_length; lia).
  assert (String.length (pad2 ma) = String.length (pad2 mb)) as L2
    by (rewrite !pad2_length; lia).
  apply (string_app_inj_len _ _ _ _ L1) in H as [Hd H].
  injection H as H. apply (string_app_inj_len _ _ _ _ L2) in H as [Hm H].
  injection H as H. apply number_to_string_inj in H.
  apply pad2_inj in Hd, Hm; try lia. by subst.
Qed.

(** The date string of an invalid date ("Invalid Date") differs from
  the date string of every valid time value. *)
Lemma toLocaleDateString_enGB_invalid (t : Z) :
  toLocaleDateString_enGB tza None <> toLocaleDateString_enGB tza (Some t).
Proof.
  unfold toLocaleDateString_enGB.
  destruct (civil_from_days_bounds (local_day tza t)) as [_ Hd].
  destruct (pad2_shape (c_day (local_date tza t))) as (c & r & -> & Hc); [unfold local_date; lia|].
  intros H. injection H as <- _. discriminate.
Qed.

End LocalTimeFacts.

(** [distanceInWordsStrict] counts whole days of 86400000 ms. *)
Lemma distance_in_days_eq (a b : Z) : distance_in_days a b = Z.abs (b - a) / msPerDay.
Proof.
  unfold distance_in_days, msPerSecond, msPerDay. rewrite Z.sub_0_r, !Z.div_div by lia.
  reflexivity.
Qed.

(** ** [toISOString] *)

(** A time value is its day and its four time fields. *)
Lemma time_fields_decompose (t : Z) :
  t = Day t * msPerDay + HourFromTime t * msPerHour + MinFromTime t * msPerMinute +
      SecFromTime t * msPerSecond + msFromTime t.
Proof.
  unfold Day, HourFromTime, MinFromTime, SecFromTime, msFromTime,
    msPerDay, msPerHour, msPerMinute, msPerSecond.
  replace (t / 60000) with (t / 1000 / 60) by (rewrite Z.div_div by lia; reflexivity).
  replace (t / 3600000) with (t / 1000 / 60 / 60) by (rewrite !Z.div_div by lia; reflexivity).
  replace (t / 86400000) with (t / 1000 / 60 / 60 / 24) by (rewrite !Z.div_div by lia; reflexivity).
  pose proof (Z.div_mod t 1000 ltac:(lia)). pose proof (Z.div_mod (t / 1000) 60 ltac:(lia)).
  pose proof (Z.div_mod (t / 1000 / 60) 60 ltac:(lia)).
  pose proof (Z.div_mod (t / 1000 / 60 / 60) 24 ltac:(lia)). lia.
Qed.

(** The bounds that make every field of the ISO string fixed-width. *)
Lemma iso_field_bounds (t : Z) :
  0 <= HourFromTime t < 100 /\ 0 <= MinFromTime t < 100 /\ 0 <= SecFromTime t < 100 /\
  0 <= msFromTime t < 1000 /\ 0 <= c_month (civil_from_days (Day t)) < 100 /\
  0 <= c_day (civil_from_days (Day t)) < 100.
Proof.
  pose proof (civil_from_days_bounds (Day t)).
  unfold HourFromTime, MinFromTime, SecFromTime, msFromTime.
  pose proof (Z.mod_pos_bound (t / msPerHour) 24 ltac:(lia)).
  pose proof (Z.mod_pos_bound (t / msPerMinute) 60 ltac:(lia)).
  pose proof (Z.mod_pos_bound (t / msPerSecond) 60 ltac:(lia)).
  pose proof (Z.mod_pos_bound t msPerSecond ltac:(unfold msPerSecond; lia)).
  unfold msPerSecond in *. lia.
Qed.

(** [new Date().toISOString()] never throws for a clock inside the range
    of [Date]. *)
Lemma toISOString_valid (t : Z) :
  Z.abs t <= 8640000000000000 -> exists iso, toISOString (TimeClip t) = Ok iso.
Proof. intros Ht. unfold TimeClip. replace (Z.abs t <=? 8640000000000000) with true by lia. by eexists. Qed.

(** Peels equal concatenations of equal-length fields, and single
    characters, off an equation between two ISO strings. *)
Ltac peel_iso H :=
  repeat first
    [ apply string_app_inj_len in H as [? H];
        [| rewrite ?zero_pad_length; simpl; lia]
    | rewrite !string_app_cons, !string_app_nil_l in H; injection H as H ].

Lemma iso_year_small (y : Z) : 0 <= y <= 9999 -> iso_year y = zero_pad 4 y.
Proof. intros Hy. unfold iso_year. by replace ((0 <=? y) && (y <=? 9999)) with true by lia. Qed.

(** The fields of two ISO strings of years 0 to 9999 are equal when the
    strings are. *)
Lemma iso_fields_inj (y mo d h mi sc ms y' mo' d' h' mi' sc' ms' : Z) :
  0 <= y < 10000 -> 0 <= mo < 100 -> 0 <= d < 100 -> 0 <= h < 100 -> 0 <= mi < 100 ->
  0 <= sc < 100 -> 0 <= ms < 1000 ->
  0 <= y' < 10000 -> 0 <= mo' < 100 -> 0 <= d' < 100 -> 0 <= h' < 100 -> 0 <= mi' < 100 ->
  0 <= sc' < 100 -> 0 <= ms' < 1000 ->
  zero_pad 4 y +:+ "-" +:+ zero_pad 2 mo +:+ "-" +:+ zero_pad 2 d +:+ "T" +:+ zero_pad 2 h +:+ ":" +:+
  zero_pad 2 mi +:+ ":" +:+ zero_pad 2 sc +:+ "." +:+ zero_pad 3 ms +:+ "Z" =
  zero_pad 4 y' +:+ "-" +:+ zero_pad 2 mo' +:+ "-" +:+ zero_pad 2 d' +:+ "T" +:+ zero_pad 2 h' +:+ ":" +:+
  zero_pad 2 mi' +:+ ":" +:+ zero_pad 2 sc' +:+ "." +:+ zero_pad 3 ms' +:+ "Z" ->
  y = y' /\ mo = mo' /\ d = d' /\ h = h' /\ mi = mi' /\ sc = sc' /\ ms = ms'.
Proof.
  intros. peel_iso H13.
  repeat match goal with
  | E : zero_pad _ _ = zero_pad _ _ |- _ => apply zero_pad_inj in E; [|lia|lia]
  end.
  auto 20.
Qed.

(** [toISOString] is injective on the time values of the years 0 to
    9999: the ISO strings by which the programs pass dates around stand
    for their time values. *)
Theorem toISOString_inj (a b : Z) :
  0 <= c_year (civil_from_days (Day a)) <= 9999 -> 0 <= c_year (civil_from_days (Day b)) <= 9999 ->
  toISOString (Some a) = toISOString (Some b) -> a = b.
Proof.
  intros Ha Hb H. apply Ok_inj in H. rewrite !iso_year_small in H by done.
  pose proof (iso_field_bounds a). pose proof (iso_field_bounds b).
  apply iso_fields_inj in H as (Hy & Hmo & Hd & Hh & Hmi & Hs & Hms); try lia.
  assert (Hday : Day a = Day b).
  { apply civil_from_days_inj. revert Hy Hmo Hd.
    destruct (civil_from_days (Day a)), (civil_from_days (Day b)); cbn; congruence. }
  rewrite (time_fields_decompose a), (time_fields_decompose b), Hday, Hh, Hmi, Hs, Hms.
  reflexivity.
Qed.
