(* ===== verification/DateParser.v ===== *)
(** * DateParser: a collection date from a feed title

    Both programs turn a title such as "Tue 9 Jul 2018" into a date by
    splitting it on spaces, keeping the leading digits of the second
    piece, and handing [`${month} ${dayNumber}, ${year} 23:00:00`] to the
    [Date] constructor:
    - [getCollectionDate] (src/index.js:58-67) returns the ISO string of
      that date, and throws on an invalid one;
    - [bin_date] is the same computation inside the lambda's
      [getBinDates] (src/lambda/index.js:68-73), which keeps the invalid
      date as a value.
    An ISO string stands for its time value: [toISOString] is injective
    and [new Date(iso)] reads the same time value back.

    The string constructor runs V8's legacy date parser.  [V8] models it
    on the strings the code builds: a month token of ASCII letters, a day
    of digits (possibly none), a year token of digits or letters (or
    empty), then the time "23:00:00".  In that domain the model follows
    the parser: a month name is recognised by its first three letters, an
    unknown word before the first number is ignored and one after it makes
    the date invalid, the numbers are assigned to day and year by
    [DayComposer::Write] (missing components default to 1, two-digit
    years are windowed to 1950-2049), and the result is a local time.
    Month tokens with digits or punctuation, and time-zone names in the
    year position, are outside that domain and the model calls them
    invalid. *)

From S2P Require Import Prelude JsString Calendar.

Local Open Scope Z_scope.

Module V8.

Definition is_alpha (c : ascii) : bool := is_lower c || is_upper c.

(** A word token: a non-empty run of letters. *)
Fixpoint is_word_chars (s : string) : bool :=
  match s with
  | EmptyString => true
  | String c s' => is_alpha c && is_word_chars s'
  end.

Definition is_word (s : string) : bool :=
  match s with EmptyString => false | _ => is_word_chars s end.

(** The keyword table matches the first three letters, lower-cased. *)
Definition prefix3 (s : string) : option string :=
  match to_lower s with
  | String a (String b (String c _)) => Some (String a (String b (String c EmptyString)))
  | _ => None
  end.

Definition month_keys : list string :=
  ["jan"; "feb"; "mar"; "apr"; "may"; "jun"; "jul"; "aug"; "sep"; "oct"; "nov"; "dec"].

(** Position of a key in the table, counted from [i]. *)
Fixpoint key_index (p : string) (keys : list string) (i : Z) : option Z :=
  match keys with
  | [] => None
  | k :: ks => if bool_decide (p = k) then Some i else key_index p ks (i + 1)
  end.

(** The month a word names, 1 to 12; a month word may be longer than
    its three-letter key ("July"). *)
Definition month_name (w : string) : option Z :=
  if is_word w then
    match prefix3 w with
    | Some p => key_index p month_keys 1
    | None => None
    end
  else None.

(** The time-zone keywords, which the model leaves out of its domain. *)
Definition zone_names : list string :=
  ["ut"; "utc"; "z"; "gmt"; "cdt"; "cst"; "edt"; "est"; "mdt"; "mst"; "pdt"; "pst"].

Definition is_zone_name (w : string) : bool := bool_decide (to_lower w ∈ zone_names).

Definition IsDay (x : Z) : bool := (1 <=? x) && (x <=? 31).
Definition IsMonth (x : Z) : bool := (1 <=? x) && (x <=? 12).

(** [DayComposer::Write]: pad the components with 1, choose which is
    the year, window two-digit years, check month and day.  The result
    is (year, month 1..12, day). *)
Definition day_composer (named : option Z) (comps : list Z) : option (Z * Z * Z) :=
  match comps with
  | [] => None
  | _ =>
    let c := comps ++ repeat 1 (3 - length comps) in
    let c0 := nth 0 c 1 in
    let c1 := nth 1 c 1 in
    let c2 := nth 2 c 1 in
    let '(year, month, day) :=
      match named with
      | None => if negb (IsDay c0) then (c0, c1, c2) else (c2, c0, c1)
      | Some mo => if negb (IsDay c0) then (c0, mo, c1) else (c1, mo, c0)
      end in
    let year :=
      if (0 <=? year) && (year <=? 49) then year + 2000
      else if (50 <=? year) && (year <=? 99) then year + 1900
      else year in
    if IsMonth month && IsDay day then Some (year, month, day) else None
  end.

(** Tokens of [`${m} ${d}, ${y} 23:00:00`] with [d] a digit string:
    the named month and the date numbers, or [None] when the parser
    rejects the string (or the string leaves the modelled domain). *)
Definition scan_mdy (m d y : string) : option (option Z * list Z) :=
  if negb (is_word m) then None else
  let named := month_name m in
  let comps := if bool_decide (d = EmptyString) then [] else [digits_value d] in
  let read_number := negb (bool_decide (d = EmptyString)) in
  if bool_decide (y = EmptyString) then Some (named, comps)
  else if all_digits y then Some (named, comps ++ [digits_value y])
  else if is_word y then
    match month_name y with
    | Some k => Some (Some k, comps)
    | None =>
        if is_zone_name y then None
        else if read_number then None
        else Some (named, comps)
    end
  else None.

(** [new Date(`${m} ${d}, ${y} 23:00:00`)]: a local time value, or
    [None] for an invalid date. *)
Definition parse_mdy_2300 (tza : Z) (m d y : string) : option Z :=
  match scan_mdy m d y with
  | None => None
  | Some (named, comps) =>
      match day_composer named comps with
      | None => None
      | Some (year, month, day) => new_Date_local tza year (month - 1) day 23 0 0 0
      end
  end.

End V8.

(** The three fields the code reads off a title: the leading digits of
    the second piece, the third and the fourth piece ([undefined] when
    missing); [None] when there is no second piece, where
    [dateParts[1].match] throws. *)
Definition title_fields (title : string) : option (string * string * string) :=
  let dateParts := split " " title in
  match dateParts !! 1%nat with
  | None => None
  | Some p1 =>
      Some (leading_digits p1, str_or_undefined (dateParts !! 2%nat),
            str_or_undefined (dateParts !! 3%nat))
  end.

(** [getCollectionDate(collectionDate)] of src/index.js: the collection
    time value (its ISO string), or the exception the code throws. *)
Definition getCollectionDate (tza : Z) (collectionDate : string) : outcome Z :=
  match title_fields collectionDate with
  | None => Throw (TypeError "Cannot read properties of undefined (reading 'match')")
  | Some (dayNumber, month, year) =>
      match V8.parse_mdy_2300 tza month dayNumber year with
      | Some t => Ok t
      | None => Throw (RangeError "Invalid time value")
      end
  end.

(** [binDate] in the lambda's [getBinDates]: the same date, kept as a
    [Date] that may be invalid ([None]); reading the title of a missing
    item throws. *)
Definition bin_date (tza : Z) (title : string) : outcome (option Z) :=
  match title_fields title with
  | None => Throw (TypeError "Cannot read properties of undefined (reading 'match')")
  | Some (dayNumber, month, year) => Ok (V8.parse_mdy_2300 tza month dayNumber year)
  end.

(** ** Facts about the V8 model *)

Module V8Facts.
Import V8.

Lemma key_index_bound (p : string) (keys : list string) (i r : Z) :
  key_index p keys i = Some r -> i <= r < i + Z.of_nat (length keys).
Proof.
  revert i. induction keys as [|k ks IH]; intros i H; simpl in H; [discriminate|].
  case_bool_decide; [injection H as <-; simpl; lia|].
  apply IH in H. simpl length. lia.
Qed.

Lemma month_name_spec (w : string) (k : Z) :
  month_name w = Some k -> is_word w = true /\ 1 <= k <= 12.
Proof.
  unfold month_name. destruct (is_word w); [|discriminate].
  destruct (prefix3 w) as [p|]; [|discriminate]. intros H.
  apply key_index_bound in H. simpl in H. split; [done | lia].
Qed.

Lemma is_word_no_space (w : string) : is_word w = true -> has_char " " w = false.
Proof.
  destruct w as [|c w]; [discriminate|]. unfold is_word.
  revert c. induction w as [|c' w IH]; intros c H; cbn [is_word_chars has_char] in *;
    apply andb_true_iff in H as [Hc H]; rewrite bool_decide_false;
    try (intros ->; discriminate); [reflexivity|].
  by apply IH.
Qed.

(** A named month with a day and a year of three digits or more. *)
Lemma day_composer_day_year (k d y : Z) :
  1 <= k <= 12 -> 1 <= d <= 31 -> 100 <= y ->
  day_composer (Some k) [d; y] = Some (y, k, d).
Proof.
  intros Hk Hd Hy. unfold day_composer, IsDay, IsMonth. simpl. split_tests; solve [reflexivity | lia].
Qed.

(** A named month with only a year greater than 31: the first of the
    month, the day defaulting to 1. *)
Lemma day_composer_year_only (k y : Z) :
  1 <= k <= 12 -> 100 <= y -> day_composer (Some k) [y] = Some (y, k, 1).
Proof.
  intros Hk Hy. unfold day_composer, IsDay, IsMonth. simpl. split_tests; solve [reflexivity | lia].
Qed.

End V8Facts.

(** ** Splitting a title *)

Lemma title_fields_join4 (a b c d : string) :
  has_char " " a = false -> has_char " " b = false ->
  has_char " " c = false -> has_char " " d = false ->
  title_fields (join " " [a; b; c; d]) = Some (leading_digits b, c, d).
Proof.
  intros. unfold title_fields. rewrite split_join; [reflexivity | done |].
  repeat constructor; assumption.
Qed.

Lemma title_fields_join3 (a b c : string) :
  has_char " " a = false -> has_char " " b = false -> has_char " " c = false ->
  title_fields (join " " [a; b; c]) = Some (leading_digits b, c, "undefined").
Proof.
  intros. unfold title_fields. rewrite split_join; [reflexivity | done |].
  repeat constructor; assumption.
Qed.

(** 23:00 local time on a day of the years 100 to 9999 is a time value
    within the range of [Date]. *)
Lemma new_Date_local_2300 (tza y k d : Z) :
  100 <= y <= 9999 -> 1 <= k <= 12 -> 1 <= d <= 31 -> Z.abs tza <= msPerDay ->
  new_Date_local tza y (k - 1) d 23 0 0 0 =
  Some (UTC tza (MakeDate (MakeDay y (k - 1) d) (MakeTime 23 0 0 0))).
Proof.
  intros Hy Hk Hd Htz. unfold new_Date_local, TimeClip, MakeDay.
  rewrite (Z.div_small (k - 1) 12), Z.add_0_r, (Z.mod_small (k - 1) 12) by lia.
  assert (0 <= month_start (k - 1) (InLeapYear y) <= 366).
  { pose proof (InLeapYear_bound y).
    pose proof (month_start_mono 0 (k - 1) (InLeapYear y)).
    pose proof (month_start_mono (k - 1) 12 (InLeapYear y)). simpl in *. lia. }
  unfold UTC, MakeDate, MakeTime, DayFromYear, msPerDay, msPerHour, msPerMinute, msPerSecond in *.
  case_tests; [reflexivity|]. lia_div.
Qed.

(** ** [getCollectionDate] on well-formed and malformed titles *)

Lemma MakeDay_month (y k d : Z) : 1 <= k <= 12 -> MakeDay y (k - 1) d = days_from_civil y k d.
Proof.
  intros Hk. unfold MakeDay, days_from_civil.
  rewrite (Z.div_small (k - 1) 12), Z.add_0_r, (Z.mod_small (k - 1) 12) by lia. lia.
Qed.

(** A title "<word> <day><suffix> <month> <year>": the collection is at
    23:00 local time on that day of that month of that year, the day
    being taken as it is ([MakeDay] lets 31 February run into March). *)
Theorem getCollectionDate_title (tza : Z) (w suffix mon : string) (y k d : Z) :
  has_char " " w = false -> has_char " " suffix = false ->
  match suffix with String c _ => is_digit c = false | EmptyString => True end ->
  V8.month_name mon = Some k -> 1 <= d <= 31 -> 100 <= y <= 9999 -> Z.abs tza <= msPerDay ->
  getCollectionDate tza (join " " [w; show_nat d +:+ suffix; mon; show_nat y]) =
  Ok (UTC tza (MakeDate (MakeDay y (k - 1) d) (MakeTime 23 0 0 0))).
Proof.
  intros Hw Hs Hsd Hm Hd Hy Htz.
  destruct (V8Facts.month_name_spec _ _ Hm) as [Hword Hk].
  unfold getCollectionDate. rewrite title_fields_join4; first last.
  - apply all_digits_no_space, show_nat_digits; lia.
  - by apply V8Facts.is_word_no_space.
  - rewrite has_char_app, Hs, all_digits_no_space by (apply show_nat_digits; lia). done.
  - done.
  - rewrite leading_digits_app by (try apply show_nat_digits; auto with lia).
    unfold V8.parse_mdy_2300, V8.scan_mdy.
    rewrite Hword, Hm, !show_nat_ne_empty, show_nat_digits by lia.
    cbn -[V8.day_composer new_Date_local show_nat digits_value].
    rewrite !show_nat_value, V8Facts.day_composer_day_year, new_Date_local_2300 by lia.
    reflexivity.
Qed.

(** C4: a valid date of the years 100 to 9999 written in a title
    is parsed back to a time value whose local calendar date is that
    date. *)
Corollary getCollectionDate_roundtrip (tza : Z) (w suffix mon : string) (y k d : Z) :
  has_char " " w = false -> has_char " " suffix = false ->
  match suffix with String c _ => is_digit c = false | EmptyString => True end ->
  V8.month_name mon = Some k -> valid_civil (mk_civil y k d) = true ->
  100 <= y <= 9999 -> Z.abs tza <= msPerDay ->
  exists t, getCollectionDate tza (join " " [w; show_nat d +:+ suffix; mon; show_nat y]) = Ok t /\
            local_date tza t = mk_civil y k d.
Proof.
  intros Hw Hs Hsd Hm Hv Hy Htz.
  pose proof (V8Facts.month_name_spec _ _ Hm) as [_ Hk].
  assert (1 <= d <= 31).
  { unfold valid_civil in Hv. cbn in Hv. zbool_hyps.
    pose proof (days_in_month_bound y k). lia. }
  eexists. split; [apply getCollectionDate_title; eauto|].
  unfold local_date. rewrite local_day_UTC by (unfold MakeTime, msPerDay, msPerHour,
    msPerMinute, msPerSecond; lia).
  rewrite MakeDay_month by lia. by apply civil_from_days_of_civil.
Qed.

(** C22: A title of one piece throws a [TypeError]: [dateParts[1]] is
    undefined. *)
Theorem getCollectionDate_one_piece (tza : Z) (title : string) :
  has_char " " title = false ->
  getCollectionDate tza title = Throw (TypeError "Cannot read properties of undefined (reading 'match')").
Proof. intros H. unfold getCollectionDate, title_fields. by rewrite split_no_sep. Qed.

(** C23: A title of three pieces throws a [RangeError]: the year is the word
    "undefined", which the parser either rejects after the day or
    ignores, leaving no day at all. *)
Theorem getCollectionDate_three_pieces (tza : Z) (a b c : string) :
  has_char " " a = false -> has_char " " b = false -> has_char " " c = false ->
  getCollectionDate tza (join " " [a; b; c]) = Throw (RangeError "Invalid time value").
Proof.
  intros Ha Hb Hc. unfold getCollectionDate. rewrite title_fields_join3 by done.
  unfold V8.parse_mdy_2300, V8.scan_mdy. destruct (V8.is_word c); [|reflexivity].
  cbn -[V8.day_composer V8.month_name].
  destruct (bool_decide (leading_digits b = EmptyString)); reflexivity.
Qed.

(** C24: A second piece without leading digits is not an error: the date is
    the first of the month. *)
Theorem getCollectionDate_no_day_digits (tza : Z) (w suffix mon : string) (y k : Z) :
  has_char " " w = false -> has_char " " suffix = false ->
  match suffix with String c _ => is_digit c = false | EmptyString => True end ->
  V8.month_name mon = Some k -> 100 <= y <= 9999 -> Z.abs tza <= msPerDay ->
  getCollectionDate tza (join " " [w; suffix; mon; show_nat y]) =
  Ok (UTC tza (MakeDate (MakeDay y (k - 1) 1) (MakeTime 23 0 0 0))).
Proof.
  intros Hw Hs Hsd Hm Hy Htz.
  destruct (V8Facts.month_name_spec _ _ Hm) as [Hword Hk].
  unfold getCollectionDate. rewrite title_fields_join4; first last.
  - apply all_digits_no_space, show_nat_digits; lia.
  - by apply V8Facts.is_word_no_space.
  - done.
  - done.
  - pose proof (leading_digits_app EmptyString suffix eq_refl Hsd) as Hl.
    rewrite string_app_nil_l in Hl. rewrite Hl.
    unfold V8.parse_mdy_2300, V8.scan_mdy.
    rewrite Hword, Hm, !show_nat_ne_empty, show_nat_digits, bool_decide_true by (done || lia).
    cbn -[V8.day_composer new_Date_local show_nat digits_value].
    rewrite !show_nat_value, V8Facts.day_composer_year_only, new_Date_local_2300 by lia.
    reflexivity.
Qed.

(** The lambda's [binDate] and [getCollectionDate] parse a title the same
    way; the lambda keeps an invalid date where [getCollectionDate]
    throws. *)
Lemma bin_date_getCollectionDate (tza : Z) (title : string) :
  bin_date tza title =
  match getCollectionDate tza title with
  | Ok t => Ok (Some t)
  | Throw (RangeError _) => Ok None
  | Throw e => Throw e
  end.
Proof.
  unfold bin_date, getCollectionDate.
  destruct (title_fields title) as [[[dn mo] yr]|]; [|reflexivity].
  by destruct (V8.parse_mdy_2300 tza mo dn yr).
Qed.

(** ** Witnesses: titles of the feed *)

Lemma getCollectionDate_roundtrip_witness :
  exists t, getCollectionDate 0 (join " " ["Tue"; show_nat 9 +:+ "th"; "July"; show_nat 2018]) = Ok t /\
            local_date 0 t = mk_civil 2018 7 9.
Proof.
  apply (getCollectionDate_roundtrip 0 "Tue" "th" "July" 2018 7 9);
    first [reflexivity | unfold msPerDay; lia].
Defined.

Lemma getCollectionDate_one_piece_witness :
  getCollectionDate 0 "Monday" = Throw (TypeError "Cannot read properties of undefined (reading 'match')").
Proof. apply getCollectionDate_one_piece. reflexivity. Defined.

Lemma getCollectionDate_three_pieces_witness :
  getCollectionDate 0 (join " " ["Mon"; "9"; "Jul"]) = Throw (RangeError "Invalid time value").
Proof. apply getCollectionDate_three_pieces; reflexivity. Defined.

Lemma getCollectionDate_no_day_digits_witness :
  getCollectionDate 0 (join " " ["Mon"; "ninth"; "Jul"; show_nat 2018]) =
  Ok (UTC 0 (MakeDate (MakeDay 2018 (7 - 1) 1) (MakeTime 23 0 0 0))).
Proof.
  apply getCollectionDate_no_day_digits; try reflexivity.
  - lia.
  - unfold msPerDay. lia.
Defined.
