(* ===== verification/DueClassifier.v ===== *)
(** * DueClassifier: is a bin collected today or tomorrow?

    The abstract rule of the specification ([classify]): a collection on
    the local day after [now] is due tomorrow; a collection on the local
    day of [now] is due today as long as [now] is not past the daily
    cutoff (21:11 local); anything else is not due.

    The two programs implement it differently:
    - [IndexJs.binIsDue] (src/index.js:40-56) compares "DD/MM/YYYY"
      strings of today, tomorrow and the collection, and tests the cutoff
      against [now]; [IndexJs.getDaysUntilDue] (src/index.js:69-78)
      derives the label from date-fns' distance in whole days, splitting
      it on " days";
    - [Lambda.getBinDates] (src/lambda/index.js:67-82) compares the
      cutoff with the collection time instead of [now];
      [Lambda.isDue] (src/lambda/index.js:84-92) and [Lambda.getDueDay]
      (src/lambda/index.js:94-103) as in the code, splitting the
      distance on " ".
    [now] is one clock reading per run: the code reads [new Date()]
    again in [getDaysUntilDue]/[getDueDay], a few milliseconds later,
    which the model does not distinguish.

    The theorems: [binIsDue] refines [classify]; the
    lambda's test can never report a bin due today, since its cutoff test
    compares 23:00 with 21:11; [getDaysUntilDue] never answers
    "Tomorrow"; [getDueDay] labels a bin due tomorrow "today" after 23:00. *)

From S2P Require Import Prelude JsString Calendar DateParser.

Local Open Scope Z_scope.

(** ** The specification *)

Inductive DueOn := DueToday | DueTomorrow | NotDue.

#[export] Instance DueOn_eq_dec : EqDecision DueOn.
Proof. solve_decision. Defined.

Section Spec.

Variable tza : Z.

(** Milliseconds since local midnight. *)
Definition time_of_day (t : Z) : Z := TimeWithinDay (LocalTime tza t).

(** The default cutoff, 21:11:00.000 local time. *)
Definition cutoff_2111 : Z := MakeTime 21 11 0 0.

(** The rule of the specification, for a cutoff time of day. *)
Definition classify (cutoff now collection : Z) : DueOn :=
  if local_day tza collection =? local_day tza now + 1 then DueTomorrow
  else if (local_day tza collection =? local_day tza now) && negb (cutoff <? time_of_day now)
  then DueToday
  else NotDue.

(** [new Date(today.getFullYear(), today.getMonth(), today.getDate(),
    21, 11, 0, 0)]: 21:11 on the local day of [today]. *)
Definition cutoff_of (today : Z) : option Z :=
  new_Date_local tza (c_year (local_date tza today)) (c_month (local_date tza today) - 1)
                 (c_day (local_date tza today)) 21 11 0 0.

End Spec.

(** ** src/index.js *)

Module IndexJs.
Section WithTZ.

Variable tza : Z.

(** [binIsDue(collectionISODate)], with [new Date()] read as [now]. *)
Definition binIsDue (now collectionISODate : Z) : bool :=
  let today := now in
  let tomorrow := addDays tza today 1 in
  let todaysDate := toLocaleDateString_enGB tza (Some today) in
  let binCollectionTimeHasPassed := isAfter (Some today) (cutoff_of tza today) in
  let tomorrowsDate := toLocaleDateString_enGB tza tomorrow in
  let collectionDate := toLocaleDateString_enGB tza (Some collectionISODate) in
  if bool_decide (tomorrowsDate = collectionDate) then true
  else if bool_decide (todaysDate = collectionDate) && negb binCollectionTimeHasPassed
  then true
  else false.

(** [getDaysUntilDue(collectionISODate)]: "Tomorrow" when the distance
    split on " days" reads "1", "Today" when it reads "0", otherwise
    the distance itself. *)
Definition getDaysUntilDue (now collectionISODate : Z) : string :=
  let noOfDays := distanceInWordsStrict_days now collectionISODate in
  if bool_decide (split_head " days" noOfDays = "1") then "Tomorrow"
  else if bool_decide (split_head " days" noOfDays = "0") then "Today"
  else noOfDays.

End WithTZ.
End IndexJs.

(** ** src/lambda/index.js *)

Module Lambda.

(** The object [getBinDates] returns. *)
Record BinDates := mkBinDates {
  binCollectionTimeHasPassed : bool;
  collectedOn : string;
  collectedOnISOString : Z
}.

Section WithTZ.

Variable tza : Z.

(** [getBinDates(bin)]: [bin.item[0].title[0]] is the title ([None]
    when the item is missing, a [TypeError]); [toISOString] of an
    invalid date throws a [RangeError]. *)
Definition getBinDates (today : Z) (title : option string) : outcome BinDates :=
  match title with
  | None => Throw (TypeError "Cannot read properties of undefined (reading '0')")
  | Some t =>
      binDate <- bin_date tza t ;;
      let binCollectionTimeHasPassed := isAfter binDate (cutoff_of tza today) in
      match binDate with
      | None => Throw (RangeError "Invalid time value")
      | Some b => Ok (mkBinDates binCollectionTimeHasPassed
                                 (toLocaleDateString_enGB tza (Some b)) b)
      end
  end.

(** [isDue(dates)], with the closure's [todaysDate] and
    [tomorrowsDate]. *)
Definition isDue (todaysDate tomorrowsDate : string) (dates : BinDates) : bool :=
  if bool_decide (tomorrowsDate = collectedOn dates) then true
  else if bool_decide (todaysDate = collectedOn dates) && negb (binCollectionTimeHasPassed dates)
  then true
  else false.

(** [getDueDay(collectionISODate)]: the distance split on " ". *)
Definition getDueDay (now collectionISODate : Z) : string :=
  let noOfDays := distanceInWordsStrict_days now collectionISODate in
  if bool_decide (split_head " " noOfDays = "1") then "tomorrow"
  else if bool_decide (split_head " " noOfDays = "0") then "today"
  else noOfDays.

(** The dates [getDueBins] computes once: [todaysDate] and
    [tomorrowsDate]. *)
Definition todaysDate (today : Z) : string := toLocaleDateString_enGB tza (Some today).
Definition tomorrowsDate (today : Z) : string :=
  toLocaleDateString_enGB tza (addDays tza today 1).

End WithTZ.
End Lambda.

(** ** Time arithmetic shared by both programs *)

Section Facts.

Variable tza : Z.

(** The operating range: a time-zone offset of at most a day, and a
    clock two days away from the end of the [Date] range. *)
Definition in_range (now : Z) : Prop :=
  Z.abs tza <= msPerDay /\ Z.abs now + 2 * msPerDay <= 8640000000000000.

Lemma in_range_clock (now : Z) : in_range now -> Z.abs now <= 8640000000000000.
Proof. unfold in_range, msPerDay. lia. Qed.

Lemma time_decomp (t : Z) : t = local_day tza t * msPerDay + time_of_day tza t - tza.
Proof.
  unfold local_day, time_of_day, Day, TimeWithinDay, LocalTime.
  pose proof (Z.div_mod (t + tza) msPerDay). unfold msPerDay in *. lia.
Qed.

Lemma time_of_day_bound (t : Z) : 0 <= time_of_day tza t < msPerDay.
Proof. unfold time_of_day, TimeWithinDay. apply Z.mod_pos_bound. unfold msPerDay. lia. Qed.

Lemma local_day_add_day (t : Z) : local_day tza (t + msPerDay) = local_day tza t + 1.
Proof.
  unfold local_day, Day, LocalTime.
  replace (t + msPerDay + tza) with (t + tza + msPerDay * 1) by lia.
  apply Z_div_shift. unfold msPerDay. lia.
Qed.

Lemma addDays_one (now : Z) : in_range now -> addDays tza now 1 = Some (now + msPerDay).
Proof.
  intros [_ H]. rewrite addDays_spec. unfold TimeClip. case_tests; [f_equal; lia|].
  unfold msPerDay in *. lia.
Qed.

Lemma cutoff_of_spec (today : Z) :
  in_range today ->
  cutoff_of tza today = Some (UTC tza (MakeDate (local_day tza today) cutoff_2111)).
Proof.
  intros [Htz H]. unfold cutoff_of. rewrite new_Date_local_same_day. unfold TimeClip.
  pose proof (time_decomp today). pose proof (time_of_day_bound today).
  unfold UTC, MakeDate, cutoff_2111, MakeTime, msPerDay, msPerHour, msPerMinute, msPerSecond in *.
  case_tests; [reflexivity | lia].
Qed.

(** Against the cutoff of [today], a time value is "after" exactly when
    it lies beyond 21:11 of that local day. *)
Lemma isAfter_cutoff (today t : Z) :
  in_range today ->
  isAfter (Some t) (cutoff_of tza today) =
  (local_day tza today * msPerDay + cutoff_2111 - tza <? t).
Proof. intros H. rewrite cutoff_of_spec by done. reflexivity. Qed.

Lemma date_string_eqb (a b : Z) :
  bool_decide (toLocaleDateString_enGB tza (Some a) = toLocaleDateString_enGB tza (Some b)) =
  (local_day tza a =? local_day tza b).
Proof.
  destruct (Z.eqb_spec (local_day tza a) (local_day tza b)) as [E|E].
  - apply bool_decide_eq_true. by apply toLocaleDateString_enGB_eq.
  - apply bool_decide_eq_false. by rewrite toLocaleDateString_enGB_eq.
Qed.

End Facts.

(** ** src/index.js refines the rule *)

(** [binIsDue] computes the rule of the specification. *)
Lemma binIsDue_classify (tza now c : Z) :
  in_range tza now ->
  IndexJs.binIsDue tza now c =
  match classify tza cutoff_2111 now c with NotDue => false | _ => true end.
Proof.
  intros Hr. unfold IndexJs.binIsDue, classify.
  rewrite addDays_one, isAfter_cutoff, !date_string_eqb, local_day_add_day by done.
  pose proof (time_decomp tza now).
  replace (local_day tza now * msPerDay + cutoff_2111 - tza <? now)
    with (cutoff_2111 <? time_of_day tza now) by (case_tests; lia).
  destruct (cutoff_2111 <? time_of_day tza now); case_tests; simpl; lia || reflexivity.
Qed.

(** C1: src/index.js's [binIsDue] refines the rule of the
    specification: on a clock in range it answers true exactly when the
    rule classifies the collection as due today (before 21:11) or due
    tomorrow. *)
Theorem binIsDue_refines_classify (tza now c : Z) :
  in_range tza now ->
  IndexJs.binIsDue tza now c = true <-> classify tza cutoff_2111 now c <> NotDue.
Proof.
  intros Hr. rewrite (binIsDue_classify tza now c Hr).
  destruct (classify tza cutoff_2111 now c); intuition congruence.
Qed.

(** ** src/lambda/index.js *)

(** A parsed collection date is always 23:00 local time. *)
Lemma bin_date_time (tza : Z) (title : string) (b : Z) :
  bin_date tza title = Ok (Some b) -> time_of_day tza b = MakeTime 23 0 0 0.
Proof.
  unfold bin_date, V8.parse_mdy_2300.
  destruct (title_fields title) as [[[dn mo] yr]|]; [|discriminate]. intros H.
  injection H as H. destruct (V8.scan_mdy mo dn yr) as [[named comps]|]; [|discriminate].
  destruct (V8.day_composer named comps) as [[[y m] d]|]; [|discriminate].
  unfold new_Date_local, TimeClip in H. destruct (Z.abs _ <=? _); [|discriminate]. injection H as <-.
  unfold time_of_day, TimeWithinDay, LocalTime, UTC, MakeDate.
  set (X := MakeDay y (m - 1) d).
  replace (X * msPerDay + MakeTime 23 0 0 0 - tza + tza)
    with (MakeTime 23 0 0 0 + msPerDay * X) by lia.
  rewrite Z_mod_shift by (unfold msPerDay; lia).
  apply Z.mod_small. unfold MakeTime, msPerDay, msPerHour, msPerMinute, msPerSecond. lia.
Qed.

Lemma getBinDates_Ok (tza today : Z) (title : option string) (dates : Lambda.BinDates) :
  Lambda.getBinDates tza today title = Ok dates ->
  exists t b, title = Some t /\ bin_date tza t = Ok (Some b) /\
    dates = Lambda.mkBinDates (isAfter (Some b) (cutoff_of tza today))
                              (toLocaleDateString_enGB tza (Some b)) b.
Proof.
  unfold Lambda.getBinDates. destruct title as [t|]; [|discriminate].
  destruct (bin_date tza t) as [[b|]|e] eqn:E; cbn [obind]; intros H;
    [| discriminate H | discriminate H].
  apply Ok_inj in H. subst dates. exists t, b. auto.
Qed.
(** The lambda's test: due exactly when the collection falls on the
    local day after [today].  The same-day branch never fires: the
    collection time, 23:00, is always after the 21:11 cutoff. *)
Theorem lambda_isDue_only_tomorrow (tza today : Z) (title : option string)
    (dates : Lambda.BinDates) :
  in_range tza today ->
  Lambda.getBinDates tza today title = Ok dates ->
  Lambda.isDue (Lambda.todaysDate tza today) (Lambda.tomorrowsDate tza today) dates =
  (local_day tza (Lambda.collectedOnISOString dates) =? local_day tza today + 1).
Proof.
  intros Hr H. apply getBinDates_Ok in H as (t & b & -> & Hb & ->).
  pose proof (bin_date_time tza t b Hb) as Htod. pose proof (time_decomp tza b).
  unfold Lambda.isDue, Lambda.todaysDate, Lambda.tomorrowsDate.
  cbn [Lambda.collectedOn Lambda.binCollectionTimeHasPassed Lambda.collectedOnISOString].
  rewrite addDays_one, isAfter_cutoff, !date_string_eqb, local_day_add_day by done.
  change cutoff_2111 with 76260000 in *. change (MakeTime 23 0 0 0) with 82800000 in *.
  change msPerDay with 86400000 in *.
  case_tests; simpl; lia || reflexivity.
Qed.

(** C2: the lambda implements only the "due tomorrow" half of the rule:
    for a bin whose dates it computes, [isDue] holds exactly when the
    rule classifies the collection as due tomorrow. *)
Theorem lambda_isDue_refines (tza today : Z) (title : option string) (dates : Lambda.BinDates) :
  in_range tza today ->
  Lambda.getBinDates tza today title = Ok dates ->
  Lambda.isDue (Lambda.todaysDate tza today) (Lambda.tomorrowsDate tza today) dates = true <->
  classify tza cutoff_2111 today (Lambda.collectedOnISOString dates) = DueTomorrow.
Proof.
  intros Hr H. rewrite (lambda_isDue_only_tomorrow tza today title dates Hr H). unfold classify.
  destruct (_ =? _); [tauto|]. destruct (_ && _); intuition discriminate.
Qed.

(** ** The day labels *)

Lemma distance_days_label (a b : Z) :
  distanceInWordsStrict_days a b = xDays (Z.abs (b - a) / msPerDay).
Proof. unfold distanceInWordsStrict_days. by rewrite distance_in_days_eq. Qed.

Lemma xDays_many (n : Z) : 0 <= n -> n <> 1 -> xDays n = show_nat n +:+ " days".
Proof.
  intros Hn H1. unfold xDays, number_to_string. case_tests; try lia; reflexivity.
Qed.

(** [getDaysUntilDue] for a distance of [n] whole days. *)
Lemma getDaysUntilDue_days (now c : Z) :
  let n := Z.abs (c - now) / msPerDay in
  IndexJs.getDaysUntilDue now c =
  if n =? 1 then "1 day" else if n =? 0 then "Today" else show_nat n +:+ " days".
Proof.
  intros n. assert (0 <= n) by (apply Z.div_pos; unfold msPerDay; lia).
  unfold IndexJs.getDaysUntilDue. rewrite distance_days_label. fold n.
  destruct (Z.eqb_spec n 1) as [-> | H1]; [reflexivity|].
  rewrite xDays_many by done.
  pose proof (split_head_app "days" (show_nat n) EmptyString
                (all_digits_no_space _ (show_nat_digits n H))) as E.
  rewrite string_app_nil_r in E. rewrite E.
  rewrite (bool_decide_false (show_nat n = "1")).
  2:{ intros E1. apply H1, show_nat_inj; [done | lia | exact E1]. }
  destruct (Z.eqb_spec n 0) as [-> | H0]; [reflexivity|].
  rewrite bool_decide_false; [reflexivity|].
  intros E0. apply H0, show_nat_inj; [done | lia | exact E0].
Qed.

(** [getDueDay] for a distance of [n] whole days. *)
Lemma getDueDay_days (now c : Z) :
  let n := Z.abs (c - now) / msPerDay in
  Lambda.getDueDay now c =
  if n =? 1 then "tomorrow" else if n =? 0 then "today" else show_nat n +:+ " days".
Proof.
  intros n. assert (0 <= n) by (apply Z.div_pos; unfold msPerDay; lia).
  unfold Lambda.getDueDay. rewrite distance_days_label. fold n.
  destruct (Z.eqb_spec n 1) as [-> | H1]; [reflexivity|].
  rewrite xDays_many by done.
  pose proof (split_head_app EmptyString (show_nat n) "days"
                (all_digits_no_space _ (show_nat_digits n H))) as E.
  change (String " " EmptyString +:+ "days") with " days" in E. rewrite E.
  rewrite (bool_decide_false (show_nat n = "1")).
  2:{ intros E1. apply H1, show_nat_inj; [done | lia | exact E1]. }
  destruct (Z.eqb_spec n 0) as [-> | H0]; [reflexivity|].
  rewrite bool_decide_false; [reflexivity|].
  intros E0. apply H0, show_nat_inj; [done | lia | exact E0].
Qed.

Lemma collection_distance (tza now c k : Z) :
  local_day tza c = local_day tza now + k ->
  c - now = k * msPerDay + time_of_day tza c - time_of_day tza now.
Proof.
  intros Hk. pose proof (time_decomp tza c). pose proof (time_decomp tza now).
  rewrite Hk in *. unfold msPerDay in *. lia.
Qed.

Lemma same_day_distance (tza now c : Z) :
  local_day tza c = local_day tza now -> Z.abs (c - now) / msPerDay = 0.
Proof.
  intros H. rewrite <- (Z.add_0_r (local_day tza now)) in H.
  apply collection_distance in H. apply Z.div_small.
  pose proof (time_of_day_bound tza c). pose proof (time_of_day_bound tza now). lia.
Qed.

(** A collection on the next local day at 23:00, seen at or before 23:00,
    is one whole day away. *)
Lemma next_day_distance (tza now c : Z) :
  local_day tza c = local_day tza now + 1 -> time_of_day tza c = MakeTime 23 0 0 0 ->
  time_of_day tza now <= MakeTime 23 0 0 0 -> Z.abs (c - now) / msPerDay = 1.
Proof.
  intros H Hc Hn. apply collection_distance in H. pose proof (time_of_day_bound tza now).
  apply Z_div_bracket; unfold MakeTime, msPerDay, msPerHour, msPerMinute, msPerSecond in *; lia.
Qed.

(** The same collection seen after 23:00 is less than a day away. *)
Lemma next_day_distance_late (tza now c : Z) :
  local_day tza c = local_day tza now + 1 -> time_of_day tza c = MakeTime 23 0 0 0 ->
  MakeTime 23 0 0 0 < time_of_day tza now -> Z.abs (c - now) / msPerDay = 0.
Proof.
  intros H Hc Hn. apply collection_distance in H. pose proof (time_of_day_bound tza now).
  apply Z.div_small. unfold MakeTime, msPerDay, msPerHour, msPerMinute, msPerSecond in *. lia.
Qed.

(** A collection on the next day at 23:00, seen before 23:00, is labelled
    "1 day". *)
Theorem getDaysUntilDue_next_day (tza now c : Z) :
  local_day tza c = local_day tza now + 1 -> time_of_day tza c = MakeTime 23 0 0 0 ->
  time_of_day tza now <= MakeTime 23 0 0 0 -> IndexJs.getDaysUntilDue now c = "1 day".
Proof. intros. rewrite getDaysUntilDue_days, (next_day_distance tza); done. Qed.

(** src/index.js labels a collection on today's local day "Today". *)
Theorem getDaysUntilDue_same_day (tza now c : Z) :
  local_day tza c = local_day tza now -> IndexJs.getDaysUntilDue now c = "Today".
Proof. intros. rewrite getDaysUntilDue_days, (same_day_distance tza); done. Qed.

(** The lambda labels a collection on today's local day "today". *)
Theorem getDueDay_same_day (tza now c : Z) :
  local_day tza c = local_day tza now -> Lambda.getDueDay now c = "today".
Proof. intros. rewrite getDueDay_days, (same_day_distance tza); done. Qed.

(** The lambda labels a collection on the next day "tomorrow" up to
    23:00. *)
Theorem getDueDay_next_day (tza now c : Z) :
  local_day tza c = local_day tza now + 1 -> time_of_day tza c = MakeTime 23 0 0 0 ->
  time_of_day tza now <= MakeTime 23 0 0 0 -> Lambda.getDueDay now c = "tomorrow".
Proof. intros. rewrite getDueDay_days, (next_day_distance tza); done. Qed.

(** C25: The lambda labels a collection on the next day "today" after
    23:00, while the bin is due tomorrow. *)
Theorem getDueDay_next_day_late (tza now c : Z) :
  local_day tza c = local_day tza now + 1 -> time_of_day tza c = MakeTime 23 0 0 0 ->
  MakeTime 23 0 0 0 < time_of_day tza now -> Lambda.getDueDay now c = "today".
Proof. intros. rewrite getDueDay_days, (next_day_distance_late tza); done. Qed.

(** ** The type of the labels *)

(** The strings a day label can be: [today] for a distance of zero whole
    days, [one] for one, and "N days" for two or more. *)
Definition label_form (today one s : string) : Prop :=
  s = today \/ s = one \/ exists n, 2 <= n /\ s = show_nat n +:+ " days".

(** C36: the labels the two programs compute have three forms:
    src/index.js gives "Today", "1 day" or "N days" (N >= 2), never
    "Tomorrow"; the lambda gives "today", "tomorrow" or "N days". *)
Theorem day_labels_type (now c : Z) :
  label_form "Today" "1 day" (IndexJs.getDaysUntilDue now c) /\
  label_form "today" "tomorrow" (Lambda.getDueDay now c).
Proof.
  unfold label_form. rewrite getDaysUntilDue_days, getDueDay_days.
  assert (0 <= Z.abs (c - now) / msPerDay) by (apply Z.div_pos; unfold msPerDay; lia).
  case_tests; [tauto | tauto |].
  split; right; right; exists (Z.abs (c - now) / msPerDay); split; [lia | reflexivity | lia | reflexivity].
Qed.

(** ** Witnesses

    2018-07-08T10:00Z ([sun_10am]), 2018-07-08T23:30Z ([sun_2330]) and
    2018-07-09T10:00Z ([mon_10am]) in UTC, and the collection the title
    "Mon 9 Jul 2018" names, 2018-07-09T23:00Z ([mon_2300]). *)

Definition sun_10am : Z := 1531044000000.
Definition sun_2330 : Z := 1531092600000.
Definition mon_10am : Z := 1531130400000.
Definition mon_2300 : Z := 1531177200000.

Lemma in_range_witness (t : Z) : 0 <= t <= 1531177200000 -> in_range 0 t.
Proof. unfold in_range, msPerDay. lia. Qed.

Lemma binIsDue_refines_classify_witness :
  in_range 0 sun_10am /\
  (IndexJs.binIsDue 0 sun_10am mon_2300 = true <-> classify 0 cutoff_2111 sun_10am mon_2300 <> NotDue).
Proof.
  assert (Hr : in_range 0 sun_10am) by (apply in_range_witness; unfold sun_10am; lia).
  split; [exact Hr | exact (binIsDue_refines_classify 0 sun_10am mon_2300 Hr)].
Defined.

Definition mon_dates : Lambda.BinDates := Lambda.mkBinDates true "09/07/2018" mon_2300.

Lemma lambda_isDue_refines_witness :
  in_range 0 sun_10am /\ Lambda.getBinDates 0 sun_10am (Some "Mon 9 Jul 2018") = Ok mon_dates /\
  (Lambda.isDue (Lambda.todaysDate 0 sun_10am) (Lambda.tomorrowsDate 0 sun_10am) mon_dates = true <->
   classify 0 cutoff_2111 sun_10am (Lambda.collectedOnISOString mon_dates) = DueTomorrow).
Proof.
  assert (Hr : in_range 0 sun_10am) by (apply in_range_witness; unfold sun_10am; lia).
  assert (Hb : Lambda.getBinDates 0 sun_10am (Some "Mon 9 Jul 2018") = Ok mon_dates)
    by reflexivity.
  split; [exact Hr | split; [exact Hb | exact (lambda_isDue_refines 0 sun_10am _ mon_dates Hr Hb)]].
Defined.

Lemma getDueDay_next_day_late_witness : Lambda.getDueDay sun_2330 mon_2300 = "today".
Proof. apply (getDueDay_next_day_late 0); [reflexivity | reflexivity | vm_compute; reflexivity]. Defined.

Lemma getDaysUntilDue_same_day_witness : IndexJs.getDaysUntilDue mon_10am mon_2300 = "Today".
Proof. apply (getDaysUntilDue_same_day 0). reflexivity. Defined.

Lemma getDueDay_same_day_witness : Lambda.getDueDay mon_10am mon_2300 = "today".
Proof. apply (getDueDay_same_day 0). reflexivity. Defined.
