(* ===== verification/MessageComposer.v ===== *)
(** * MessageComposer: one sentence for the due bins

    - [createMessage] (src/index.js:170-196) and the joining of its two
      sentences in [handleNewData] (src/index.js:198-209), as
      [composeMessage];
    - [buildMessageForDay] and [buildMessage] (src/lambda/index.js:133-179).
    Both build a day's sentence with a [forEach] loop that capitalises
    the first bin, appends " and <bin>" for the last one and ignores the
    others ([create_loop], [build_loop]).  The lambda's bins are objects
    whose [title] may be undefined ([None]): capitalising an undefined
    first title throws, a later one prints "undefined".

    The theorems give the loop's closed form (the middle bins of three
    or more are dropped), the equivalence of the two implementations on
    defined titles, the empty/sentinel behaviour of [composeMessage], and
    the doubled full stop the lambda puts between its two sentences. *)

From S2P Require Import Prelude JsString.

(** ** src/index.js *)

(** The [forEach] of [createMessage]: [index] counts from 0, [len] is
    [bins.length]. *)
Fixpoint create_loop (bins : list string) (index len : nat) (message : string) : string :=
  match bins with
  | [] => message
  | bin :: rest =>
      let message' :=
        if Nat.eqb index 0 then capitalize_first bin
        else if Nat.eqb index (len - 1) then message +:+ " and " +:+ bin
        else message in
      create_loop rest (S index) len message'
  end.

Definition createMessage (bins : list string) (day : string) : string :=
  match bins with
  | [] => ""
  | _ =>
      let message := create_loop bins 0 (length bins) "" in
      let message := message +:+ (if Nat.ltb 1 (length bins) then " bins are " else " bin is ") in
      message +:+ "being collected " +:+ day +:+ "."
  end.

(** The message [handleNewData] sends: both sentences separated by a
    space when both days have bins, otherwise their concatenation. *)
Definition composeMessage (todaysBins tomorrowsBins : list string) : string :=
  if Nat.ltb 0 (length todaysBins) && Nat.ltb 0 (length tomorrowsBins) then
    createMessage todaysBins "today" +:+ " " +:+ createMessage tomorrowsBins "tomorrow"
  else createMessage todaysBins "today" +:+ createMessage tomorrowsBins "tomorrow".

(** ** src/lambda/index.js *)

Module Lambda.

(** [{title: mapIndexToBinType[index], dueOn: getDueDay(...)}] *)
Record DueBin := mkDueBin { title : option string; dueOn : string }.

Definition undefined_replace : js_error :=
  TypeError "Cannot read properties of undefined (reading 'replace')".

(** The [forEach] of [buildMessageForDay]. *)
Fixpoint build_loop (bins : list DueBin) (index len : nat) (message : string) : outcome string :=
  match bins with
  | [] => Ok message
  | bin :: rest =>
      if Nat.eqb index 0 then
        match title bin with
        | None => Throw undefined_replace
        | Some t => build_loop rest (S index) len (capitalize_first t)
        end
      else if Nat.eqb index (len - 1) then
        build_loop rest (S index) len (message +:+ " and " +:+ str_or_undefined (title bin))
      else build_loop rest (S index) len message
  end.

Definition buildMessageForDay (bins : list DueBin) (day : string) : outcome string :=
  message <- build_loop bins 0 (length bins) "" ;;
  let message := message +:+ (if Nat.ltb 1 (length bins) then " bins are " else " bin is ") in
  Ok (message +:+ "being collected " +:+ day +:+ ".").

Definition due_on_is (d : string) (bin : DueBin) : bool := bool_decide (dueOn bin = d).

(** [buildMessage(bins)]: [None] is the [undefined] it returns when no
    bin is due today or tomorrow. *)
Definition buildMessage (bins : list DueBin) : outcome (option string) :=
  if Nat.eqb (length bins) 0 then Ok (Some "No bins due") else
  let dueToday := List.filter (due_on_is "today") bins in
  let dueTomorrow := List.filter (due_on_is "tomorrow") bins in
  if Nat.leb 1 (length dueToday) && Nat.leb 1 (length dueTomorrow) then
    m0 <- buildMessageForDay dueToday "today" ;;
    m1 <- buildMessageForDay dueTomorrow "tomorrow" ;;
    Ok (Some (m0 +:+ ". " +:+ m1))
  else if Nat.leb 1 (length dueToday) then omap Some (buildMessageForDay dueToday "today")
  else if Nat.leb 1 (length dueTomorrow) then omap Some (buildMessageForDay dueTomorrow "tomorrow")
  else Ok None.

End Lambda.

(** ** The closed form of the loops *)

(** " and <last bin>", or nothing for a single bin. *)
Fixpoint and_last (bins : list string) : string :=
  match bins with
  | [] => ""
  | [b] => " and " +:+ b
  | _ :: bs => and_last bs
  end.

(** The reference form of a day's sentence, without its final stop. *)
Definition sentence_body (b : string) (bs : list string) (day : string) : string :=
  capitalize_first b +:+ and_last bs +:+
  (match bs with [] => " bin is " | _ => " bins are " end) +:+ "being collected " +:+ day.

Lemma create_loop_tail (bs : list string) (i len : nat) (msg : string) :
  (S i + length bs = len)%nat ->
  create_loop bs (S i) len msg = msg +:+ and_last bs.
Proof.
  revert i msg. induction bs as [|b bs IH]; intros i msg Hlen; cbn [create_loop];
    change (Nat.eqb (S i) 0) with false; cbv iota.
  - by rewrite string_app_nil_r.
  - destruct bs as [|b' bs]; simpl in Hlen.
    + rewrite (proj2 (Nat.eqb_eq _ _)) by lia. reflexivity.
    + rewrite (proj2 (Nat.eqb_neq _ _)) by (simpl in *; lia).
      rewrite IH by (simpl in *; lia). reflexivity.
Qed.

(** The loop of [createMessage] computes the first bin, capitalised,
    and " and " with the last bin. *)
Theorem createMessage_spec (b : string) (bs : list string) (day : string) :
  createMessage (b :: bs) day = sentence_body b bs day +:+ ".".
Proof.
  unfold createMessage, sentence_body. cbn [create_loop length]. rewrite create_loop_tail by lia.
  cbn [Nat.eqb]. rewrite !string_app_assoc. destruct bs; reflexivity.
Qed.

Fixpoint last_bin (b : string) (bs : list string) : string :=
  match bs with
  | [] => b
  | b' :: bs' => last_bin b' bs'
  end.

Lemma and_last_cons (m : string) (bs : list string) :
  and_last (m :: bs) = " and " +:+ last_bin m bs.
Proof. revert m. induction bs as [|b bs IH]; intros m; [reflexivity|]. apply IH. Qed.

(** C5: With three bins or more only the first and the last are named: the
    sentence is the one for those two bins, the middle ones are lost. *)
Corollary createMessage_drops_middle (a m : string) (bs : list string) (day : string) :
  createMessage (a :: m :: bs) day = createMessage [a; last_bin m bs] day.
Proof.
  rewrite !createMessage_spec. unfold sentence_body. by rewrite !and_last_cons.
Qed.

Lemma string_app_eq_nil (a b : string) : a +:+ b = "" -> a = "" /\ b = "".
Proof. destruct a; [done|]. rewrite string_app_cons. discriminate. Qed.

Lemma createMessage_nonempty (bins : list string) (day : string) :
  bins <> [] -> createMessage bins day <> "".
Proof.
  destruct bins as [|b bs]; [done|]. intros _. rewrite createMessage_spec.
  intros H. apply string_app_eq_nil in H as [_ H]. discriminate.
Qed.

(** C20: The composed message is empty exactly when no bin is due: the
    caller must then send nothing. *)
Theorem composeMessage_empty_iff (todaysBins tomorrowsBins : list string) :
  composeMessage todaysBins tomorrowsBins = "" <-> todaysBins = [] /\ tomorrowsBins = [].
Proof.
  split; [|intros [-> ->]; reflexivity].
  unfold composeMessage. intros H.
  destruct todaysBins as [|t ts], tomorrowsBins as [|m ms]; cbn -[createMessage] in H.
  - done.
  - exfalso. by apply (createMessage_nonempty (m :: ms) "tomorrow").
  - exfalso. rewrite string_app_nil_r in H. by apply (createMessage_nonempty (t :: ts) "today").
  - exfalso. apply string_app_eq_nil in H as [H _]. by apply (createMessage_nonempty (t :: ts) "today").
Qed.

(** C21: Both days due: "<today's sentence>. <tomorrow's sentence>." *)
Theorem composeMessage_both (t m : string) (ts ms : list string) :
  composeMessage (t :: ts) (m :: ms) =
  sentence_body t ts "today" +:+ ". " +:+ sentence_body m ms "tomorrow" +:+ ".".
Proof.
  unfold composeMessage. cbn -[createMessage]. rewrite !createMessage_spec.
  by rewrite !string_app_assoc.
Qed.

(** ** The lambda's message against src/index.js's *)

(** A bin with a defined title, due on [d]. *)
Definition defined_bin (d t : string) : Lambda.DueBin := Lambda.mkDueBin (Some t) d.

Lemma build_loop_defined (l : list string) (d : string) (i n : nat) (msg : string) :
  Lambda.build_loop (map (defined_bin d) l) i n msg = Ok (create_loop l i n msg).
Proof.
  revert i msg. induction l as [|t l IH]; intros i msg; [reflexivity|].
  cbn [map Lambda.build_loop create_loop]. unfold defined_bin at 1. cbn [Lambda.title].
  destruct (Nat.eqb i 0); [|destruct (Nat.eqb i (n - 1))]; apply IH.
Qed.

(** On bins with defined titles the lambda's
    [buildMessageForDay] writes the sentence of [createMessage]. *)
Theorem buildMessageForDay_createMessage (l : list string) (d day : string) :
  l <> [] -> Lambda.buildMessageForDay (map (defined_bin d) l) day = Ok (createMessage l day).
Proof.
  intros Hl. unfold Lambda.buildMessageForDay. rewrite build_loop_defined, length_map.
  destruct l as [|t l]; [done|]. reflexivity.
Qed.

Lemma filter_defined (d d' : string) (l : list string) :
  List.filter (Lambda.due_on_is d') (map (defined_bin d) l) =
  if bool_decide (d = d') then map (defined_bin d) l else [].
Proof.
  induction l as [|t l IH]; cbn [map List.filter]; [by destruct (bool_decide _)|].
  rewrite IH. unfold Lambda.due_on_is, defined_bin at 1. cbn [Lambda.dueOn].
  by destruct (bool_decide (d = d')).
Qed.

(** C10: Bins due on both days: the lambda joins the two sentences with
    ". ", after a sentence that already ends with ".", so the message
    reads "... today.. <Tomorrow's sentence>". *)
Theorem buildMessage_double_stop (t m : string) (ts ms : list string) :
  Lambda.buildMessage (map (defined_bin "today") (t :: ts) ++ map (defined_bin "tomorrow") (m :: ms)) =
  Ok (Some (sentence_body t ts "today" +:+ ".. " +:+ sentence_body m ms "tomorrow" +:+ ".")).
Proof.
  unfold Lambda.buildMessage. rewrite !filter_app, !filter_defined.
  rewrite (bool_decide_true ("today" = "today")), (bool_decide_true ("tomorrow" = "tomorrow")),
    (bool_decide_false ("today" = "tomorrow")), (bool_decide_false ("tomorrow" = "today"))
    by done.
  rewrite app_nil_r, app_nil_l.
  rewrite !length_app, !length_map. cbn [length Nat.add Nat.eqb Nat.leb andb].
  rewrite !buildMessageForDay_createMessage by done. cbn [obind].
  rewrite !createMessage_spec. rewrite ?string_app_assoc. reflexivity.
Qed.

(** The lambda's message for bins due on one day only. *)
Lemma buildMessage_single_day (l : list string) :
  l <> [] ->
  Lambda.buildMessage (map (defined_bin "today") l) = Ok (Some (createMessage l "today")) /\
  Lambda.buildMessage (map (defined_bin "tomorrow") l) = Ok (Some (createMessage l "tomorrow")).
Proof.
  intros Hl. unfold Lambda.buildMessage. rewrite !filter_defined.
  rewrite (bool_decide_true ("today" = "today")), (bool_decide_true ("tomorrow" = "tomorrow")),
    (bool_decide_false ("today" = "tomorrow")), (bool_decide_false ("tomorrow" = "today"))
    by done.
  rewrite !length_map, !buildMessageForDay_createMessage by done.
  destruct l as [|t l]; [done|]. split; reflexivity.
Qed.

(** C19: bins due on one day only: the lambda's message is the one
    src/index.js composes for the same bins. *)
Theorem buildMessage_one_day (l : list string) :
  l <> [] ->
  Lambda.buildMessage (map (defined_bin "today") l) = Ok (Some (composeMessage l [])) /\
  Lambda.buildMessage (map (defined_bin "tomorrow") l) = Ok (Some (composeMessage [] l)).
Proof.
  intros Hl. destruct (buildMessage_single_day l Hl) as [-> ->]. unfold composeMessage.
  destruct l as [|t l]; [done|]. cbn [length Nat.ltb Nat.leb andb createMessage].
  by rewrite string_app_nil_r.
Qed.

Lemma buildMessage_one_day_witness :
  Lambda.buildMessage (map (defined_bin "today") ["garden"; "waste"]) =
    Ok (Some (composeMessage ["garden"; "waste"] [])) /\
  Lambda.buildMessage (map (defined_bin "tomorrow") ["garden"; "waste"]) =
    Ok (Some (composeMessage [] ["garden"; "waste"])).
Proof. apply buildMessage_one_day. discriminate. Defined.
