(* ===== verification/Aggregator.v ===== *)
(** * BinAggregator: from the feed to the due bins

    The feed, once converted from XML, is a list of channels; each
    channel's item title is [Some title], or [None] when the item or its
    title is missing ([feed]).
    - [IndexJs.formatData] (src/index.js:80-107) reads channels 0, 1, 2 as
      garden, waste and recycling, parses each title with
      [getCollectionDate] and records [isDue], [daysUntilDue] and the
      collection date of each bin;
    - [Lambda.getDueBins] (src/lambda/index.js:60-118) walks all channels
      in order, maps channel index 0, 1, 2 to "waste", "garden",
      "recycling" ([mapIndexToBinType], src/lambda/index.js:7-11) and
      keeps the due ones with their [getDueDay] label;
      [Lambda.formatData] (src/lambda/index.js:120-131) turns any
      exception into [Error("Error formatting data")].
    Neither program isolates a malformed title: one bad channel makes the
    whole aggregation throw.  The two programs give channel 0 different
    names. *)

From S2P Require Import Prelude JsString Calendar DateParser DueClassifier MessageComposer.

Local Open Scope Z_scope.

(** The channels of the converted feed, by their item's title. *)
Definition feed := list (option string).

(** [json.rss.channel[i].item.title]. *)
Definition channel_title (f : feed) (i : nat) : outcome string :=
  match f !! i with
  | None => Throw (TypeError "Cannot read properties of undefined (reading 'item')")
  | Some None => Throw (TypeError "Cannot read properties of undefined (reading 'title')")
  | Some (Some t) => Ok t
  end.

Module IndexJs.

(** One entry of [response.bins]. *)
Record BinStatus := mkBinStatus {
  isDue : bool;
  daysUntilDue : string;
  collectionDate : Z
}.

Record Bins := mkBins { garden : BinStatus; waste : BinStatus; recycling : BinStatus }.

Section WithTZ.

Variable tza : Z.

Definition bin_status (now c : Z) : BinStatus :=
  mkBinStatus (IndexJs.binIsDue tza now c) (IndexJs.getDaysUntilDue now c) c.

Definition collection_of (f : feed) (i : nat) : outcome Z :=
  t <- channel_title f i ;; getCollectionDate tza t.

(** [formatData(json)]: the three collection dates in the order of the
    object literal, then the three statuses. *)
Definition formatData (now : Z) (f : feed) : outcome Bins :=
  g <- collection_of f 0 ;;
  w <- collection_of f 1 ;;
  r <- collection_of f 2 ;;
  Ok (mkBins (bin_status now g) (bin_status now w) (bin_status now r)).

End WithTZ.
End IndexJs.

Module Lambda.

Definition mapIndexToBinType (i : nat) : option string :=
  match i with
  | 0%nat => Some "waste"
  | 1%nat => Some "garden"
  | 2%nat => Some "recycling"
  | _ => None
  end.

Section WithTZ.

Variable tza : Z.

(** The [forEach] of [getDueBins] from channel [index] on. *)
Fixpoint due_bins_loop (today : Z) (channels : feed) (index : nat)
    : outcome (list Lambda.DueBin) :=
  match channels with
  | [] => Ok []
  | bin :: rest =>
      dates <- Lambda.getBinDates tza today bin ;;
      let keep := Lambda.isDue (Lambda.todaysDate tza today) (Lambda.tomorrowsDate tza today) dates in
      later <- due_bins_loop today rest (S index) ;;
      Ok (if keep
          then Lambda.mkDueBin (mapIndexToBinType index)
                               (Lambda.getDueDay today (Lambda.collectedOnISOString dates)) :: later
          else later)
  end.

Definition getDueBins (today : Z) (data : feed) : outcome (list Lambda.DueBin) :=
  due_bins_loop today data 0.

(** [formatData(data)]: the due bins, any exception replaced by
    [Error("Error formatting data")]. *)
Definition formatData (today : Z) (data : feed) : outcome (list Lambda.DueBin) :=
  ocatch (getDueBins today data) (fun _ => Throw (JsError "Error formatting data")).

End WithTZ.
End Lambda.

(** ** One malformed title fails the whole aggregation *)

(** C17: src/index.js: a failing channel among the three fails [formatData]. *)
Theorem index_formatData_no_degradation (tza now : Z) (f : feed) (i : nat) (e : js_error) :
  (i < 3)%nat -> IndexJs.collection_of tza f i = Throw e ->
  exists e', IndexJs.formatData tza now f = Throw e'.
Proof.
  intros Hi He. unfold IndexJs.formatData.
  destruct (IndexJs.collection_of tza f 0) as [g|e0] eqn:E0; [|eauto].
  destruct (IndexJs.collection_of tza f 1) as [w|e1] eqn:E1; [|eauto].
  destruct (IndexJs.collection_of tza f 2) as [r|e2] eqn:E2; [|eauto].
  exfalso. destruct i as [|[|[|i]]]; try lia; congruence.
Qed.

Lemma due_bins_loop_throw (tza today : Z) (data : feed) (index i : nat) (bin : option string)
    (e : js_error) :
  data !! i = Some bin -> Lambda.getBinDates tza today bin = Throw e ->
  exists e', Lambda.due_bins_loop tza today data index = Throw e'.
Proof.
  revert index i. induction data as [|b data IH]; intros index i Hi He; [done|].
  cbn [Lambda.due_bins_loop].
  destruct (Lambda.getBinDates tza today b) as [dates|e0] eqn:Eb; cbn [obind]; [|eauto].
  destruct i as [|i]; [simpl in Hi; injection Hi as ->; congruence|].
  destruct (IH (S index) i Hi He) as [e' ->]. eauto.
Qed.

(** C18: src/lambda/index.js: a channel whose title is missing or unparseable
    turns the whole run into "Error formatting data". *)
Theorem lambda_formatData_no_degradation (tza today : Z) (data : feed) (i : nat)
    (bin : option string) (e : js_error) :
  data !! i = Some bin -> Lambda.getBinDates tza today bin = Throw e ->
  Lambda.formatData tza today data = Throw (JsError "Error formatting data").
Proof.
  intros Hi He. unfold Lambda.formatData, Lambda.getDueBins.
  destruct (due_bins_loop_throw tza today data 0 i bin e Hi He) as [e' ->]. reflexivity.
Qed.

(** ** What the lambda reports *)

(** The loop of [getDueBins] from channel [index]: every bin it keeps is
    labelled "tomorrow" when checked up to 23:00. *)
Lemma due_bins_loop_tomorrow (tza today : Z) (data : feed) (index : nat) (l : list Lambda.DueBin) :
  in_range tza today -> time_of_day tza today <= MakeTime 23 0 0 0 ->
  Lambda.due_bins_loop tza today data index = Ok l ->
  Forall (fun b => Lambda.dueOn b = "tomorrow") l.
Proof.
  intros Hr Ht. revert l index.
  induction data as [|bin data IH]; intros l index H; cbn [Lambda.due_bins_loop] in H.
  - apply Ok_inj in H. subst. constructor.
  - destruct (Lambda.getBinDates tza today bin) as [dates|e] eqn:Eb; [|discriminate H].
    cbn [obind] in H.
    destruct (Lambda.due_bins_loop tza today data (S index)) as [later|e] eqn:El;
      [|discriminate H].
    cbn [obind] in H. apply Ok_inj in H. subst l.
    specialize (IH later (S index) El).
    destruct (Lambda.isDue _ _ dates) eqn:Ed; [|exact IH].
    constructor; [|exact IH]. cbn [Lambda.dueOn].
    rewrite (lambda_isDue_only_tomorrow tza today bin dates Hr Eb) in Ed. apply Z.eqb_eq in Ed.
    destruct (getBinDates_Ok tza today bin dates Eb) as (t & b & _ & Hb & ->).
    cbn [Lambda.collectedOnISOString] in *.
    apply (getDueDay_next_day tza); [done | exact (bin_date_time tza t b Hb) | done].
Qed.

(** C9: Every bin the lambda reports is due tomorrow and, checked up to
    23:00, labelled "tomorrow". *)
Theorem lambda_getDueBins_tomorrow (tza today : Z) (data : feed) (l : list Lambda.DueBin) :
  in_range tza today -> time_of_day tza today <= MakeTime 23 0 0 0 ->
  Lambda.getDueBins tza today data = Ok l ->
  Forall (fun b => Lambda.dueOn b = "tomorrow") l.
Proof. apply due_bins_loop_tomorrow. Qed.

(** On a feed of at most three channels every reported bin has a name. *)
Lemma due_bins_loop_titles (tza today : Z) (data : feed) (index : nat) (l : list Lambda.DueBin) :
  (index + length data <= 3)%nat ->
  Lambda.due_bins_loop tza today data index = Ok l ->
  Forall (fun b => is_Some (Lambda.title b)) l.
Proof.
  revert l index. induction data as [|bin data IH]; intros l index Hlen H;
    cbn [Lambda.due_bins_loop length] in *.
  - apply Ok_inj in H. subst. constructor.
  - destruct (Lambda.getBinDates tza today bin) as [dates|e]; [|discriminate H]. cbn [obind] in H.
    destruct (Lambda.due_bins_loop tza today data (S index)) as [later|e] eqn:El; [|discriminate H].
    cbn [obind] in H. apply Ok_inj in H. subst l.
    specialize (IH later (S index) ltac:(lia) El).
    destruct (Lambda.isDue _ _ dates); [|exact IH]. constructor; [|exact IH].
    cbn [Lambda.title]. destruct index as [|[|[|i]]]; [eexists; reflexivity.. | lia].
Qed.

(** A feed none of whose collections falls on the next local day, a
    collection today included, gives the lambda no bin to report. *)
Lemma due_bins_loop_none (tza today : Z) (data : feed) (index : nat) :
  in_range tza today ->
  Forall (fun bin => exists dates, Lambda.getBinDates tza today bin = Ok dates /\
            local_day tza (Lambda.collectedOnISOString dates) <> local_day tza today + 1) data ->
  Lambda.due_bins_loop tza today data index = Ok [].
Proof.
  intros Hr Hall. revert index.
  induction Hall as [|bin data (dates & Eb & Hd) _ IH]; intros index; [reflexivity|].
  cbn [Lambda.due_bins_loop]. rewrite Eb. cbn [obind]. rewrite IH. cbn [obind].
  rewrite (lambda_isDue_only_tomorrow tza today bin dates Hr Eb). by rewrite (proj2 (Z.eqb_neq _ _) Hd).
Qed.

(** ** What src/index.js reports *)

Lemma collection_of_time (tza : Z) (f : feed) (i : nat) (c : Z) :
  IndexJs.collection_of tza f i = Ok c -> time_of_day tza c = MakeTime 23 0 0 0.
Proof.
  unfold IndexJs.collection_of. destruct (channel_title f i) as [t|e]; cbn [obind]; [|discriminate].
  intros H. apply (bin_date_time tza t). by rewrite bin_date_getCollectionDate, H.
Qed.

Lemma formatData_Ok (tza now : Z) (f : feed) (bins : IndexJs.Bins) :
  IndexJs.formatData tza now f = Ok bins ->
  exists g w r, IndexJs.collection_of tza f 0 = Ok g /\ IndexJs.collection_of tza f 1 = Ok w /\
    IndexJs.collection_of tza f 2 = Ok r /\
    bins = IndexJs.mkBins (IndexJs.bin_status tza now g) (IndexJs.bin_status tza now w)
                          (IndexJs.bin_status tza now r).
Proof.
  unfold IndexJs.formatData.
  destruct (IndexJs.collection_of tza f 0) as [g|e] eqn:E0; cbn [obind]; [|discriminate].
  destruct (IndexJs.collection_of tza f 1) as [w|e] eqn:E1; cbn [obind]; [|discriminate].
  destruct (IndexJs.collection_of tza f 2) as [r|e] eqn:E2; cbn [obind]; [|discriminate].
  intros H. apply Ok_inj in H. eauto 10.
Qed.

(** A status src/index.js computes for a collection on another day than
    today, checked up to 23:00: when it is due its label is "1 day". *)
Lemma bin_status_not_today (tza now c : Z) :
  in_range tza now -> time_of_day tza now <= MakeTime 23 0 0 0 ->
  time_of_day tza c = MakeTime 23 0 0 0 -> local_day tza c <> local_day tza now ->
  IndexJs.isDue (IndexJs.bin_status tza now c) = true ->
  IndexJs.daysUntilDue (IndexJs.bin_status tza now c) = "1 day".
Proof.
  intros Hr Hn Hc Hd. cbn [IndexJs.isDue IndexJs.daysUntilDue IndexJs.bin_status].
  rewrite (binIsDue_classify tza now c Hr). unfold classify.
  destruct (local_day tza c =? local_day tza now + 1) eqn:E.
  - intros _. apply Z.eqb_eq in E. by apply (getDaysUntilDue_next_day tza).
  - rewrite (proj2 (Z.eqb_neq _ _) Hd). discriminate.
Qed.

(** A status src/index.js computes, before the 21:11 cutoff, for a
    collection not on the next local day: it is due exactly when the
    collection is on today's local day, and then labelled "Today". *)
Lemma bin_status_today (tza now c : Z) :
  in_range tza now -> time_of_day tza now <= cutoff_2111 ->
  local_day tza c <> local_day tza now + 1 ->
  IndexJs.isDue (IndexJs.bin_status tza now c) = (local_day tza c =? local_day tza now) /\
  (local_day tza c = local_day tza now -> IndexJs.daysUntilDue (IndexJs.bin_status tza now c) = "Today").
Proof.
  intros Hr Hn Hd. cbn [IndexJs.isDue IndexJs.daysUntilDue IndexJs.bin_status]. split.
  - rewrite (binIsDue_classify tza now c Hr). unfold classify.
    rewrite (proj2 (Z.eqb_neq _ _) Hd). rewrite (proj2 (Z.ltb_ge _ _) Hn).
    by destruct (_ =? _).
  - intros Hs. rewrite getDaysUntilDue_days, (same_day_distance tza) by done. reflexivity.
Qed.

(** ** The two programs name the channels differently *)

(** C37: the collection of channel 0 is the garden bin's date in
    src/index.js, and, when due, the lambda reports the same collection
    as the "waste" bin. *)
Theorem channel_zero_names (tza now : Z) (t0 : string) (rest : feed) (bins : IndexJs.Bins)
    (l : list Lambda.DueBin) (d : Lambda.BinDates) :
  IndexJs.formatData tza now (Some t0 :: rest) = Ok bins ->
  Lambda.getDueBins tza now (Some t0 :: rest) = Ok l ->
  Lambda.getBinDates tza now (Some t0) = Ok d ->
  Lambda.isDue (Lambda.todaysDate tza now) (Lambda.tomorrowsDate tza now) d = true ->
  IndexJs.collectionDate (IndexJs.garden bins) = Lambda.collectedOnISOString d /\
  exists l', l = Lambda.mkDueBin (Some "waste") (Lambda.getDueDay now (Lambda.collectedOnISOString d)) :: l'.
Proof.
  intros Hf Hl Hd Hdue. split.
  - apply formatData_Ok in Hf as (g & w & r & Hg & _ & _ & ->). cbn.
    destruct (getBinDates_Ok _ _ _ _ Hd) as (t & b & Ht & Hb & ->). injection Ht as Ht. subst t. cbn.
    unfold IndexJs.collection_of in Hg. cbn in Hg.
    rewrite bin_date_getCollectionDate, Hg in Hb. by injection Hb.
  - unfold Lambda.getDueBins in Hl. cbn [Lambda.due_bins_loop] in Hl. rewrite Hd in Hl. cbn [obind] in Hl.
    destruct (Lambda.due_bins_loop tza now rest 1) as [later|e]; [|discriminate Hl].
    cbn [obind] in Hl. apply Ok_inj in Hl. rewrite Hdue in Hl. eauto.
Qed.

(** ** Witnesses: a feed of 8 July 2018 *)

Definition feed_jul : feed := [Some "Mon 9 Jul 2018"; Some "Fri 13 Jul 2018"; Some "Mon 16 Jul 2018"].

Lemma lambda_getDueBins_tomorrow_witness :
  Lambda.getDueBins 0 sun_10am feed_jul = Ok [Lambda.mkDueBin (Some "waste") "tomorrow"] /\
  Forall (fun b => Lambda.dueOn b = "tomorrow") [Lambda.mkDueBin (Some "waste") "tomorrow"].
Proof.
  assert (Hg : Lambda.getDueBins 0 sun_10am feed_jul = Ok [Lambda.mkDueBin (Some "waste") "tomorrow"])
    by reflexivity.
  split; [exact Hg|]. apply (lambda_getDueBins_tomorrow 0 sun_10am feed_jul); [| |exact Hg].
  - apply in_range_witness. unfold sun_10am. lia.
  - vm_compute. discriminate.
Defined.

Definition feed_no_title : feed := [Some "Mon 9 Jul 2018"; None; Some "Mon 16 Jul 2018"].

Lemma index_formatData_no_degradation_witness :
  exists e', IndexJs.formatData 0 sun_10am feed_no_title = Throw e'.
Proof.
  apply (index_formatData_no_degradation 0 sun_10am feed_no_title 1
           (TypeError "Cannot read properties of undefined (reading 'title')")); [lia | reflexivity].
Defined.

Lemma lambda_formatData_no_degradation_witness :
  Lambda.formatData 0 sun_10am feed_no_title = Throw (JsError "Error formatting data").
Proof.
  apply (lambda_formatData_no_degradation 0 sun_10am feed_no_title 1 None
           (TypeError "Cannot read properties of undefined (reading '0')")); reflexivity.
Defined.

Lemma channel_zero_names_witness :
  IndexJs.collectionDate (IndexJs.garden
    (IndexJs.mkBins (IndexJs.bin_status 0 sun_10am mon_2300) (IndexJs.bin_status 0 sun_10am 1531522800000)
                    (IndexJs.bin_status 0 sun_10am 1531782000000))) = Lambda.collectedOnISOString mon_dates /\
  exists l', [Lambda.mkDueBin (Some "waste") "tomorrow"] =
             Lambda.mkDueBin (Some "waste") (Lambda.getDueDay sun_10am (Lambda.collectedOnISOString mon_dates)) :: l'.
Proof.
  apply (channel_zero_names 0 sun_10am "Mon 9 Jul 2018" (tail feed_jul)); exact eq_refl.
Defined.
