(* ===== verification/Effects.v ===== *)
(** * Effects: the network, the console and the environment

    The effects of both programs run in a state monad [M] over the state
    [net] of the outside world as the code sees it:
    - the responses the council's server will give to the next fetches
      ([pending]), the number of fetches made, and whether the body of
      the current response has been read ([body_used]: the [response]
      object is shared by the two [response.text()] calls of the
      lambda's [getData]);
    - the webhook requests sent so far ([posted], each the [value1] of
      its JSON body [JSON.stringify({value1: message})]);
    - the console ([logged]): every [console.log], [console.warn] and
      [console.error] call with its arguments, in order.
    An exception leaves the state as it is.  [mcatch] is
    [try { c } catch (e) { h(e) }], [console] a console call, [lift] a
    synchronous computation of the code that returns or throws.

    The collaborators outside the sources are the [Collaborators] class:
    the XML conversion (xml2json in src/index.js, xml2js in the lambda),
    the webhook endpoint's answers, node-fetch's test of an absolute URL
    (with its two laws: "undefined" and "" are not absolute), and the
    environment variables [WEBHOOK_URL] and [PORT].

    The lemmas bound the fetches and the webhook requests of a
    computation ([costs], [posts_at_most]) and show that the console
    only grows ([logs_grow]), compositionally through the monad's
    operations; [step] runs a computation one bind at a time. *)

From S2P Require Import Prelude JsString Calendar MessageComposer Aggregator.

Local Open Scope Z_scope.

(** ** The network and the console *)

Record Response := mkResponse { ok : bool; status : Z; statusText : string; body : string }.

(** What a fetch of the feed URL gives: a rejected promise or a response. *)
Inductive fetch_result := FetchRejected | Fetched (r : Response).

(** The console methods the code calls. *)
Inductive console_method := ConsoleLog | ConsoleWarn | ConsoleError.

(** An argument of a console call: a string, a number, an exception, or
    one of the two objects the code logs whole (the lambda's due bins
    and src/index.js's [newResponse]). *)
Inductive log_arg :=
| AStr (s : string)
| ANum (n : Z)
| AErr (e : js_error)
| ADueBins (bins : list MessageComposer.Lambda.DueBin)
| AResponseData (updatedOn : string) (bins : Aggregator.IndexJs.Bins).

Record log_entry := mkLog { method : console_method; args : list log_arg }.

Record net := mkNet {
  pending : list fetch_result;
  fetches_made : nat;
  body_used : bool;
  posted : list string;
  logged : list log_entry
}.

Definition M (A : Type) : Type := net -> outcome A * net.

Definition mret {A} (a : A) : M A := fun s => (Ok a, s).
Definition mthrow {A} (e : js_error) : M A := fun s => (Throw e, s).
Definition mbind {A B} (c : M A) (k : A -> M B) : M B :=
  fun s => let '(r, s') := c s in
           match r with Ok a => k a s' | Throw e => (Throw e, s') end.
(** [try { c } catch (e) { h(e) }] *)
Definition mcatch {A} (c : M A) (h : js_error -> M A) : M A :=
  fun s => let '(r, s') := c s in
           match r with Ok a => (Ok a, s') | Throw e => h e s' end.

(** A synchronous computation of the code, which returns or throws. *)
Definition lift {A} (o : outcome A) : M A := fun s => (o, s).

(** [console.<method>(args...)]. *)
Definition console (m : console_method) (a : list log_arg) : M unit :=
  fun s => (Ok tt, mkNet (pending s) (fetches_made s) (body_used s) (posted s) (logged s ++ [mkLog m a])).

Declare Scope net_scope.
Delimit Scope net_scope with net.
Notation "x <-- c ;;; k" := (mbind c (fun x => k))
  (at level 100, c at next level, right associativity) : net_scope.
Open Scope net_scope.

(** ** The collaborators *)

(** [xml2js]'s and [xml2json]'s conversion ([None] when it reports an
    error), the webhook endpoint's response to a POST of a [value1]
    ([None] for a rejected fetch), node-fetch's test that a URL is
    absolute, which rejects "undefined" and "", and the environment
    variables [process.env.WEBHOOK_URL] and [process.env.PORT] ([None]
    when unset). *)
Class Collaborators := {
  xml_to_json : string -> option feed;
  webhook_answer : string -> option Response;
  url_absolute : string -> bool;
  url_undefined_relative : url_absolute "undefined" = false;
  url_empty_relative : url_absolute "" = false;
  WEBHOOK_URL : option string;
  PORT : option string
}.

(** [fetch(dataURL)]: the next pending result; a fresh response whose
    body is unread.  With nothing pending the network is down. *)
Definition fetch_feed : M Response :=
  fun s =>
    let s1 := mkNet (tail (pending s)) (S (fetches_made s)) (body_used s) (posted s) (logged s) in
    match head (pending s) with
    | Some (Fetched r) => (Ok r, mkNet (pending s1) (fetches_made s1) false (posted s1) (logged s1))
    | _ => (Throw (TypeError "fetch failed"), s1)
    end.

(** [response.text()]: the body, once; a second read rejects. *)
Definition text (r : Response) : M string :=
  fun s =>
    if body_used s then (Throw (TypeError "body used already"), s)
    else (Ok (body r), mkNet (pending s) (fetches_made s) true (posted s) (logged s)).

(** [JSON.stringify({value1: message})], the body of a webhook request. *)
Definition json_value1 (message : string) : string :=
  "{" +:+ json_quote "value1" +:+ ":" +:+ json_quote message +:+ "}".

(** [fetch(webhookKey, {method: "POST", body: JSON.stringify({value1:
    message}), ...})]: node-fetch turns the URL into a string
    ([undefined] becomes "undefined") and rejects a URL that is not
    absolute before sending anything. *)
Definition post_webhook `{Collaborators} (webhookKey : option string) (message : string)
    : M (option Response) :=
  fun s =>
    if url_absolute (str_or_undefined webhookKey) then
      (Ok (webhook_answer message),
       mkNet (pending s) (fetches_made s) (body_used s) (posted s ++ [message]) (logged s))
    else (Throw (TypeError "Only absolute URLs are supported"), s).

(** ** Reasoning about [M]: fetch costs and webhook posts *)

(** [c] makes at most [n] fetches, and [c] posts at most [p] webhook
    requests, from any state. *)
Definition costs {A} (c : M A) (n : nat) : Prop :=
  forall s, (fetches_made (snd (c s)) <= fetches_made s + n)%nat.

Definition posts_at_most {A} (c : M A) (p : nat) : Prop :=
  forall s, exists l, posted (snd (c s)) = posted s ++ l /\ (length l <= p)%nat.

(** [c] appends to the console and never removes an entry. *)
Definition logs_grow {A} (c : M A) : Prop :=
  forall s, exists l, logged (snd (c s)) = logged s ++ l.

Create HintDb monad_facts discriminated.

Section Combinators.

Context {A B : Type}.

Lemma costs_ret (a : A) n : costs (mret a) n.
Proof. intros s. simpl. lia. Qed.

Lemma costs_throw e n : costs (mthrow (A := A) e) n.
Proof. intros s. simpl. lia. Qed.

Lemma costs_weaken (c : M A) n m : costs c n -> (n <= m)%nat -> costs c m.
Proof. intros Hc Hle s. specialize (Hc s). lia. Qed.

Lemma costs_bind (c : M A) (k : A -> M B) n m :
  costs c n -> (forall a, costs (k a) m) -> costs (mbind c k) (n + m).
Proof.
  intros Hc Hk s. unfold mbind. specialize (Hc s).
  destruct (c s) as [[a|e] s'] eqn:E; simpl in *; [specialize (Hk a s')|]; lia.
Qed.

Lemma costs_catch (c : M A) (h : js_error -> M A) n m :
  costs c n -> (forall e, costs (h e) m) -> costs (mcatch c h) (n + m).
Proof.
  intros Hc Hh s. unfold mcatch. specialize (Hc s).
  destruct (c s) as [[a|e] s'] eqn:E; simpl in *; [|specialize (Hh e s')]; lia.
Qed.

Lemma posts_ret (a : A) n : posts_at_most (mret a) n.
Proof. intros s. exists []. rewrite app_nil_r. split; [done | simpl; lia]. Qed.

Lemma posts_throw e n : posts_at_most (mthrow (A := A) e) n.
Proof. intros s. exists []. rewrite app_nil_r. split; [done | simpl; lia]. Qed.

Lemma posts_weaken (c : M A) n m : posts_at_most c n -> (n <= m)%nat -> posts_at_most c m.
Proof. intros Hc Hle s. destruct (Hc s) as (l & E & L). exists l. split; [done | lia]. Qed.

Lemma posts_bind (c : M A) (k : A -> M B) n m :
  posts_at_most c n -> (forall a, posts_at_most (k a) m) -> posts_at_most (mbind c k) (n + m).
Proof.
  intros Hc Hk s. unfold mbind. destruct (Hc s) as (l1 & E1 & L1).
  destruct (c s) as [[a|e] s'] eqn:E; simpl in *.
  - destruct (Hk a s') as (l2 & E2 & L2). exists (l1 ++ l2).
    rewrite E2, E1, app_assoc, length_app. split; [done | lia].
  - exists l1. split; [done | lia].
Qed.

Lemma posts_catch (c : M A) (h : js_error -> M A) n m :
  posts_at_most c n -> (forall e, posts_at_most (h e) m) -> posts_at_most (mcatch c h) (n + m).
Proof.
  intros Hc Hh s. unfold mcatch. destruct (Hc s) as (l1 & E1 & L1).
  destruct (c s) as [[a|e] s'] eqn:E; simpl in *.
  - exists l1. split; [done | lia].
  - destruct (Hh e s') as (l2 & E2 & L2). exists (l1 ++ l2).
    rewrite E2, E1, app_assoc, length_app. split; [done | lia].
Qed.

(** A computation whose errors are all caught by a handler that always
    returns ends in [Ok tt]. *)
Lemma mcatch_ignore (c : M unit) (h : js_error -> M unit) s :
  (forall e s', fst (h e s') = Ok tt) -> fst (mcatch c h s) = Ok tt.
Proof. intros Hh. unfold mcatch. destruct (c s) as [[[]|e] s']; [reflexivity | apply Hh]. Qed.

End Combinators.

Lemma costs_fetch : costs fetch_feed 1.
Proof. intros s. unfold fetch_feed. destruct (head (pending s)) as [[|r]|]; simpl; lia. Qed.

Lemma costs_text (r : Response) : costs (text r) 0.
Proof. intros s. unfold text. destruct (body_used s); simpl; lia. Qed.

Lemma costs_console m a n : costs (console m a) n.
Proof. intros s. simpl. lia. Qed.

Lemma costs_lift {A} (o : outcome A) n : costs (lift o) n.
Proof. intros s. simpl. lia. Qed.

Lemma costs_post `{Collaborators} (u : option string) (m : string) : costs (post_webhook u m) 0.
Proof. intros s. unfold post_webhook. destruct (url_absolute _); simpl; lia. Qed.

Lemma posts_fetch : posts_at_most fetch_feed 0.
Proof.
  intros s. exists []. rewrite app_nil_r. unfold fetch_feed.
  destruct (head (pending s)) as [[|r]|]; simpl; split; reflexivity.
Qed.

Lemma posts_text (r : Response) : posts_at_most (text r) 0.
Proof. intros s. exists []. rewrite app_nil_r. unfold text. by destruct (body_used s). Qed.

Lemma posts_console m a n : posts_at_most (console m a) n.
Proof. intros s. exists []. rewrite app_nil_r. split; [done | simpl; lia]. Qed.

Lemma posts_lift {A} (o : outcome A) n : posts_at_most (lift o) n.
Proof. intros s. exists []. rewrite app_nil_r. split; [done | simpl; lia]. Qed.

Lemma posts_post `{Collaborators} (u : option string) (m : string) : posts_at_most (post_webhook u m) 1.
Proof.
  intros s. unfold post_webhook.
  destruct (url_absolute _); [exists [m] | exists []]; simpl; rewrite ?app_nil_r; split; (reflexivity || lia).
Qed.

#[export] Hint Resolve costs_ret costs_throw costs_fetch costs_text costs_post costs_console costs_lift
  posts_ret posts_throw posts_fetch posts_text posts_post posts_console posts_lift : monad_facts.

(** Splits a computation into its steps and closes those that make no
    fetch ([costs_free]) or no webhook request ([posts_free]). *)
Ltac costs_free :=
  repeat match goal with
  | |- costs (mbind _ _) _ => apply (costs_bind _ _ 0 0); [|intros ?]
  | |- costs (mcatch _ _) _ => apply (costs_catch _ _ 0 0); [|intros ?]
  end; auto with monad_facts.

Ltac posts_free :=
  repeat match goal with
  | |- posts_at_most (mbind _ _) _ => apply (posts_bind _ _ 0 0); [|intros ?]
  | |- posts_at_most (mcatch _ _) _ => apply (posts_catch _ _ 0 0); [|intros ?]
  end; auto with monad_facts.

(** ** The console only grows *)

Section LogsGrow.

Context {A B : Type}.

Lemma logs_ret (a : A) : logs_grow (mret a).
Proof. intros s. exists []. by rewrite app_nil_r. Qed.

Lemma logs_throw e : logs_grow (mthrow (A := A) e).
Proof. intros s. exists []. by rewrite app_nil_r. Qed.

Lemma logs_lift (o : outcome A) : logs_grow (lift o).
Proof. intros s. exists []. by rewrite app_nil_r. Qed.

Lemma logs_bind (c : M A) (k : A -> M B) :
  logs_grow c -> (forall a, logs_grow (k a)) -> logs_grow (mbind c k).
Proof.
  intros Hc Hk s. unfold mbind. destruct (Hc s) as (l1 & E1).
  destruct (c s) as [[a|e] s']; simpl in *; [|by exists l1].
  destruct (Hk a s') as (l2 & E2). exists (l1 ++ l2). by rewrite E2, E1, app_assoc.
Qed.

Lemma logs_catch (c : M A) (h : js_error -> M A) :
  logs_grow c -> (forall e, logs_grow (h e)) -> logs_grow (mcatch c h).
Proof.
  intros Hc Hh s. unfold mcatch. destruct (Hc s) as (l1 & E1).
  destruct (c s) as [[a|e] s']; simpl in *; [by exists l1|].
  destruct (Hh e s') as (l2 & E2). exists (l1 ++ l2). by rewrite E2, E1, app_assoc.
Qed.

End LogsGrow.

Lemma logs_console m a : logs_grow (console m a).
Proof. intros s. by exists [mkLog m a]. Qed.

Lemma logs_fetch : logs_grow fetch_feed.
Proof.
  intros s. exists []. rewrite app_nil_r. unfold fetch_feed.
  by destruct (head (pending s)) as [[|r]|].
Qed.

Lemma logs_text (r : Response) : logs_grow (text r).
Proof. intros s. exists []. rewrite app_nil_r. unfold text. by destruct (body_used s). Qed.

Lemma logs_post `{Collaborators} (u : option string) (m : string) : logs_grow (post_webhook u m).
Proof. intros s. exists []. rewrite app_nil_r. unfold post_webhook. by destruct (url_absolute _). Qed.

#[export] Hint Resolve logs_ret logs_throw logs_lift logs_console logs_fetch logs_text logs_post : monad_facts.

(** Splits a computation into its steps, and its tests into their
    branches, down to the operations of the monad. *)
Ltac logs_auto :=
  repeat first
    [ progress auto with monad_facts
    | apply logs_bind; [|intros ?]
    | apply logs_catch; [|intros ?]
    | case_match
    | intros ?s; exists []; cbn; by rewrite app_nil_r ];
  auto with monad_facts.

(** ** Running a computation step by step *)

Lemma mbind_ok {A B} (c : M A) (k : A -> M B) (s : net) (a : A) (s' : net) :
  c s = (Ok a, s') -> mbind c k s = k a s'.
Proof. intros E. unfold mbind. by rewrite E. Qed.

Lemma mbind_throw {A B} (c : M A) (k : A -> M B) (s : net) (e : js_error) (s' : net) :
  c s = (Throw e, s') -> mbind c k s = (Throw e, s').
Proof. intros E. unfold mbind. by rewrite E. Qed.

(** [try { c } catch (e) { throw e }] is [c]. *)
Lemma mcatch_rethrow {A} (c : M A) (s : net) : mcatch c mthrow s = c s.
Proof. unfold mcatch. by destruct (c s) as [[a|e] s']. Qed.

Lemma mcatch_ok {A} (c : M A) (h : js_error -> M A) (s : net) (a : A) (s' : net) :
  c s = (Ok a, s') -> mcatch c h s = (Ok a, s').
Proof. intros E. unfold mcatch. by rewrite E. Qed.

Lemma mcatch_throw {A} (c : M A) (h : js_error -> M A) (s : net) (e : js_error) (s' : net) :
  c s = (Throw e, s') -> mcatch c h s = h e s'.
Proof. intros E. unfold mcatch. by rewrite E. Qed.

(** Runs the first step of a [mbind] with the equation [H] of its result. *)
Ltac step H := first [rewrite (mbind_ok _ _ _ _ _ H) | rewrite (mbind_throw _ _ _ _ _ H)]; cbv beta.

(** A falsy URL is never absolute. *)
Lemma url_falsy `{Collaborators} (u : option string) :
  truthy u = false -> url_absolute (str_or_undefined u) = false.
Proof.
  destruct u as [v|]; cbn; [|intros _; apply url_undefined_relative].
  case_bool_decide as E; [intros _; subst; apply url_empty_relative | discriminate].
Qed.
