(* ===== verification/Pipeline.v ===== *)
(** * NotificationPipeline: fetching the feed and posting the message

    Both programs' pipelines in the monad [M] of [Effects], with the
    console calls they make:
    - src/lambda/index.js: [getData] (22-58) with its two retries and its
      re-parse after a conversion error, [formatData] (121-131) and
      [buildMessage]'s logging (133-134) as the handler runs them
      ([formatData_run], [buildMessage_run]), [sendWebhook] (181-197)
      and [handler] (199-225), whose callback result is the [outcome];
    - src/index.js: the module's check of [webhookKey] (10-14),
      [buildResponseData] (109-123), [webhookRequest] (125-140),
      [handleNewData] (142-213) with its warnings about unrecognised
      labels, and the job scheduled at 06:00 and 18:00 ([job], 215-223).

    The theorems: [getData] makes at most three fetches and gives up
    after three failures; its re-parse can never succeed (the body was
    already read); the handler posts at most once, never when nothing
    is due, and reports the webhook's error status; end to end it posts
    the sentence naming the reported bins; the cron job of src/index.js
    announces the bins collected today, posts every message twice and
    posts an empty message for bins due tomorrow; without a usable
    [WEBHOOK_URL] nothing is ever posted: the job swallows the error and
    the lambda reports it; the lambda writes the webhook URL, the
    secret of the IFTTT key, to its log on every run; every failure of
    the job ends up on the console. *)

From S2P Require Import Prelude JsString Calendar DateParser DueClassifier MessageComposer Aggregator Effects.

Local Open Scope Z_scope.
Open Scope net_scope.

(** The warning both programs print when [WEBHOOK_URL] is falsy. *)
Definition no_key_warning : list log_arg :=
  [AStr "No WEBHOOK_URL provided, unable to send IFTTT webhook POST"].

(** ** src/lambda/index.js *)

Module Lambda.
Section WithCollaborators.

Context `{Collaborators}.
Variable tza : Z.

(** [convertXMLtoJSON(xml)] *)
Definition convertXMLtoJSON (xml : string) : M feed :=
  match xml_to_json xml with
  | Some f => mret f
  | None => mthrow (JsError "XML parse error")
  end.

Definition fetch_error_message (r : Response) : string :=
  number_to_string (status r) +:+ ": " +:+ statusText r +:+ " " +:+
  String "010" "Error when trying fetch Newport Council data".

(** [getData()]: the feed, fetched up to three times, then converted;
    after a conversion error the code logs it and converts the same
    response's body again. *)
Definition getData : M feed :=
  response <-- mcatch fetch_feed (fun e => mthrow (JsError "TypeError: fetch failed")) ;;;
  response <-- (if ok response then mret response else fetch_feed) ;;;
  response <-- (if ok response then mret response else fetch_feed) ;;;
  if negb (ok response) then mthrow (JsError (fetch_error_message response)) else
  mcatch (xml <-- text response ;;; convertXMLtoJSON xml)
         (fun error =>
            _ <-- console ConsoleError [AStr "Error parsing response data"; AErr error] ;;;
            _ <-- console ConsoleLog [AStr "Trying to fetch data again"] ;;;
            xml <-- text response ;;; convertXMLtoJSON xml).

(** [formatData(data)] as the handler runs it: the due bins of
    [getDueBins], or, after [console.error] of the exception,
    [Error("Error formatting data")]. *)
Definition formatData_run (now : Z) (data : feed) : M (list MessageComposer.Lambda.DueBin) :=
  match Aggregator.Lambda.getDueBins tza now data with
  | Ok dueBins => mret dueBins
  | Throw error =>
      _ <-- console ConsoleError [AStr "Error formatting data"; AErr error] ;;;
      mthrow (JsError "Error formatting data")
  end.

(** [buildMessage(bins)] as the handler runs it: the [console.log] of
    the bins, then the message. *)
Definition buildMessage_run (bins : list MessageComposer.Lambda.DueBin) : M (option string) :=
  _ <-- console ConsoleLog [AStr "Due bin/s: "; ADueBins bins] ;;;
  lift (MessageComposer.Lambda.buildMessage bins).

Definition webhook_error_message (r : Response) : string :=
  number_to_string (status r) +:+ ": " +:+ statusText r +:+ " " +:+
  String "010" "Error sending webhook request".

(** [sendWebhook(message, webhookKey)]: the JSON body is logged, then
    posted. *)
Definition sendWebhook (message : string) (webhookKey : option string) : M unit :=
  _ <-- console ConsoleLog [AStr (json_value1 message)] ;;;
  answer <-- post_webhook webhookKey message ;;;
  match answer with
  | Some response =>
      if negb (ok response) then mthrow (JsError (webhook_error_message response)) else mret tt
  | None => mthrow (TypeError "fetch failed")
  end.

(** The two console calls the handler makes before its [try]. *)
Definition announce_key (webhookKey : option string) : M unit :=
  _ <-- (if truthy webhookKey then mret tt else console ConsoleWarn no_key_warning) ;;;
  console ConsoleLog [AStr ("Webhook key: " +:+ str_or_undefined webhookKey)].

(** [handler(event, context, callback)]: the value passed to the
    callback, an error or a success string; [webhookKey] is read from
    the environment when the handler starts. *)
Definition handler (now : Z) : M string :=
  let webhookKey := WEBHOOK_URL in
  _ <-- announce_key webhookKey ;;;
  mcatch
    (data <-- getData ;;;
     dueBins <-- formatData_run now data ;;;
     match dueBins with
     | [] => mret "No bins due today or tomorrow"
     | _ =>
         message <-- buildMessage_run dueBins ;;;
         let successMsg := "Bin Bot alert: " +:+ str_or_undefined message in
         _ <-- sendWebhook successMsg webhookKey ;;;
         mret successMsg
     end)
    mthrow.

End WithCollaborators.
End Lambda.

(** ** src/index.js *)

Module IndexJs.
Section WithCollaborators.

Context `{Collaborators}.
Variable tza : Z.

(** The bins of [data.bins] in the order of [Object.entries]. *)
Definition entries (b : Aggregator.IndexJs.Bins) : list (string * Aggregator.IndexJs.BinStatus) :=
  [("garden", Aggregator.IndexJs.garden b); ("waste", Aggregator.IndexJs.waste b);
   ("recycling", Aggregator.IndexJs.recycling b)].

(** The [forEach] of [handleNewData]: today's and tomorrow's bins; a due
    bin with another label is only warned about. *)
Fixpoint partition_bins (l : list (string * Aggregator.IndexJs.BinStatus))
    : list string * list string :=
  match l with
  | [] => ([], [])
  | (name, st) :: rest =>
      let '(td, tm) := partition_bins rest in
      if negb (Aggregator.IndexJs.isDue st) then (td, tm)
      else if bool_decide (to_lower (Aggregator.IndexJs.daysUntilDue st) = "today")
      then (name :: td, tm)
      else if bool_decide (to_lower (Aggregator.IndexJs.daysUntilDue st) = "tomorrow")
      then (td, name :: tm)
      else (td, tm)
  end.

Definition any_due (b : Aggregator.IndexJs.Bins) : bool :=
  existsb (fun e => Aggregator.IndexJs.isDue (snd e)) (entries b).

(** The labels the [forEach] of [handleNewData] warns about: those of
    the due bins that are neither "today" nor "tomorrow", in order. *)
Fixpoint unrecognised (l : list (string * Aggregator.IndexJs.BinStatus)) : list string :=
  match l with
  | [] => []
  | (_, st) :: rest =>
      if negb (Aggregator.IndexJs.isDue st) then unrecognised rest
      else if bool_decide (to_lower (Aggregator.IndexJs.daysUntilDue st) = "today") ||
              bool_decide (to_lower (Aggregator.IndexJs.daysUntilDue st) = "tomorrow")
      then unrecognised rest
      else to_lower (Aggregator.IndexJs.daysUntilDue st) :: unrecognised rest
  end.

Fixpoint warn_unrecognised (labels : list string) : M unit :=
  match labels with
  | [] => mret tt
  | d :: rest =>
      _ <-- console ConsoleWarn [AStr ("Unrecognised days until bin due string: " +:+ d)] ;;;
      warn_unrecognised rest
  end.

(** [const webhookKey = process.env.WEBHOOK_URL], read when the module
    loads. *)
Definition webhookKey : option string := WEBHOOK_URL.

(** The module's warning when [webhookKey] is falsy (src/index.js:12-14). *)
Definition check_webhookKey : M unit :=
  if truthy webhookKey then mret tt else console ConsoleWarn no_key_warning.

(** [webhookRequest(data)]: the answer is only logged: its status on an
    error, its body otherwise. *)
Definition webhookRequest (value1 : string) : M unit :=
  webhookResponse <-- post_webhook webhookKey value1 ;;;
  match webhookResponse with
  | Some r =>
      if negb (ok r)
      then console ConsoleError [AStr ("Error sending webhook" +:+ String "010" EmptyString);
                                 ANum (status r); AStr (statusText r)]
      else console ConsoleLog [AStr (body r)]
  | None => mthrow (TypeError "fetch failed")
  end.

(** [handleNewData(data)]: nothing but a log line when no bin is due,
    otherwise the warnings, the message on the console and one webhook
    request; its errors are caught and logged. *)
Definition handleNewData (b : Aggregator.IndexJs.Bins) : M unit :=
  if negb (any_due b) then console ConsoleLog [AStr "No bins are being collected today or tomorrow"] else
  mcatch (let '(todaysBins, tomorrowsBins) := partition_bins (entries b) in
          _ <-- warn_unrecognised (unrecognised (entries b)) ;;;
          let message := composeMessage todaysBins tomorrowsBins in
          _ <-- console ConsoleLog [AStr message] ;;;
          webhookRequest message)
         (fun error => console ConsoleError [AErr error]).

(** [buildResponseData()]: fetch, [response.text()] (whatever the
    status), convert, format, log the new data with its [updatedOn],
    then [handleNewData]. *)
Definition buildResponseData (now : Z) : M Aggregator.IndexJs.Bins :=
  response <-- fetch_feed ;;;
  xml <-- text response ;;;
  json <-- (match xml_to_json xml with
            | Some f => mret f
            | None => mthrow (JsError "XML parse error")
            end) ;;;
  bins <-- lift (Aggregator.IndexJs.formatData tza now json) ;;;
  updatedOn <-- lift (toISOString (TimeClip now)) ;;;
  _ <-- console ConsoleLog [AStr ("Fetched new data:" +:+ String "010" EmptyString);
                            AResponseData updatedOn bins] ;;;
  _ <-- handleNewData bins ;;;
  mret bins.

(** The job of [schedule.scheduleJob('0 6,18 * * *', ...)]. *)
Definition job (now : Z) : M unit :=
  mcatch (iso <-- lift (toISOString (TimeClip now)) ;;;
          _ <-- console ConsoleLog [AStr ("Checking bin data at " +:+ iso)] ;;;
          data <-- buildResponseData now ;;;
          handleNewData data)
         (fun error => console ConsoleLog [AErr error]).

End WithCollaborators.
End IndexJs.

(** ** [getData] *)

Section GetData.

Context `{Collaborators}.

Lemma costs_convert (xml : string) n : costs (Lambda.convertXMLtoJSON xml) n.
Proof. unfold Lambda.convertXMLtoJSON. destruct (xml_to_json xml); auto with monad_facts. Qed.

Lemma posts_convert (xml : string) n : posts_at_most (Lambda.convertXMLtoJSON xml) n.
Proof. unfold Lambda.convertXMLtoJSON. destruct (xml_to_json xml); auto with monad_facts. Qed.

#[local] Hint Resolve costs_convert posts_convert : monad_facts.

(** C12: [getData] fetches the feed at most three times, whatever the
    server answers. *)
Theorem getData_fetch_bound : costs Lambda.getData 3.
Proof.
  unfold Lambda.getData.
  apply (costs_bind _ _ 1 2); [apply (costs_catch _ _ 1 0); auto with monad_facts | intros r1].
  apply (costs_bind _ _ 1 1);
    [destruct (ok r1); eauto using costs_weaken with monad_facts | intros r2].
  apply (costs_bind _ _ 1 0);
    [destruct (ok r2); eauto using costs_weaken with monad_facts | intros r3].
  destruct (negb (ok r3)); [auto with monad_facts|].
  costs_free.
Qed.

(** C13: Three responses that are not OK: [getData] gives up with the status
    of the third, after exactly three fetches. *)
Theorem getData_gives_up (r1 r2 r3 : Response) (rest : list fetch_result) (n : nat)
    (used : bool) (p : list string) (lg : list log_entry) :
  ok r1 = false -> ok r2 = false -> ok r3 = false ->
  Lambda.getData (mkNet (Fetched r1 :: Fetched r2 :: Fetched r3 :: rest) n used p lg) =
  (Throw (JsError (Lambda.fetch_error_message r3)), mkNet rest (3 + n) false p lg).
Proof.
  intros H1 H2 H3. unfold Lambda.getData, mbind, mcatch, fetch_feed. cbn.
  rewrite H1. cbn. rewrite H2. cbn. rewrite H3. reflexivity.
Qed.

(** C14: When the conversion fails, the code logs the error and "tries
    again" by reading the same response's body a second time, which
    always rejects: the retry never fetches and never succeeds. *)
Theorem getData_reparse_fails (r : Response) (rest : list fetch_result) (n : nat)
    (used : bool) (p : list string) (lg : list log_entry) :
  ok r = true -> xml_to_json (body r) = None ->
  Lambda.getData (mkNet (Fetched r :: rest) n used p lg) =
  (Throw (TypeError "body used already"),
   mkNet rest (S n) true p
     (lg ++ [mkLog ConsoleError [AStr "Error parsing response data"; AErr (JsError "XML parse error")];
             mkLog ConsoleLog [AStr "Trying to fetch data again"]])).
Proof.
  intros Hok Hx. destruct r as [okr st stt b]. cbn in Hok, Hx. subst okr.
  unfold Lambda.getData, mbind, mcatch, fetch_feed, Lambda.convertXMLtoJSON. cbn.
  rewrite Hx. cbn. by rewrite <- app_assoc.
Qed.

Lemma posts_getData n : posts_at_most Lambda.getData n.
Proof.
  apply (posts_weaken _ 0); [|lia]. unfold Lambda.getData.
  apply (posts_bind _ _ 0 0); [apply (posts_catch _ _ 0 0); auto with monad_facts | intros r1].
  apply (posts_bind _ _ 0 0); [destruct (ok r1); auto with monad_facts | intros r2].
  apply (posts_bind _ _ 0 0); [destruct (ok r2); auto with monad_facts | intros r3].
  destruct (negb (ok r3)); [auto with monad_facts|].
  posts_free.
Qed.

End GetData.

(** ** The lambda's handler *)

Section Handler.

Context `{Collaborators}.
Variable tza : Z.

Lemma posts_sendWebhook (m : string) (u : option string) : posts_at_most (Lambda.sendWebhook m u) 1.
Proof.
  unfold Lambda.sendWebhook. apply (posts_bind _ _ 0 1); [auto with monad_facts | intros _].
  apply (posts_bind _ _ 1 0); [auto with monad_facts | intros a].
  destruct a as [r|]; [destruct (negb (ok r))|]; auto with monad_facts.
Qed.

Lemma posts_formatData_run (now : Z) (data : feed) : posts_at_most (Lambda.formatData_run tza now data) 0.
Proof. unfold Lambda.formatData_run. destruct (Aggregator.Lambda.getDueBins tza now data); posts_free. Qed.

Lemma posts_buildMessage_run (bins : list MessageComposer.Lambda.DueBin) :
  posts_at_most (Lambda.buildMessage_run bins) 0.
Proof. unfold Lambda.buildMessage_run. posts_free. Qed.

Lemma posts_announce_key (u : option string) : posts_at_most (Lambda.announce_key u) 0.
Proof. unfold Lambda.announce_key. destruct (truthy u); posts_free. Qed.

(** C11: A run of the lambda sends at most one webhook request. *)
Theorem handler_posts_at_most_once (now : Z) : posts_at_most (Lambda.handler tza now) 1.
Proof.
  unfold Lambda.handler. apply (posts_bind _ _ 0 1); [apply posts_announce_key | intros _].
  apply (posts_catch _ _ 1 0); [|intros e; auto with monad_facts].
  apply (posts_bind _ _ 0 1); [apply posts_getData | intros data].
  apply (posts_bind _ _ 0 1); [apply posts_formatData_run | intros [|b l]]; [auto with monad_facts|].
  apply (posts_bind _ _ 0 1); [apply posts_buildMessage_run | intros m].
  apply (posts_bind _ _ 1 0); [apply posts_sendWebhook | auto with monad_facts].
Qed.

(** The handler's first two console lines: the warning when the key is
    falsy, then the key itself. *)
Lemma announce_key_run (u : option string) (s : net) :
  Lambda.announce_key u s =
  (Ok tt, mkNet (pending s) (fetches_made s) (body_used s) (posted s)
            (logged s ++ (if truthy u then [] else [mkLog ConsoleWarn no_key_warning]) ++
             [mkLog ConsoleLog [AStr ("Webhook key: " +:+ str_or_undefined u)]])).
Proof. unfold Lambda.announce_key, mbind, console. destruct (truthy u); cbn; by rewrite <- ?app_assoc. Qed.

Lemma announce_key_ok (u : option string) (s : net) :
  Lambda.announce_key u s = (Ok tt, snd (Lambda.announce_key u s)).
Proof. by rewrite announce_key_run. Qed.

Lemma formatData_run_ok (now : Z) (data : feed) (l : list MessageComposer.Lambda.DueBin) (s : net) :
  Aggregator.Lambda.formatData tza now data = Ok l -> Lambda.formatData_run tza now data s = (Ok l, s).
Proof.
  unfold Aggregator.Lambda.formatData, Lambda.formatData_run.
  destruct (Aggregator.Lambda.getDueBins tza now data); cbn; [by intros [= ->] | discriminate].
Qed.

Lemma buildMessage_run_ok (bins : list MessageComposer.Lambda.DueBin) (m : option string) (s : net) :
  MessageComposer.Lambda.buildMessage bins = Ok m ->
  Lambda.buildMessage_run bins s =
  (Ok m, mkNet (pending s) (fetches_made s) (body_used s) (posted s)
               (logged s ++ [mkLog ConsoleLog [AStr "Due bin/s: "; ADueBins bins]])).
Proof. intros Hb. unfold Lambda.buildMessage_run, mbind, console, lift. cbn. by rewrite Hb. Qed.

(** [sendWebhook] to a usable URL: the JSON body on the console, the
    request, then the webhook's answer. *)
Lemma sendWebhook_run (msg : string) (u : option string) (s : net) :
  url_absolute (str_or_undefined u) = true ->
  Lambda.sendWebhook msg u s =
  (match webhook_answer msg with
   | Some answer => if ok answer then Ok tt else Throw (JsError (Lambda.webhook_error_message answer))
   | None => Throw (TypeError "fetch failed")
   end,
   mkNet (pending s) (fetches_made s) (body_used s) (posted s ++ [msg])
         (logged s ++ [mkLog ConsoleLog [AStr (json_value1 msg)]])).
Proof.
  intros Hu. unfold Lambda.sendWebhook, mbind, console, post_webhook. cbn -[json_value1]. rewrite Hu.
  destruct (webhook_answer msg) as [[[] ? ? ?]|]; reflexivity.
Qed.

(** [sendWebhook] to an unusable URL: the JSON body on the console, and
    node-fetch's TypeError before any request. *)
Lemma sendWebhook_rejected (msg : string) (u : option string) (s : net) :
  url_absolute (str_or_undefined u) = false ->
  Lambda.sendWebhook msg u s =
  (Throw (TypeError "Only absolute URLs are supported"),
   mkNet (pending s) (fetches_made s) (body_used s) (posted s)
         (logged s ++ [mkLog ConsoleLog [AStr (json_value1 msg)]])).
Proof. intros Hu. unfold Lambda.sendWebhook, mbind, console, post_webhook. cbn -[json_value1]. by rewrite Hu. Qed.

(** The run of the handler when the feed gives no due bin. *)
Lemma handler_no_bins (now : Z) (s s' : net) (data : feed) :
  Lambda.getData (snd (Lambda.announce_key WEBHOOK_URL s)) = (Ok data, s') ->
  Aggregator.Lambda.formatData tza now data = Ok [] ->
  Lambda.handler tza now s = (Ok "No bins due today or tomorrow", s') /\ posted s' = posted s.
Proof.
  intros Hg Hf. split.
  - unfold Lambda.handler. cbv zeta. step (announce_key_ok WEBHOOK_URL s). rewrite mcatch_rethrow.
    step Hg. step (formatData_run_ok now data [] s' Hf). reflexivity.
  - destruct (posts_getData 0 (snd (Lambda.announce_key WEBHOOK_URL s))) as ([|x l] & E & L);
      [|simpl in L; lia].
    rewrite Hg, announce_key_run in E. cbn in E. by rewrite app_nil_r in E.
Qed.

(** C15: Nothing due: the callback gets "No bins due today or tomorrow" and
    no webhook request is sent. *)
Theorem handler_nothing_due (now : Z) (s s' : net) (data : feed) :
  Lambda.getData (snd (Lambda.announce_key WEBHOOK_URL s)) = (Ok data, s') ->
  Aggregator.Lambda.formatData tza now data = Ok [] ->
  Lambda.handler tza now s = (Ok "No bins due today or tomorrow", s') /\ posted s' = posted s.
Proof. apply handler_no_bins. Qed.

(** C3: the lambda alerts only for the next day: on a day when no channel's
    collection falls on the next local day, the run answers "No bins due
    today or tomorrow" and sends no webhook request, even when a bin is
    collected later today and the run is before the 21:11 cutoff, when
    the rule of the spec calls it due today. *)
Theorem handler_silent_on_collection_day (now : Z) (s s' : net) (data : feed) :
  in_range tza now ->
  Lambda.getData (snd (Lambda.announce_key WEBHOOK_URL s)) = (Ok data, s') ->
  Forall (fun bin => exists dates, Lambda.getBinDates tza now bin = Ok dates /\
            local_day tza (Lambda.collectedOnISOString dates) <> local_day tza now + 1) data ->
  Lambda.handler tza now s = (Ok "No bins due today or tomorrow", s') /\ posted s' = posted s.
Proof.
  intros Hr Hg Hall. apply (handler_no_bins now s s' data Hg).
  unfold Aggregator.Lambda.formatData, Aggregator.Lambda.getDueBins.
  by rewrite (due_bins_loop_none tza now data 0 Hr Hall).
Qed.

(** The run of the handler once the data are fetched, the due bins
    computed and the message built, with a usable URL: the bins and the
    JSON body on the console, one webhook request, then the callback's
    value from the webhook's answer. *)
Lemma handler_run (now : Z) (s s' : net) (data : feed) (bins : list MessageComposer.Lambda.DueBin)
    (m : option string) :
  url_absolute (str_or_undefined WEBHOOK_URL) = true ->
  Lambda.getData (snd (Lambda.announce_key WEBHOOK_URL s)) = (Ok data, s') ->
  Aggregator.Lambda.formatData tza now data = Ok bins -> bins <> [] ->
  MessageComposer.Lambda.buildMessage bins = Ok m ->
  let msg := "Bin Bot alert: " +:+ str_or_undefined m in
  Lambda.handler tza now s =
  (match webhook_answer msg with
   | Some answer => if ok answer then Ok msg else Throw (JsError (Lambda.webhook_error_message answer))
   | None => Throw (TypeError "fetch failed")
   end,
   mkNet (pending s') (fetches_made s') (body_used s') (posted s' ++ [msg])
         (logged s' ++ [mkLog ConsoleLog [AStr "Due bin/s: "; ADueBins bins];
                        mkLog ConsoleLog [AStr (json_value1 msg)]])).
Proof.
  intros Hu Hg Hf Hne Hb msg. unfold Lambda.handler. cbv zeta.
  step (announce_key_ok WEBHOOK_URL s). rewrite mcatch_rethrow. step Hg.
  step (formatData_run_ok now data bins s' Hf).
  destruct bins as [|b l]; [done|]. step (buildMessage_run_ok (b :: l) m s' Hb). fold msg.
  unfold mbind at 1. rewrite (sendWebhook_run msg _ _ Hu). cbn -[json_value1]. rewrite <- app_assoc.
  destruct (webhook_answer msg) as [[[] ? ? ?]|]; reflexivity.
Qed.

(** C16: Bins due and a webhook that answers OK: the callback and the one
    webhook request carry "Bin Bot alert: " and the message; the console
    holds the due bins and the request's JSON body. *)
Theorem handler_success (now : Z) (s s' : net) (data : feed) (bins : list MessageComposer.Lambda.DueBin)
    (m : option string) (answer : Response) :
  url_absolute (str_or_undefined WEBHOOK_URL) = true ->
  Lambda.getData (snd (Lambda.announce_key WEBHOOK_URL s)) = (Ok data, s') ->
  Aggregator.Lambda.formatData tza now data = Ok bins -> bins <> [] ->
  MessageComposer.Lambda.buildMessage bins = Ok m ->
  webhook_answer ("Bin Bot alert: " +:+ str_or_undefined m) = Some answer -> ok answer = true ->
  Lambda.handler tza now s =
  (Ok ("Bin Bot alert: " +:+ str_or_undefined m),
   mkNet (pending s') (fetches_made s') (body_used s')
         (posted s' ++ ["Bin Bot alert: " +:+ str_or_undefined m])
         (logged s' ++ [mkLog ConsoleLog [AStr "Due bin/s: "; ADueBins bins];
                        mkLog ConsoleLog [AStr (json_value1 ("Bin Bot alert: " +:+ str_or_undefined m))]])).
Proof.
  intros Hu Hg Hf Hne Hb Hw Hok. rewrite (handler_run now s s' data bins m Hu Hg Hf Hne Hb).
  cbv zeta. by rewrite Hw, Hok.
Qed.

(** C29: Bins due and a webhook that answers with an error status: the
    request has been sent once and the callback gets the error with the
    webhook's status. *)
Theorem handler_webhook_rejected (now : Z) (s s' : net) (data : feed)
    (bins : list MessageComposer.Lambda.DueBin) (m : option string) (answer : Response) :
  url_absolute (str_or_undefined WEBHOOK_URL) = true ->
  Lambda.getData (snd (Lambda.announce_key WEBHOOK_URL s)) = (Ok data, s') ->
  Aggregator.Lambda.formatData tza now data = Ok bins -> bins <> [] ->
  MessageComposer.Lambda.buildMessage bins = Ok m ->
  webhook_answer ("Bin Bot alert: " +:+ str_or_undefined m) = Some answer -> ok answer = false ->
  Lambda.handler tza now s =
  (Throw (JsError (Lambda.webhook_error_message answer)),
   mkNet (pending s') (fetches_made s') (body_used s')
         (posted s' ++ ["Bin Bot alert: " +:+ str_or_undefined m])
         (logged s' ++ [mkLog ConsoleLog [AStr "Due bin/s: "; ADueBins bins];
                        mkLog ConsoleLog [AStr (json_value1 ("Bin Bot alert: " +:+ str_or_undefined m))]])).
Proof.
  intros Hu Hg Hf Hne Hb Hw Hok. rewrite (handler_run now s s' data bins m Hu Hg Hf Hne Hb).
  cbv zeta. by rewrite Hw, Hok.
Qed.

(** A list of bins all due "tomorrow", each with a name, is the list of
    [defined_bin]s of its names. *)
Lemma due_bins_named (l : list MessageComposer.Lambda.DueBin) :
  Forall (fun b => MessageComposer.Lambda.dueOn b = "tomorrow") l ->
  Forall (fun b => is_Some (MessageComposer.Lambda.title b)) l ->
  l = map (defined_bin "tomorrow") (map (fun b => default "" (MessageComposer.Lambda.title b)) l).
Proof.
  induction l as [|[t d] l IH]; intros Hd Ht; [done|].
  inversion_clear Hd as [|? ? Hd1 Hd']. inversion_clear Ht as [|? ? [x Hx] Ht'].
  cbn in Hd1, Hx |- *. subst. unfold defined_bin at 1. cbn. f_equal. by apply IH.
Qed.

(** C31: The lambda end to end: a feed of the council's three channels,
    fetched, with bins due, checked up to 23:00, a usable webhook URL
    and a webhook that answers OK: the one message posted and returned
    is "Bin Bot alert: " and the sentence of [createMessage] naming the
    reported bins, collected "tomorrow". *)
Theorem handler_end_to_end (now : Z) (s s' : net) (data : feed) (l : list MessageComposer.Lambda.DueBin)
    (answer : Response) :
  in_range tza now -> time_of_day tza now <= MakeTime 23 0 0 0 -> (length data <= 3)%nat ->
  url_absolute (str_or_undefined WEBHOOK_URL) = true ->
  Lambda.getData (snd (Lambda.announce_key WEBHOOK_URL s)) = (Ok data, s') ->
  Aggregator.Lambda.getDueBins tza now data = Ok l -> l <> [] ->
  let names := map (fun b => default "" (MessageComposer.Lambda.title b)) l in
  let msg := "Bin Bot alert: " +:+ createMessage names "tomorrow" in
  webhook_answer msg = Some answer -> ok answer = true ->
  Lambda.handler tza now s =
  (Ok msg, mkNet (pending s') (fetches_made s') (body_used s') (posted s' ++ [msg])
                 (logged s' ++ [mkLog ConsoleLog [AStr "Due bin/s: "; ADueBins l];
                                mkLog ConsoleLog [AStr (json_value1 msg)]])).
Proof.
  intros Hr Ht Hlen Hu Hg Hd Hne names msg Hw Hok.
  assert (Hf : Aggregator.Lambda.formatData tza now data = Ok l)
    by (unfold Aggregator.Lambda.formatData; by rewrite Hd).
  assert (Hl : l = map (defined_bin "tomorrow") names)
    by (apply due_bins_named; [exact (due_bins_loop_tomorrow tza now data 0 l Hr Ht Hd)
                              | exact (due_bins_loop_titles tza now data 0 l ltac:(lia) Hd)]).
  assert (Hn : names <> []) by (intros E; apply Hne; rewrite Hl, E; reflexivity).
  assert (Hb := proj2 (buildMessage_single_day names Hn)). rewrite <- Hl in Hb.
  rewrite (handler_run now s s' data l _ Hu Hg Hf Hne Hb). cbv zeta.
  cbn [str_or_undefined]. fold msg. by rewrite Hw, Hok.
Qed.

End Handler.

(** ** The cron job of src/index.js *)

Section Job.

Context `{Collaborators}.
Variable tza : Z.

(** The message [handleNewData] composes for [bins]. *)
Definition index_message (bins : Aggregator.IndexJs.Bins) : string :=
  composeMessage (fst (IndexJs.partition_bins (IndexJs.entries bins)))
                 (snd (IndexJs.partition_bins (IndexJs.entries bins))).

(** The messages [handleNewData] posts for [bins]. *)
Definition index_posts (bins : Aggregator.IndexJs.Bins) : list string :=
  if IndexJs.any_due bins && url_absolute (str_or_undefined IndexJs.webhookKey)
  then [index_message bins] else [].

Definition unrecognised_entry (d : string) : log_entry :=
  mkLog ConsoleWarn [AStr ("Unrecognised days until bin due string: " +:+ d)].

(** What [webhookRequest] of [m] to a usable URL, and the [catch] around
    it, leave on the console. *)
Definition delivery_logs (m : string) : list log_entry :=
  match webhook_answer m with
  | Some r =>
      [if ok r then mkLog ConsoleLog [AStr (body r)]
       else mkLog ConsoleError [AStr ("Error sending webhook" +:+ String "010" EmptyString);
                                ANum (status r); AStr (statusText r)]]
  | None => [mkLog ConsoleError [AErr (TypeError "fetch failed")]]
  end.

(** The console lines [handleNewData] adds for [bins]. *)
Definition index_logs (bins : Aggregator.IndexJs.Bins) : list log_entry :=
  if IndexJs.any_due bins then
    map unrecognised_entry (IndexJs.unrecognised (IndexJs.entries bins)) ++
    mkLog ConsoleLog [AStr (index_message bins)] ::
    (if url_absolute (str_or_undefined IndexJs.webhookKey) then delivery_logs (index_message bins)
     else [mkLog ConsoleError [AErr (TypeError "Only absolute URLs are supported")]])
  else [mkLog ConsoleLog [AStr "No bins are being collected today or tomorrow"]].

Lemma warn_unrecognised_run (ds : list string) (s : net) :
  IndexJs.warn_unrecognised ds s =
  (Ok tt, mkNet (pending s) (fetches_made s) (body_used s) (posted s) (logged s ++ map unrecognised_entry ds)).
Proof.
  revert s. induction ds as [|d ds IH]; intros s; cbn [IndexJs.warn_unrecognised map].
  - destruct s; cbn. by rewrite app_nil_r.
  - unfold mbind at 1, console at 1. cbn -[IndexJs.warn_unrecognised]. rewrite IH. cbn.
    by rewrite <- app_assoc.
Qed.

Lemma handleNewData_run (bins : Aggregator.IndexJs.Bins) (s : net) :
  IndexJs.handleNewData bins s =
  (Ok tt, mkNet (pending s) (fetches_made s) (body_used s) (posted s ++ index_posts bins)
                (logged s ++ index_logs bins)).
Proof.
  unfold IndexJs.handleNewData, index_posts, index_logs, index_message.
  destruct (IndexJs.any_due bins); cbn [negb andb].
  2: { unfold console. by rewrite app_nil_r. }
  destruct (IndexJs.partition_bins (IndexJs.entries bins)) as [td tm]. cbn [fst snd].
  unfold mcatch. step (warn_unrecognised_run (IndexJs.unrecognised (IndexJs.entries bins)) s).
  unfold mbind at 1, console at 1. cbn -[IndexJs.webhookRequest IndexJs.unrecognised].
  unfold IndexJs.webhookRequest, mbind, post_webhook, console, delivery_logs.
  destruct (url_absolute _); cbn -[IndexJs.unrecognised];
    [destruct (webhook_answer _) as [[[] ? ? ?]|]|]; cbn -[IndexJs.unrecognised];
    rewrite ?app_nil_r, <- ?app_assoc; reflexivity.
Qed.

(** One run of the job on a fetched feed that converts and formats, at a
    valid clock: [handleNewData] runs twice, once inside
    [buildResponseData] and once on its result. *)
Lemma job_run (now : Z) (s : net) (r : Response) (rest : list fetch_result) (f : feed)
    (bins : Aggregator.IndexJs.Bins) (iso : string) :
  toISOString (TimeClip now) = Ok iso ->
  pending s = Fetched r :: rest -> xml_to_json (body r) = Some f ->
  Aggregator.IndexJs.formatData tza now f = Ok bins ->
  IndexJs.job tza now s =
  (Ok tt, mkNet rest (S (fetches_made s)) true (posted s ++ index_posts bins ++ index_posts bins)
            (logged s ++ [mkLog ConsoleLog [AStr ("Checking bin data at " +:+ iso)];
                          mkLog ConsoleLog [AStr ("Fetched new data:" +:+ String "010" EmptyString);
                                            AResponseData iso bins]] ++
                      index_logs bins ++ index_logs bins)).
Proof.
  intros Hiso Hp Hx Hf. destruct s as [p n u ps lg]; cbn in Hp; subst p.
  unfold IndexJs.job, IndexJs.buildResponseData, mcatch, mbind, lift, console, fetch_feed, text.
  rewrite Hiso. cbn -[Aggregator.IndexJs.formatData IndexJs.handleNewData toISOString].
  rewrite Hx. unfold mret. cbn -[Aggregator.IndexJs.formatData IndexJs.handleNewData].
  rewrite Hf. cbn -[IndexJs.handleNewData]. rewrite handleNewData_run.
  cbn -[IndexJs.handleNewData]. rewrite handleNewData_run. cbn.
  by rewrite <- !app_assoc.
Qed.

(** C6: when the feed is fetched, converted and formatted, one run of
    the cron job of src/index.js sends every message twice: the due
    bins' message [m] is posted as [m; m]. *)
Theorem job_posts_twice (now : Z) (s : net) (r : Response) (rest : list fetch_result) (f : feed)
    (bins : Aggregator.IndexJs.Bins) :
  url_absolute (str_or_undefined IndexJs.webhookKey) = true -> Z.abs now <= 8640000000000000 ->
  pending s = Fetched r :: rest -> xml_to_json (body r) = Some f ->
  Aggregator.IndexJs.formatData tza now f = Ok bins -> IndexJs.any_due bins = true ->
  let m := composeMessage (fst (IndexJs.partition_bins (IndexJs.entries bins)))
                          (snd (IndexJs.partition_bins (IndexJs.entries bins))) in
  posted (snd (IndexJs.job tza now s)) = posted s ++ [m; m].
Proof.
  intros Hk Hc Hp Hx Hf Hd. destruct (toISOString_valid now Hc) as [iso Hiso].
  rewrite (job_run now s r rest f bins iso Hiso Hp Hx Hf). unfold index_posts.
  by rewrite Hd, Hk.
Qed.

(** C27: a webhook that answers with an error status does not fail the
    cron job of src/index.js: the job resolves, both requests have been
    sent, and the rejection is only the [console.error] line of
    [webhookRequest], once after each of the two messages. *)
Theorem job_swallows_webhook_error (now : Z) (s : net) (r : Response) (rest : list fetch_result)
    (f : feed) (bins : Aggregator.IndexJs.Bins) (answer : Response) :
  url_absolute (str_or_undefined IndexJs.webhookKey) = true -> Z.abs now <= 8640000000000000 ->
  pending s = Fetched r :: rest -> xml_to_json (body r) = Some f ->
  Aggregator.IndexJs.formatData tza now f = Ok bins -> IndexJs.any_due bins = true ->
  let m := composeMessage (fst (IndexJs.partition_bins (IndexJs.entries bins)))
                          (snd (IndexJs.partition_bins (IndexJs.entries bins))) in
  webhook_answer m = Some answer -> ok answer = false ->
  let warnings := map unrecognised_entry (IndexJs.unrecognised (IndexJs.entries bins)) in
  let rejected := mkLog ConsoleError [AStr ("Error sending webhook" +:+ String "010" EmptyString);
                                      ANum (status answer); AStr (statusText answer)] in
  exists iso,
  IndexJs.job tza now s =
  (Ok tt, mkNet rest (S (fetches_made s)) true (posted s ++ [m; m])
            (logged s ++ [mkLog ConsoleLog [AStr ("Checking bin data at " +:+ iso)];
                          mkLog ConsoleLog [AStr ("Fetched new data:" +:+ String "010" EmptyString);
                                            AResponseData iso bins]] ++
             (warnings ++ [mkLog ConsoleLog [AStr m]; rejected]) ++
             (warnings ++ [mkLog ConsoleLog [AStr m]; rejected]))).
Proof.
  intros Hk Hc Hp Hx Hf Hd m Hw Hok warnings rejected.
  destruct (toISOString_valid now Hc) as [iso Hiso]. exists iso.
  rewrite (job_run now s r rest f bins iso Hiso Hp Hx Hf).
  unfold index_posts, index_logs, delivery_logs, index_message. fold m.
  by rewrite Hd, Hk, Hw, Hok.
Qed.

Lemma partition_bins_none (l : list (string * Aggregator.IndexJs.BinStatus)) :
  Forall (fun e => Aggregator.IndexJs.isDue (snd e) = true ->
                   Aggregator.IndexJs.daysUntilDue (snd e) = "1 day") l ->
  IndexJs.partition_bins l = ([], []).
Proof.
  induction 1 as [|[name st] l Hst _ IH]; [reflexivity|]. cbn [IndexJs.partition_bins].
  rewrite IH. cbn [snd] in Hst. destruct (Aggregator.IndexJs.isDue st); [|reflexivity].
  rewrite (Hst eq_refl). reflexivity.
Qed.

(** Every due bin is labelled "1 day" when no collection falls on
    today's local day and the job runs up to 23:00. *)
Lemma entries_one_day (now : Z) (f : feed) (bins : Aggregator.IndexJs.Bins) :
  in_range tza now -> time_of_day tza now <= MakeTime 23 0 0 0 ->
  Aggregator.IndexJs.formatData tza now f = Ok bins ->
  Forall (fun e => local_day tza (Aggregator.IndexJs.collectionDate (snd e)) <> local_day tza now)
         (IndexJs.entries bins) ->
  Forall (fun e => Aggregator.IndexJs.isDue (snd e) = true ->
                   Aggregator.IndexJs.daysUntilDue (snd e) = "1 day") (IndexJs.entries bins).
Proof.
  intros Hr Ht Hf Hl. apply formatData_Ok in Hf as (g & w & c & Hg & Hw & Hc & ->).
  apply collection_of_time in Hg, Hw, Hc.
  unfold IndexJs.entries in *. cbn [Aggregator.IndexJs.garden Aggregator.IndexJs.waste
    Aggregator.IndexJs.recycling] in *.
  inversion_clear Hl as [|? ? H1 Hl2]; inversion_clear Hl2 as [|? ? H2 Hl3]; inversion_clear Hl3 as [|? ? H3 _].
  cbn [snd Aggregator.IndexJs.collectionDate Aggregator.IndexJs.bin_status] in H1, H2, H3.
  repeat constructor; intros; apply bin_status_not_today; done.
Qed.

(** Some due bin labelled "1 day": the [forEach] warns about that label. *)
Lemma unrecognised_one_day (l : list (string * Aggregator.IndexJs.BinStatus)) :
  Forall (fun e => Aggregator.IndexJs.isDue (snd e) = true ->
                   Aggregator.IndexJs.daysUntilDue (snd e) = "1 day") l ->
  existsb (fun e => Aggregator.IndexJs.isDue (snd e)) l = true -> In "1 day" (IndexJs.unrecognised l).
Proof.
  induction 1 as [|[name st] l Hst _ IH]; [discriminate|]. cbn [existsb IndexJs.unrecognised snd] in *.
  destruct (Aggregator.IndexJs.isDue st); cbn [negb orb].
  - rewrite (Hst eq_refl). left. reflexivity.
  - exact IH.
Qed.

(** C7: when the bins due are all due tomorrow (no collection falls on
    today's local day), the cron job checked up to 23:00 posts the empty
    message, twice: the label "1 day" is neither "today" nor
    "tomorrow", and the console shows the code's own warning about that
    label. *)
Theorem job_posts_empty_message (now : Z) (s : net) (r : Response) (rest : list fetch_result)
    (f : feed) (bins : Aggregator.IndexJs.Bins) :
  url_absolute (str_or_undefined IndexJs.webhookKey) = true ->
  in_range tza now -> time_of_day tza now <= MakeTime 23 0 0 0 ->
  pending s = Fetched r :: rest -> xml_to_json (body r) = Some f ->
  Aggregator.IndexJs.formatData tza now f = Ok bins -> IndexJs.any_due bins = true ->
  Forall (fun e => local_day tza (Aggregator.IndexJs.collectionDate (snd e)) <> local_day tza now)
         (IndexJs.entries bins) ->
  posted (snd (IndexJs.job tza now s)) = posted s ++ [""; ""] /\
  In (mkLog ConsoleWarn [AStr "Unrecognised days until bin due string: 1 day"])
     (logged (snd (IndexJs.job tza now s))).
Proof.
  intros Hk Hr Ht Hp Hx Hf Hd Hl. destruct (toISOString_valid now (in_range_clock tza now Hr)) as [iso Hiso].
  pose proof (entries_one_day now f bins Hr Ht Hf Hl) as H1.
  rewrite (job_run now s r rest f bins iso Hiso Hp Hx Hf). cbn [snd posted logged]. split.
  - unfold index_posts, index_message. rewrite Hd, Hk. by rewrite partition_bins_none.
  - rewrite !in_app_iff. right; right; left. unfold index_logs. rewrite Hd, in_app_iff. left.
    apply in_map_iff. exists "1 day". split; [reflexivity|]. by apply unrecognised_one_day.
Qed.

Lemma partition_bins_today (p : string * Aggregator.IndexJs.BinStatus -> bool)
    (l : list (string * Aggregator.IndexJs.BinStatus)) :
  Forall (fun e => Aggregator.IndexJs.isDue (snd e) = p e /\
                   (p e = true -> Aggregator.IndexJs.daysUntilDue (snd e) = "Today")) l ->
  IndexJs.partition_bins l = (map fst (List.filter p l), []).
Proof.
  induction 1 as [|[name st] l [Hd Hl] _ IH]; [reflexivity|]. cbn [IndexJs.partition_bins].
  rewrite IH. cbn [snd fst List.filter map] in *. rewrite Hd.
  destruct (p (name, st)); [|reflexivity]. by rewrite (Hl eq_refl).
Qed.

Lemma existsb_Forall_eq {A} (p q : A -> bool) (l : list A) :
  Forall (fun x => q x = p x) l -> existsb q l = existsb p l.
Proof. induction 1 as [|x l Hx _ IH]; [done|]. cbn [existsb]. by rewrite Hx, IH. Qed.

Lemma existsb_filter_nonempty {A} (p : A -> bool) (l : list A) :
  List.filter p l <> [] -> existsb p l = true.
Proof.
  induction l as [|x l IH]; cbn [List.filter existsb]; [done|].
  destruct (p x); [done|]. exact IH.
Qed.

(** C30: the cron job of src/index.js before 21:11, when no bin is due
    tomorrow and some are collected today: it posts, twice, the sentence
    naming the bins collected today as "being collected today". *)
Theorem job_today_message (now : Z) (s : net) (r : Response) (rest : list fetch_result)
    (f : feed) (bins : Aggregator.IndexJs.Bins) :
  url_absolute (str_or_undefined IndexJs.webhookKey) = true ->
  in_range tza now -> time_of_day tza now <= cutoff_2111 ->
  pending s = Fetched r :: rest -> xml_to_json (body r) = Some f ->
  Aggregator.IndexJs.formatData tza now f = Ok bins ->
  Forall (fun e => local_day tza (Aggregator.IndexJs.collectionDate (snd e)) <> local_day tza now + 1)
         (IndexJs.entries bins) ->
  let today := map fst (List.filter (fun e => local_day tza (Aggregator.IndexJs.collectionDate (snd e))
                                               =? local_day tza now) (IndexJs.entries bins)) in
  today <> [] ->
  posted (snd (IndexJs.job tza now s)) =
  posted s ++ [createMessage today "today"; createMessage today "today"].
Proof.
  intros Hk Hr Ht Hp Hx Hf Hl today Hne. destruct (toISOString_valid now (in_range_clock tza now Hr)) as [iso Hiso].
  rewrite (job_run now s r rest f bins iso Hiso Hp Hx Hf).
  set (p := fun e : string * Aggregator.IndexJs.BinStatus =>
              local_day tza (Aggregator.IndexJs.collectionDate (snd e)) =? local_day tza now) in *.
  assert (Hall : Forall (fun e => Aggregator.IndexJs.isDue (snd e) = p e /\
                   (p e = true -> Aggregator.IndexJs.daysUntilDue (snd e) = "Today")) (IndexJs.entries bins)).
  { apply formatData_Ok in Hf as (g & w & c & _ & _ & _ & ->).
    unfold IndexJs.entries in *. cbn [Aggregator.IndexJs.garden Aggregator.IndexJs.waste
      Aggregator.IndexJs.recycling] in *.
    inversion_clear Hl as [|? ? H1 Hl2]; inversion_clear Hl2 as [|? ? H2 Hl3];
      inversion_clear Hl3 as [|? ? H3 _].
    cbn [snd Aggregator.IndexJs.collectionDate Aggregator.IndexJs.bin_status] in H1, H2, H3.
    unfold p. cbn [snd Aggregator.IndexJs.collectionDate Aggregator.IndexJs.bin_status].
    repeat constructor;
      match goal with
      | |- _ = (local_day tza ?c =? _) => apply (bin_status_today tza now c); done
      | |- (local_day tza ?c =? _) = true -> _ =>
          intros E; apply Z.eqb_eq in E; apply (bin_status_today tza now c); done
      end. }
  unfold index_posts, index_message, IndexJs.any_due. rewrite (partition_bins_today p _ Hall).
  assert (Hfl : List.filter p (IndexJs.entries bins) <> []) by (intros E; apply Hne; unfold today; by rewrite E).
  assert (Hex : existsb (fun e => Aggregator.IndexJs.isDue (snd e)) (IndexJs.entries bins) = true).
  { rewrite (existsb_Forall_eq p); [by apply existsb_filter_nonempty|].
    eapply Forall_impl; [|exact Hall]. by intros ? []. }
  rewrite Hex, Hk.
  cbn [fst snd]. unfold composeMessage. fold today.
  destruct today as [|t ts]; [done|]. cbn [length Nat.ltb Nat.leb andb createMessage].
  by rewrite string_app_nil_r.
Qed.

Lemma posts_handleNewData (bins : Aggregator.IndexJs.Bins) : posts_at_most (IndexJs.handleNewData bins) 1.
Proof.
  intros s. rewrite handleNewData_run. exists (index_posts bins). split; [reflexivity|].
  unfold index_posts. destruct (_ && _); simpl; lia.
Qed.

Lemma posts_buildResponseData_by (k : nat) (now : Z) :
  (forall b, posts_at_most (IndexJs.handleNewData b) k) ->
  posts_at_most (IndexJs.buildResponseData tza now) k.
Proof.
  intros Hk. unfold IndexJs.buildResponseData.
  apply (posts_bind _ _ 0 k); [auto with monad_facts | intros r].
  apply (posts_bind _ _ 0 k); [auto with monad_facts | intros xml].
  apply (posts_bind _ _ 0 k); [destruct (xml_to_json xml); auto with monad_facts | intros json].
  do 3 (apply (posts_bind _ _ 0 k); [auto with monad_facts | intros ?]).
  rewrite <- (Nat.add_0_r k). apply (posts_bind _ _ k 0); [apply Hk | auto with monad_facts].
Qed.

Lemma posts_job_by (k : nat) (now : Z) :
  (forall b, posts_at_most (IndexJs.handleNewData b) k) -> posts_at_most (IndexJs.job tza now) (k + k).
Proof.
  intros Hk. unfold IndexJs.job. rewrite <- (Nat.add_0_r (k + k)).
  apply (posts_catch _ _ (k + k) 0); [|auto with monad_facts].
  do 2 (apply (posts_bind _ _ 0 (k + k)); [auto with monad_facts | intros ?]).
  apply (posts_bind _ _ k k); [apply posts_buildResponseData_by, Hk | apply Hk].
Qed.

Lemma posts_buildResponseData (now : Z) : posts_at_most (IndexJs.buildResponseData tza now) 1.
Proof. apply posts_buildResponseData_by, posts_handleNewData. Qed.

(** A run of the cron job sends at most two webhook requests. *)
Lemma posts_job (now : Z) : posts_at_most (IndexJs.job tza now) 2.
Proof. apply (posts_job_by 1), posts_handleNewData. Qed.

(** The job catches every error: a run always ends in [Ok tt]. *)
Lemma job_never_throws (now : Z) (s : net) : fst (IndexJs.job tza now s) = Ok tt.
Proof. apply mcatch_ignore. reflexivity. Qed.

(** Without a usable URL, [handleNewData] sends nothing. *)
Lemma posts_handleNewData_no_key (bins : Aggregator.IndexJs.Bins) :
  url_absolute (str_or_undefined IndexJs.webhookKey) = false ->
  posts_at_most (IndexJs.handleNewData bins) 0.
Proof.
  intros Hk s. rewrite handleNewData_run. exists (index_posts bins). split; [reflexivity|].
  unfold index_posts. rewrite Hk, andb_false_r. simpl. lia.
Qed.

(** The start of a run of the job: the check's time on the console. *)
Lemma job_check_line (now : Z) (iso : string) (s : net) (k : M unit) :
  toISOString (TimeClip now) = Ok iso ->
  mbind (lift (toISOString (TimeClip now)))
        (fun iso => _ <-- console ConsoleLog [AStr ("Checking bin data at " +:+ iso)] ;;; k) s =
  k (mkNet (pending s) (fetches_made s) (body_used s) (posted s)
              (logged s ++ [mkLog ConsoleLog [AStr ("Checking bin data at " +:+ iso)]])).
Proof. intros Hiso. unfold mbind, lift, console. by rewrite Hiso. Qed.

(** The module's check of [webhookKey] (src/index.js:12-14). *)
Lemma check_webhookKey_run (s : net) :
  IndexJs.check_webhookKey s =
  (Ok tt, mkNet (pending s) (fetches_made s) (body_used s) (posted s)
                (logged s ++ if truthy IndexJs.webhookKey then [] else [mkLog ConsoleWarn no_key_warning])).
Proof. unfold IndexJs.check_webhookKey. destruct (truthy _); destruct s; cbn; by rewrite ?app_nil_r. Qed.

(** A clock outside the range of [Date] stops the job at its first line:
    the [RangeError] is logged and nothing else happens. *)
Lemma job_clock_fails (now : Z) (e : js_error) (s : net) :
  toISOString (TimeClip now) = Throw e ->
  IndexJs.job tza now s =
  (Ok tt, mkNet (pending s) (fetches_made s) (body_used s) (posted s)
                (logged s ++ [mkLog ConsoleLog [AErr e]])).
Proof. intros E. unfold IndexJs.job, mcatch, mbind at 1, lift. by rewrite E. Qed.

(** C28: every failure of the cron job's fetch, conversion or
    formatting is caught and logged, and ends the run normally without a
    webhook request: the console gets the time of the check, then the
    error ([console.log(error)]). *)
Theorem job_logs_failures (now : Z) (s : net) (iso : string) (rest : list fetch_result) :
  toISOString (TimeClip now) = Ok iso ->
  let check := mkLog ConsoleLog [AStr ("Checking bin data at " +:+ iso)] in
  (pending s = FetchRejected :: rest ->
     IndexJs.job tza now s =
     (Ok tt, mkNet rest (S (fetches_made s)) (body_used s) (posted s)
                   (logged s ++ [check; mkLog ConsoleLog [AErr (TypeError "fetch failed")]]))) /\
  (forall r, pending s = Fetched r :: rest -> xml_to_json (body r) = None ->
     IndexJs.job tza now s =
     (Ok tt, mkNet rest (S (fetches_made s)) true (posted s)
                   (logged s ++ [check; mkLog ConsoleLog [AErr (JsError "XML parse error")]]))) /\
  (forall r f e, pending s = Fetched r :: rest -> xml_to_json (body r) = Some f ->
     Aggregator.IndexJs.formatData tza now f = Throw e ->
     IndexJs.job tza now s =
     (Ok tt, mkNet rest (S (fetches_made s)) true (posted s)
                   (logged s ++ [check; mkLog ConsoleLog [AErr e]]))).
Proof.
  intros Hiso check. unfold IndexJs.job, IndexJs.buildResponseData, mcatch.
  rewrite (job_check_line now iso s _ Hiso).
  destruct s as [p n u ps lg]. cbn [pending fetches_made body_used posted logged].
  repeat split; intros; subst p;
    unfold mbind, fetch_feed, text, lift, console, mret, mthrow; cbn -[Aggregator.IndexJs.formatData];
    repeat match goal with H : _ = _ |- _ => rewrite H; cbn -[Aggregator.IndexJs.formatData] end;
    by rewrite <- app_assoc.
Qed.

Lemma logs_handleNewData (bins : Aggregator.IndexJs.Bins) : logs_grow (IndexJs.handleNewData bins).
Proof. intros s. rewrite handleNewData_run. by eexists. Qed.

#[local] Hint Resolve logs_handleNewData : monad_facts.

Lemma logs_buildResponseData (now : Z) : logs_grow (IndexJs.buildResponseData tza now).
Proof. unfold IndexJs.buildResponseData. logs_auto. Qed.

Lemma logs_job (now : Z) : logs_grow (IndexJs.job tza now).
Proof. unfold IndexJs.job. logs_auto. Qed.

End Job.

#[export] Hint Resolve logs_handleNewData logs_buildResponseData logs_job : monad_facts.

(** ** What the lambda writes to its log *)

Section LambdaConsole.

Context `{Collaborators}.
Variable tza : Z.

Lemma logs_getData : logs_grow Lambda.getData.
Proof. unfold Lambda.getData, Lambda.convertXMLtoJSON. logs_auto. Qed.

Lemma logs_formatData_run (now : Z) (data : feed) : logs_grow (Lambda.formatData_run tza now data).
Proof. unfold Lambda.formatData_run. logs_auto. Qed.

Lemma logs_buildMessage_run (bins : list MessageComposer.Lambda.DueBin) :
  logs_grow (Lambda.buildMessage_run bins).
Proof. unfold Lambda.buildMessage_run. logs_auto. Qed.

Lemma logs_sendWebhook (m : string) (u : option string) : logs_grow (Lambda.sendWebhook m u).
Proof. unfold Lambda.sendWebhook. logs_auto. Qed.

#[local] Hint Resolve logs_getData logs_formatData_run logs_buildMessage_run logs_sendWebhook : monad_facts.

(** Whatever happens after its first two console lines, a run of the
    handler keeps them. *)
Lemma handler_logs_prefix (now : Z) (s : net) :
  exists l, logged (snd (Lambda.handler tza now s)) = logged (snd (Lambda.announce_key WEBHOOK_URL s)) ++ l.
Proof.
  unfold Lambda.handler. cbv zeta. step (announce_key_ok WEBHOOK_URL s).
  match goal with |- context [mcatch ?c ?h ?s1] =>
    assert (G : logs_grow (mcatch c h)) by logs_auto; exact (G s1) end.
Qed.

(** C26: the lambda writes the value of [WEBHOOK_URL], the IFTTT webhook
    URL whose path holds the account's key, to its log in clear: the
    first console line of every run, whatever happens next, is
    "Webhook key: " followed by the URL. *)
Theorem handler_logs_webhook_url (now : Z) (s : net) (url : string) :
  WEBHOOK_URL = Some url -> url <> "" ->
  exists l, logged (snd (Lambda.handler tza now s)) =
            logged s ++ mkLog ConsoleLog [AStr ("Webhook key: " +:+ url)] :: l.
Proof.
  intros Hu Hne. destruct (handler_logs_prefix now s) as [l E]. exists l.
  rewrite E, announce_key_run, Hu. cbn [logged snd truthy str_or_undefined].
  rewrite bool_decide_false by done. cbn. by rewrite <- app_assoc.
Qed.

End LambdaConsole.

(** ** A deployment without a usable [WEBHOOK_URL] *)

Section NoWebhookKey.

Context `{Collaborators}.
Variable tza : Z.

(** C38: with [WEBHOOK_URL] unset or empty (the code only warns about
    it), no webhook request is ever sent: the cron job of src/index.js
    swallows node-fetch's rejection, posts nothing and ends without an
    error; the lambda starts its log with the warning and, once it has
    bins to report, logs the request's body and fails with node-fetch's
    TypeError. *)
Theorem missing_webhook_url :
  truthy WEBHOOK_URL = false ->
  (forall now s, fst (IndexJs.job tza now s) = Ok tt /\ posted (snd (IndexJs.job tza now s)) = posted s) /\
  (forall now s, exists l, logged (snd (Lambda.handler tza now s)) =
                           logged s ++ mkLog ConsoleWarn no_key_warning :: l) /\
  (forall now s s' data bins m,
     Lambda.getData (snd (Lambda.announce_key WEBHOOK_URL s)) = (Ok data, s') ->
     Aggregator.Lambda.formatData tza now data = Ok bins -> bins <> [] ->
     MessageComposer.Lambda.buildMessage bins = Ok m ->
     Lambda.handler tza now s =
     (Throw (TypeError "Only absolute URLs are supported"),
      mkNet (pending s') (fetches_made s') (body_used s') (posted s')
            (logged s' ++ [mkLog ConsoleLog [AStr "Due bin/s: "; ADueBins bins];
                           mkLog ConsoleLog [AStr (json_value1 ("Bin Bot alert: " +:+ str_or_undefined m))]]))).
Proof.
  intros Hf. pose proof (url_falsy _ Hf) as Hu. split; [|split].
  - intros now s. split; [apply job_never_throws|].
    destruct (posts_job_by tza 0 now (fun b => posts_handleNewData_no_key b Hu) s)
      as ([|x l] & E & L); [by rewrite E, app_nil_r | simpl in L; lia].
  - intros now s. destruct (handler_logs_prefix tza now s) as [l E].
    exists (mkLog ConsoleLog [AStr ("Webhook key: " +:+ str_or_undefined WEBHOOK_URL)] :: l).
    rewrite E, announce_key_run, Hf. cbn. by rewrite <- app_assoc.
  - intros now s s' data bins m Hg Hfd Hne Hb. unfold Lambda.handler. cbv zeta.
    step (announce_key_ok WEBHOOK_URL s). rewrite mcatch_rethrow. step Hg.
    step (formatData_run_ok tza now data bins s' Hfd).
    destruct bins as [|b l]; [done|]. step (buildMessage_run_ok (b :: l) m s' Hb).
    unfold mbind at 1. rewrite (sendWebhook_rejected _ _ _ Hu).
    cbn -[json_value1]. by rewrite <- app_assoc.
Qed.

End NoWebhookKey.

(** ** Witnesses: the runs of 8 July 2018 *)

(** The URL the deployment sets in [WEBHOOK_URL]. *)
Definition ifttt_url : string := "https://maker.ifttt.com/trigger/bin_bot/with/key/KEY".

(** node-fetch's test on the URLs of the witnesses: an http or https
    scheme. *)
Definition http_url (u : string) : bool := String.prefix "http://" u || String.prefix "https://" u.

(** A deployment: the feed converts by [xml], the webhook answers by
    [answer], [WEBHOOK_URL] is [key] and [PORT] is unset. *)
Definition deployment (xml : string -> option feed) (answer : string -> option Response)
    (key : option string) : Collaborators :=
  {| xml_to_json := xml; webhook_answer := answer; url_absolute := http_url;
     url_undefined_relative := eq_refl; url_empty_relative := eq_refl;
     WEBHOOK_URL := key; PORT := None |}.

Definition webhook_ok : Response := mkResponse true 200 "OK" "Congratulations!".
Definition webhook_down : Response := mkResponse false 500 "Internal Server Error" "".

(** A council server whose feed converts to [feed_jul], and a webhook
    that accepts every request. *)
Definition council_env : Collaborators :=
  deployment (fun _ => Some feed_jul) (fun _ => Some webhook_ok) (Some ifttt_url).

(** A feed the converter rejects. *)
Definition broken_xml_env : Collaborators :=
  deployment (fun _ => None) (fun _ => Some webhook_ok) (Some ifttt_url).

(** A webhook that answers every request with an error status. *)
Definition webhook_down_env : Collaborators :=
  deployment (fun _ => Some feed_jul) (fun _ => Some webhook_down) (Some ifttt_url).

(** A deployment whose [WEBHOOK_URL] is unset. *)
Definition no_key_env : Collaborators :=
  deployment (fun _ => Some feed_jul) (fun _ => Some webhook_ok) None.

Definition feed_ok : Response := mkResponse true 200 "OK" "<rss/>".
Definition feed_down : Response := mkResponse false 503 "Service Unavailable" "".
Definition net_ok : net := mkNet [Fetched feed_ok] 0 false [] [].

(** The lambda's first console line in these deployments, the bins it
    reports on Sunday at 10:00 and its message. *)
Definition key_line : log_entry := mkLog ConsoleLog [AStr ("Webhook key: " +:+ ifttt_url)].
Definition waste_tomorrow : list MessageComposer.Lambda.DueBin :=
  [MessageComposer.Lambda.mkDueBin (Some "waste") "tomorrow"].
Definition alert : string := "Bin Bot alert: " +:+ str_or_undefined (Some "Waste bin is being collected tomorrow.").

Lemma getData_gives_up_witness :
  @Lambda.getData council_env (mkNet [Fetched feed_down; Fetched feed_down; Fetched feed_down] 0 false [] []) =
  (Throw (JsError (Lambda.fetch_error_message feed_down)), mkNet [] 3 false [] []).
Proof. apply (@getData_gives_up council_env); reflexivity. Defined.

Lemma getData_reparse_fails_witness :
  @Lambda.getData broken_xml_env net_ok =
  (Throw (TypeError "body used already"),
   mkNet [] 1 true [] [mkLog ConsoleError [AStr "Error parsing response data"; AErr (JsError "XML parse error")];
                       mkLog ConsoleLog [AStr "Trying to fetch data again"]]).
Proof. apply (@getData_reparse_fails broken_xml_env feed_ok [] 0 false [] []); reflexivity. Defined.

Lemma handler_nothing_due_witness :
  @Lambda.handler council_env 0 mon_10am net_ok =
  (Ok "No bins due today or tomorrow", mkNet [] 1 true [] [key_line]) /\
  posted (mkNet [] 1 true [] [key_line]) = posted net_ok.
Proof. apply (@handler_nothing_due council_env 0 mon_10am net_ok _ feed_jul); reflexivity. Defined.

(** Monday 9 July 2018 at 10:00, the waste bin's collection day: the
    lambda stays silent. *)
Lemma handler_silent_on_collection_day_witness :
  @Lambda.handler council_env 0 mon_10am net_ok =
  (Ok "No bins due today or tomorrow", mkNet [] 1 true [] [key_line]) /\
  posted (mkNet [] 1 true [] [key_line]) = posted net_ok.
Proof.
  apply (@handler_silent_on_collection_day council_env 0 mon_10am net_ok _ feed_jul).
  - apply in_range_witness. unfold mon_10am. lia.
  - reflexivity.
  - repeat constructor; (eexists; split; [reflexivity | vm_compute; discriminate]).
Defined.

Lemma handler_success_witness :
  @Lambda.handler council_env 0 sun_10am net_ok =
  (Ok alert, mkNet [] 1 true [alert] [key_line; mkLog ConsoleLog [AStr "Due bin/s: "; ADueBins waste_tomorrow];
                                      mkLog ConsoleLog [AStr (json_value1 alert)]]).
Proof.
  apply (@handler_success council_env 0 sun_10am net_ok (mkNet [] 1 true [] [key_line]) feed_jul
           waste_tomorrow (Some "Waste bin is being collected tomorrow.") webhook_ok); try reflexivity.
  discriminate.
Defined.

Lemma handler_webhook_rejected_witness :
  @Lambda.handler webhook_down_env 0 sun_10am net_ok =
  (Throw (JsError (Lambda.webhook_error_message webhook_down)),
   mkNet [] 1 true [alert] [key_line; mkLog ConsoleLog [AStr "Due bin/s: "; ADueBins waste_tomorrow];
                            mkLog ConsoleLog [AStr (json_value1 alert)]]).
Proof.
  apply (@handler_webhook_rejected webhook_down_env 0 sun_10am net_ok (mkNet [] 1 true [] [key_line]) feed_jul
           waste_tomorrow (Some "Waste bin is being collected tomorrow.") webhook_down); try reflexivity.
  discriminate.
Defined.

Lemma handler_end_to_end_witness :
  @Lambda.handler council_env 0 sun_10am net_ok =
  (Ok ("Bin Bot alert: " +:+ createMessage ["waste"] "tomorrow"),
   mkNet [] 1 true ["Bin Bot alert: " +:+ createMessage ["waste"] "tomorrow"]
         [key_line; mkLog ConsoleLog [AStr "Due bin/s: "; ADueBins waste_tomorrow];
          mkLog ConsoleLog [AStr (json_value1 ("Bin Bot alert: " +:+ createMessage ["waste"] "tomorrow"))]]).
Proof.
  apply (@handler_end_to_end council_env 0 sun_10am net_ok (mkNet [] 1 true [] [key_line]) feed_jul
           waste_tomorrow webhook_ok);
    try reflexivity.
  - apply in_range_witness. unfold sun_10am. lia.
  - vm_compute. discriminate.
  - discriminate.
Defined.

Lemma handler_logs_webhook_url_witness :
  exists l, logged (snd (@Lambda.handler council_env 0 sun_10am net_ok)) =
            logged net_ok ++ mkLog ConsoleLog [AStr ("Webhook key: " +:+ ifttt_url)] :: l.
Proof. apply (@handler_logs_webhook_url council_env 0 sun_10am net_ok ifttt_url); [reflexivity | discriminate]. Defined.

Lemma job_posts_twice_witness :
  exists bins, Aggregator.IndexJs.formatData 0 sun_10am feed_jul = Ok bins /\ IndexJs.any_due bins = true /\
  let m := composeMessage (fst (IndexJs.partition_bins (IndexJs.entries bins)))
                          (snd (IndexJs.partition_bins (IndexJs.entries bins))) in
  posted (snd (@IndexJs.job council_env 0 sun_10am net_ok)) = posted net_ok ++ [m; m].
Proof.
  eexists. split; [reflexivity|]. split; [reflexivity|].
  apply (@job_posts_twice council_env 0 sun_10am net_ok feed_ok [] feed_jul); try reflexivity.
  unfold sun_10am. lia.
Defined.

(** What src/index.js makes of [feed_jul] on 2018-07-08 at 10:00: channel
    0, the collection of Monday 9 July, is the garden bin. *)
Definition bins_jul : Aggregator.IndexJs.Bins :=
  Aggregator.IndexJs.mkBins (Aggregator.IndexJs.mkBinStatus true "1 day" 1531177200000)
                            (Aggregator.IndexJs.mkBinStatus false "5 days" 1531522800000)
                            (Aggregator.IndexJs.mkBinStatus false "8 days" 1531782000000).

(** The webhook of [webhook_down_env] rejects both requests of the run of
    Sunday 8 July 2018 at 10:00; the job still resolves. *)
Lemma job_swallows_webhook_error_witness :
  let m := composeMessage (fst (IndexJs.partition_bins (IndexJs.entries bins_jul)))
                          (snd (IndexJs.partition_bins (IndexJs.entries bins_jul))) in
  let warnings := map unrecognised_entry (IndexJs.unrecognised (IndexJs.entries bins_jul)) in
  let rejected := mkLog ConsoleError [AStr ("Error sending webhook" +:+ String "010" EmptyString);
                                      ANum 500; AStr "Internal Server Error"] in
  exists iso,
  @IndexJs.job webhook_down_env 0 sun_10am net_ok =
  (Ok tt, mkNet [] 1 true [m; m]
            ([mkLog ConsoleLog [AStr ("Checking bin data at " +:+ iso)];
              mkLog ConsoleLog [AStr ("Fetched new data:" +:+ String "010" EmptyString);
                                AResponseData iso bins_jul]] ++
             (warnings ++ [mkLog ConsoleLog [AStr m]; rejected]) ++
             (warnings ++ [mkLog ConsoleLog [AStr m]; rejected]))).
Proof.
  apply (@job_swallows_webhook_error webhook_down_env 0 sun_10am net_ok feed_ok [] feed_jul bins_jul
           webhook_down); try reflexivity.
  unfold sun_10am. lia.
Defined.

Lemma job_posts_empty_message_witness :
  posted (snd (@IndexJs.job council_env 0 sun_10am net_ok)) = posted net_ok ++ [""; ""] /\
  In (mkLog ConsoleWarn [AStr "Unrecognised days until bin due string: 1 day"])
     (logged (snd (@IndexJs.job council_env 0 sun_10am net_ok))).
Proof.
  apply (@job_posts_empty_message council_env 0 sun_10am net_ok feed_ok [] feed_jul bins_jul);
    try reflexivity.
  - apply in_range_witness. unfold sun_10am. lia.
  - vm_compute. discriminate.
  - repeat constructor; vm_compute; discriminate.
Defined.

(** What src/index.js makes of [feed_jul] on 2018-07-09 at 10:00: the
    garden bin is collected that day. *)
Definition bins_jul_mon : Aggregator.IndexJs.Bins :=
  Aggregator.IndexJs.mkBins (Aggregator.IndexJs.mkBinStatus true "Today" 1531177200000)
                            (Aggregator.IndexJs.mkBinStatus false "4 days" 1531522800000)
                            (Aggregator.IndexJs.mkBinStatus false "7 days" 1531782000000).

Lemma job_today_message_witness :
  posted (snd (@IndexJs.job council_env 0 mon_10am net_ok)) =
  posted net_ok ++ [createMessage ["garden"] "today"; createMessage ["garden"] "today"].
Proof.
  apply (@job_today_message council_env 0 mon_10am net_ok feed_ok [] feed_jul bins_jul_mon);
    try reflexivity.
  - apply in_range_witness. unfold mon_10am. lia.
  - vm_compute. discriminate.
  - repeat constructor; vm_compute; discriminate.
  - vm_compute. discriminate.
Defined.

(** The job on Sunday at 10:00 when the council's server is unreachable. *)
Lemma job_logs_failures_witness :
  @IndexJs.job council_env 0 sun_10am (mkNet [FetchRejected] 0 false [] []) =
  (Ok tt, mkNet [] 1 false [] [mkLog ConsoleLog [AStr ("Checking bin data at " +:+ "2018-07-08T10:00:00.000Z")];
                               mkLog ConsoleLog [AErr (TypeError "fetch failed")]]).
Proof.
  assert (Hiso : toISOString (TimeClip sun_10am) = Ok "2018-07-08T10:00:00.000Z") by (vm_compute; reflexivity).
  exact (proj1 (@job_logs_failures council_env 0 sun_10am (mkNet [FetchRejected] 0 false [] [])
                  "2018-07-08T10:00:00.000Z" [] Hiso) eq_refl).
Defined.

Lemma missing_webhook_url_witness :
  (forall now s, fst (@IndexJs.job no_key_env 0 now s) = Ok tt /\
                 posted (snd (@IndexJs.job no_key_env 0 now s)) = posted s) /\
  (forall now s, exists l, logged (snd (@Lambda.handler no_key_env 0 now s)) =
                           logged s ++ mkLog ConsoleWarn no_key_warning :: l) /\
  (forall now s s' data bins m,
     @Lambda.getData no_key_env (snd (Lambda.announce_key None s)) = (Ok data, s') ->
     Aggregator.Lambda.formatData 0 now data = Ok bins -> bins <> [] ->
     MessageComposer.Lambda.buildMessage bins = Ok m ->
     @Lambda.handler no_key_env 0 now s =
     (Throw (TypeError "Only absolute URLs are supported"),
      mkNet (pending s') (fetches_made s') (body_used s') (posted s')
            (logged s' ++ [mkLog ConsoleLog [AStr "Due bin/s: "; ADueBins bins];
                           mkLog ConsoleLog [AStr (json_value1 ("Bin Bot alert: " +:+ str_or_undefined m))]]))).
Proof. apply (@missing_webhook_url no_key_env 0). reflexivity. Defined.
