(* ===== verification/Scheduler.v ===== *)
(** * Scheduler: the cron trigger of src/index.js

    [schedule.scheduleJob('0 6,18 * * *', job)] (src/index.js:215) runs
    the job whenever the local time reads second 0, minute 0 and hour 6
    or 18, every day of every month ([cron_fires], from the fields of
    the cron expression: node-schedule's seconds field defaults to 0).
    [next_fire t] is the first such instant after [t], the next
    invocation node-schedule plans.

    The theorems: [cron_fires] holds exactly at 06:00 and 18:00 local
    time; [next_fire] is the next firing, at most twelve hours away, with
    no firing in between; and every collection the feed announces is
    seen as due by a run of the schedule before it happens. *)

From S2P Require Import Prelude Calendar DueClassifier.

Local Open Scope Z_scope.

Section Cron.

Variable tza : Z.

(** The fields of the expression: minute, hour (second defaults to 0). *)
Definition cron_minutes : list Z := [0].
Definition cron_hours : list Z := [6; 18].

(** The job fires at [t] when every field of the local time matches. *)
Definition cron_fires (t : Z) : bool :=
  let l := LocalTime tza t in
  (msFromTime l =? 0) && (SecFromTime l =? 0) &&
  existsb (Z.eqb (MinFromTime l)) cron_minutes && existsb (Z.eqb (HourFromTime l)) cron_hours.

(** The run at hour [h] of local day [d]. *)
Definition fire_at (d h : Z) : Z := UTC tza (MakeDate d (MakeTime h 0 0 0)).

(** The next invocation after [t]: 06:00 or 18:00 of the same local day,
    or 06:00 of the next one. *)
Definition next_fire (t : Z) : Z :=
  let d := local_day tza t in
  let tod := time_of_day tza t in
  if tod <? MakeTime 6 0 0 0 then fire_at d 6
  else if tod <? MakeTime 18 0 0 0 then fire_at d 18
  else fire_at (d + 1) 6.

End Cron.

(** ** The instants the schedule fires *)

Section CronFacts.

Variable tza : Z.

Lemma fields_in_day (x q : Z) : 0 <= x < msPerDay ->
  let l := x + msPerDay * q in
  msFromTime l = x mod 1000 /\ SecFromTime l = (x / 1000) mod 60 /\
  MinFromTime l = (x / 60000) mod 60 /\ HourFromTime l = x / 3600000.
Proof.
  intros Hx l. unfold l, msFromTime, SecFromTime, MinFromTime, HourFromTime,
    msPerSecond, msPerMinute, msPerHour, msPerDay in *.
  repeat split; lia_div.
Qed.

Lemma fields_match (x : Z) : 0 <= x < msPerDay ->
  ((x mod 1000 =? 0) && ((x / 1000) mod 60 =? 0) && existsb (Z.eqb ((x / 60000) mod 60)) cron_minutes &&
   existsb (Z.eqb (x / 3600000)) cron_hours) = (x =? MakeTime 6 0 0 0) || (x =? MakeTime 18 0 0 0).
Proof.
  unfold msPerDay, MakeTime, msPerHour, msPerMinute, msPerSecond. intros Hx.
  cbn [existsb cron_minutes cron_hours]. rewrite !orb_false_r.
  case_tests; simpl; try reflexivity; exfalso; lia_div.
Qed.

(** The job fires exactly at 06:00 and 18:00 local time. *)
Lemma cron_fires_tod (t : Z) :
  cron_fires tza t = (time_of_day tza t =? MakeTime 6 0 0 0) || (time_of_day tza t =? MakeTime 18 0 0 0).
Proof.
  pose proof (time_of_day_bound tza t) as Hb.
  unfold cron_fires. replace (LocalTime tza t) with (time_of_day tza t + msPerDay * local_day tza t)
    by (pose proof (time_decomp tza t); unfold LocalTime; lia).
  destruct (fields_in_day (time_of_day tza t) (local_day tza t) Hb) as (-> & -> & -> & ->).
  by apply fields_match.
Qed.

Lemma fire_at_value (d h : Z) : fire_at tza d h = d * msPerDay + MakeTime h 0 0 0 - tza.
Proof. reflexivity. Qed.

Lemma fire_at_day (d h : Z) : 0 <= h < 24 -> local_day tza (fire_at tza d h) = d.
Proof. intros. apply local_day_UTC. unfold MakeTime, msPerDay, msPerHour, msPerMinute, msPerSecond. lia. Qed.

Lemma fire_at_tod (d h : Z) : 0 <= h < 24 -> time_of_day tza (fire_at tza d h) = MakeTime h 0 0 0.
Proof.
  intros Hh. pose proof (time_decomp tza (fire_at tza d h)) as E. rewrite fire_at_day in E by done.
  set (T := time_of_day tza (fire_at tza d h)) in *. rewrite fire_at_value in E. lia.
Qed.

End CronFacts.

Ltac time_lia := unfold MakeTime, msPerDay, msPerHour, msPerMinute, msPerSecond in *; lia.

(** An instant in terms of its local day and time of day, both atoms
    for [lia]. *)
Ltac decompose_time tza t :=
  pose proof (time_decomp tza t); pose proof (time_of_day_bound tza t).

(** C32: [next_fire t] is the next run of the schedule: it comes after
    [t], at most twelve hours later, the job fires then, and it does not
    fire in between. *)
Theorem next_fire_spec (tza t : Z) :
  t < next_fire tza t <= t + MakeTime 12 0 0 0 /\ cron_fires tza (next_fire tza t) = true /\
  forall u, t < u < next_fire tza t -> cron_fires tza u = false.
Proof.
  decompose_time tza t. unfold next_fire.
  destruct (time_of_day tza t <? MakeTime 6 0 0 0) eqn:E6; [|destruct (_ <? MakeTime 18 0 0 0) eqn:E18];
    zbool_hyps; (split; [rewrite fire_at_value; time_lia|split]);
    try (rewrite cron_fires_tod, fire_at_tod by lia; reflexivity);
    intros u Hu; rewrite fire_at_value in Hu; decompose_time tza u; rewrite cron_fires_tod;
    case_tests; simpl; try reflexivity; time_lia.
Qed.

(** ** Every collection is flagged by a run *)

Lemma in_range_between (tza t c u : Z) :
  in_range tza t -> in_range tza c -> t <= u <= c -> in_range tza u.
Proof. unfold in_range. lia. Qed.

(** C33: liveness of the schedule: from any instant before 06:00 of the
    collection day, a later run of the job, no later than the collection
    itself, finds the bin due ([binIsDue] answers true). *)
Theorem collection_flagged_by_schedule (tza t c : Z) :
  in_range tza t -> in_range tza c -> MakeTime 6 0 0 0 <= time_of_day tza c ->
  t < fire_at tza (local_day tza c) 6 ->
  exists u, t < u <= c /\ cron_fires tza u = true /\ IndexJs.binIsDue tza u c = true.
Proof.
  intros Ht Hc Hc6 Hlt. set (u := fire_at tza (local_day tza c) 6).
  assert (Hu : u <= c) by (decompose_time tza c; unfold u; rewrite fire_at_value; time_lia).
  exists u. split; [lia|]. split.
  - unfold u. rewrite cron_fires_tod, fire_at_tod by lia. reflexivity.
  - rewrite (binIsDue_classify tza u c (in_range_between tza t c u Ht Hc ltac:(lia))).
    unfold classify, u. rewrite fire_at_day, fire_at_tod by lia.
    case_tests; simpl; try reflexivity; unfold cutoff_2111 in *; time_lia.
Qed.

(** ** Witness: the collection of Monday 9 July 2018, 23:00 UTC, seen
    from Sunday 10:00 *)

Lemma collection_flagged_by_schedule_witness :
  exists u, sun_10am < u <= mon_2300 /\ cron_fires 0 u = true /\ IndexJs.binIsDue 0 u mon_2300 = true.
Proof.
  apply collection_flagged_by_schedule.
  - apply in_range_witness. unfold sun_10am. lia.
  - apply in_range_witness. unfold mon_2300. lia.
  - vm_compute. discriminate.
  - vm_compute. reflexivity.
Defined.
