(* ===== verification/Server.v ===== *)
(** * Server: the Express application of src/index.js

    The module of src/index.js is a long-running process:
    - at load time it declares the global [response] object
      (src/index.js:16-38), which no code ever assigns again, and starts
      [dataForLoad = buildResponseData()] (src/index.js:244): one fetch and
      one [handleNewData], whose promise is kept;
    - the cron trigger runs the job at every firing of the schedule
      ([Scheduler.cron_fires]);
    - every HTTP request goes through the middleware that adds the CORS
      headers (src/index.js:238-242), then to the route for
      [GET /api/bins], which answers [res.json(dataForLoad)]
      (src/index.js:245-247), or for [GET /], which answers
      [res.send(render(response))] (src/index.js:249-251); other requests
      get Express's 404 "Cannot GET <path>".

    [render] (src/index.js:225-236) calls [ejs.renderFile] with a
    callback, which ejs calls before [renderFile] returns, so [HTML] is
    set when [render] returns.  The template itself is not in the
    sources: the [Templates] class gives its output for the data.
    [JSON.stringify] of a promise has no enumerable properties, so
    [res.json(dataForLoad)] always writes "{}".

    The process is a transition system ([server_step]) from
    [server_init]; the theorems are invariants of the reachable states
    ([rtc server_step]): the page and the API never show fetched data,
    every answer carries the CORS headers, and the webhook requests are
    bounded by the number of cron runs. *)

From stdpp Require Import relations.
From S2P Require Import Prelude JsString Calendar DueClassifier MessageComposer Aggregator Effects Pipeline Scheduler.

Local Open Scope Z_scope.

(** ** The global [response] object *)

(** One bin of [response.bins]: [daysUntilDue] and [collectionDate] are
    [undefined] ([None]) until assigned. *)
Record PageBin := mkPageBin {
  pb_isDue : bool;
  pb_daysUntilDue : option string;
  pb_collectionDate : option string;
  pb_hasBeenPutOut : bool
}.

Record PageData := mkPageData {
  updatedOn : string;
  pb_garden : PageBin;
  pb_waste : PageBin;
  pb_recycling : PageBin
}.

Definition initial_bin : PageBin := mkPageBin false None None false.

(** [const response = {updatedOn: "", bins: {...}}]. *)
Definition response : PageData := mkPageData "" initial_bin initial_bin initial_bin.

(** ** HTTP *)

Record HttpResponse := mkHttpResponse {
  http_status : Z;
  http_headers : list (string * string);
  http_body : string
}.

(** The output of [ejs.renderFile("./templates/main.ejs", data, ...)]:
    the HTML, or the error's text. *)
Class Templates := { render_main : PageData -> string + string }.

Section Routes.

Context `{Templates}.

(** [render(templateData)]: the HTML, and the console line of a failed
    rendering (the error's text stands for the error object). *)
Definition render (templateData : PageData) : string * list log_entry :=
  match render_main templateData with
  | inl err => (":( Error when rendering the template:<br>" +:+ err,
                [mkLog ConsoleError [AStr ("Error rendering template" +:+ String "010" EmptyString); AStr err]])
  | inr html => (html, [])
  end.

(** The two headers of the middleware. *)
Definition cors_headers : list (string * string) :=
  [("Access-Control-Allow-Origin", "*");
   ("Access-Control-Allow-Headers", "Origin, X-Requested-With, Content-Type, Accept")].

(** [res.json(body)] and [res.send(html)] after the middleware. *)
Definition send_json (json : string) : HttpResponse :=
  mkHttpResponse 200 (cors_headers ++ [("Content-Type", "application/json; charset=utf-8")]) json.
Definition send_html (html : string) : HttpResponse :=
  mkHttpResponse 200 (cors_headers ++ [("Content-Type", "text/html; charset=utf-8")]) html.

(** [JSON.stringify(dataForLoad)]: a promise serialises as an empty
    object, whatever it resolves to. *)
Definition stringify_promise {A} (p : outcome A) : string := "{}".

(** The middleware, then the routes, for a request [method path]: the
    answer and the console lines of the route. *)
Definition handle_request {A} (dataForLoad : outcome A) (method path : string)
    : HttpResponse * list log_entry :=
  if bool_decide (method = "GET") && bool_decide (path = "/api/bins") then
    (send_json (stringify_promise dataForLoad), [])
  else if bool_decide (method = "GET") && bool_decide (path = "/") then
    (send_html (fst (render response)), snd (render response))
  else (mkHttpResponse 404 cors_headers ("Cannot " +:+ method +:+ " " +:+ path), []).

End Routes.

(** ** The process as a transition system *)

(** The state of the process: the network and the console, the promise
    [dataForLoad] ([None] before the module has loaded), the answers
    sent so far, each with its request's method and path, and the port
    the application listens on ([None] before [app.listen]). *)
Record server := mkServer {
  srv_net : net;
  dataForLoad : option (outcome Aggregator.IndexJs.Bins);
  served : list (string * string * HttpResponse);
  listening : option string
}.

Definition server_init (n0 : net) : server := mkServer n0 None [] None.

(** [const port = process.env.PORT || "8000"]. *)
Definition port `{Collaborators} : string := js_or PORT "8000".

(** The console lines [lines] appended to the network state [n]. *)
Definition log_lines (n : net) (lines : list log_entry) : net :=
  mkNet (pending n) (fetches_made n) (body_used n) (posted n) (logged n ++ lines).

Section Process.

Context `{Collaborators} `{Templates}.
Variable tza : Z.

(** Loading the module: the warning about [webhookKey], then
    [const dataForLoad = buildResponseData()] (each run of the pipeline
    is one atomic step). *)
Definition load (now : Z) (s : server) : server :=
  let '(r, n') := (_ <-- IndexJs.check_webhookKey ;;; IndexJs.buildResponseData tza now) (srv_net s) in
  mkServer n' (Some r) (served s) (listening s).

(** A firing of the cron trigger. *)
Definition cron_run (now : Z) (s : server) : server :=
  mkServer (snd (IndexJs.job tza now (srv_net s))) (dataForLoad s) (served s) (listening s).

(** [app.listen(port, () => console.log('Bin bot listening on port ' +
    port))]. *)
Definition listen (s : server) : server :=
  mkServer (log_lines (srv_net s) [mkLog ConsoleLog [AStr ("Bin bot listening on port " +:+ port)]])
           (dataForLoad s) (served s) (Some port).

(** An HTTP request, answered from [dataForLoad] and [response]. *)
Definition request (method path : string) (s : server) : server :=
  match dataForLoad s with
  | None => s
  | Some d => mkServer (log_lines (srv_net s) (snd (handle_request d method path))) (dataForLoad s)
                       (served s ++ [(method, path, fst (handle_request d method path))]) (listening s)
  end.

(** The process: the module loads once, then the server starts
    listening; the cron trigger fires from the load on, and requests
    arrive once the server listens. *)
Inductive server_step : server -> server -> Prop :=
  | step_load now s : dataForLoad s = None -> server_step s (load now s)
  | step_listen s : is_Some (dataForLoad s) -> listening s = None -> server_step s (listen s)
  | step_cron now s : is_Some (dataForLoad s) -> cron_fires tza now = true ->
      server_step s (cron_run now s)
  | step_request method path s : is_Some (listening s) -> server_step s (request method path s).

End Process.

#[export] Hint Constructors server_step : binbot.

(** ** Fetches only grow *)

(** [c] makes at least [n] fetches, whatever the network does. *)
Definition fetches_at_least {A} (c : M A) (n : nat) : Prop :=
  forall s, (fetches_made s + n <= fetches_made (snd (c s)))%nat.

Section Growth.

Context {A B : Type}.

Lemma grow_ret (a : A) : fetches_at_least (mret a) 0.
Proof. intros s. simpl. lia. Qed.

Lemma grow_throw e : fetches_at_least (mthrow (A := A) e) 0.
Proof. intros s. simpl. lia. Qed.

Lemma grow_bind (c : M A) (k : A -> M B) n :
  fetches_at_least c n -> (forall a, fetches_at_least (k a) 0) -> fetches_at_least (mbind c k) n.
Proof.
  intros Hc Hk s. unfold mbind. specialize (Hc s). destruct (c s) as [[a|e] s'].
  - specialize (Hk a s'). simpl in *. lia.
  - simpl in *. lia.
Qed.

Lemma grow_catch (c : M A) (h : js_error -> M A) n :
  fetches_at_least c n -> (forall e, fetches_at_least (h e) 0) -> fetches_at_least (mcatch c h) n.
Proof.
  intros Hc Hh s. unfold mcatch. specialize (Hc s). destruct (c s) as [[a|e] s'].
  - simpl in *. lia.
  - specialize (Hh e s'). simpl in *. lia.
Qed.

End Growth.

Lemma grow_fetch : fetches_at_least fetch_feed 1.
Proof. intros s. unfold fetch_feed. destruct (head (pending s)) as [[|r]|]; simpl; lia. Qed.

Lemma grow_text (r : Response) : fetches_at_least (text r) 0.
Proof. intros s. unfold text. destruct (body_used s); simpl; lia. Qed.

Lemma grow_post `{Collaborators} (u : option string) (m : string) : fetches_at_least (post_webhook u m) 0.
Proof. intros s. unfold post_webhook. destruct (url_absolute _); simpl; lia. Qed.

Lemma grow_console m a : fetches_at_least (console m a) 0.
Proof. intros s. simpl. lia. Qed.

Lemma grow_lift {A} (o : outcome A) : fetches_at_least (lift o) 0.
Proof. intros s. simpl. lia. Qed.

#[export] Hint Resolve grow_ret grow_throw grow_fetch grow_text grow_post grow_console grow_lift : monad_facts.

Section JobGrowth.

Context `{Collaborators}.
Variable tza : Z.

Lemma grow_handleNewData (bins : Aggregator.IndexJs.Bins) : fetches_at_least (IndexJs.handleNewData bins) 0.
Proof. intros s. rewrite handleNewData_run. simpl. lia. Qed.

Lemma grow_buildResponseData (now : Z) : fetches_at_least (IndexJs.buildResponseData tza now) 1.
Proof.
  unfold IndexJs.buildResponseData. apply grow_bind; [auto with monad_facts | intros r].
  apply (grow_bind _ _ 0); [auto with monad_facts | intros xml].
  apply (grow_bind _ _ 0); [destruct (xml_to_json xml); auto with monad_facts | intros json].
  do 3 (apply (grow_bind _ _ 0); [auto with monad_facts | intros ?]).
  apply (grow_bind _ _ 0); [apply grow_handleNewData | auto with monad_facts].
Qed.

Lemma grow_check_webhookKey : fetches_at_least IndexJs.check_webhookKey 0.
Proof. unfold IndexJs.check_webhookKey. destruct (truthy _); auto with monad_facts. Qed.

(** A run of the job at a valid clock fetches the feed. *)
Lemma grow_job (now : Z) (iso : string) :
  toISOString (TimeClip now) = Ok iso -> fetches_at_least (IndexJs.job tza now) 1.
Proof.
  intros E s. unfold IndexJs.job, mcatch. rewrite (job_check_line now iso s _ E).
  match goal with |- context [mbind ?c ?k ?s1] =>
    pose proof (grow_bind c k 1 (grow_buildResponseData now) (fun b => grow_handleNewData b) s1) as G end.
  destruct (mbind _ _ _) as [[[]|e'] s']; simpl in *; lia.
Qed.

End JobGrowth.

(** ** Invariants of the reachable states *)

(** An answer of the process: the CORS headers come first; [GET /]
    shows the rendering of the initial [response]; [GET /api/bins]
    shows "{}". *)
Definition answer_ok `{Templates} (a : string * string * HttpResponse) : Prop :=
  let '(m, p, r) := a in
  take 2 (http_headers r) = cors_headers /\
  (m = "GET" -> p = "/" -> http_body r = fst (render response)) /\
  (m = "GET" -> p = "/api/bins" -> http_body r = "{}").

Lemma handle_request_ok `{Templates} {A} (d : outcome A) (m p : string) :
  answer_ok (m, p, fst (handle_request d m p)).
Proof.
  unfold answer_ok, handle_request.
  repeat case_bool_decide; cbn [andb]; (split; [reflexivity|]); split; intros; subst; done.
Qed.

Section Invariants.

Context `{Collaborators} `{Templates}.
Variable tza : Z.

Lemma step_answers_ok (s s' : server) :
  server_step tza s s' -> Forall answer_ok (served s) -> Forall answer_ok (served s').
Proof.
  intros [now s0 _ | s0 _ _ | now s0 _ _ | m p s0 _] Hs.
  - unfold load. by destruct (mbind _ _ (srv_net s0)).
  - exact Hs.
  - exact Hs.
  - unfold request. destruct (dataForLoad s0) as [d|]; [|exact Hs]. cbn [served].
    apply Forall_app. split; [done|]. constructor; [apply handle_request_ok | constructor].
Qed.

(** Webhook requests since [n0], at most two per fetch since [n0]. *)
Definition posts_per_fetch (n0 : net) (s : server) : Prop :=
  (length (posted (srv_net s)) + 2 * fetches_made n0 <= length (posted n0) + 2 * fetches_made (srv_net s))%nat.

Lemma step_posts_per_fetch (n0 : net) (s s' : server) :
  server_step tza s s' -> posts_per_fetch n0 s -> posts_per_fetch n0 s'.
Proof.
  unfold posts_per_fetch. intros [now s0 _ | s0 _ _ | now s0 _ _ | m p s0 _] Hs.
  - unfold load. rewrite (mbind_ok _ _ _ _ _ (check_webhookKey_run (srv_net s0))). cbv beta.
    match goal with |- context [IndexJs.buildResponseData tza now ?n1] =>
      pose proof (grow_buildResponseData tza now n1) as G;
      destruct (posts_buildResponseData tza now n1) as (l & E & L);
      destruct (IndexJs.buildResponseData tza now n1) as [r n'] end.
    cbn [snd srv_net posted fetches_made] in *. rewrite E, length_app. lia.
  - exact Hs.
  - unfold cron_run. cbn [srv_net]. destruct (toISOString (TimeClip now)) as [iso|e] eqn:Ei.
    + pose proof (grow_job tza now iso Ei (srv_net s0)) as G.
      destruct (posts_job tza now (srv_net s0)) as (l & E & L). rewrite E, length_app. lia.
    + rewrite (job_clock_fails tza now e _ Ei). exact Hs.
  - unfold request. by destruct (dataForLoad s0).
Qed.



End Invariants.

(** An invariant of the steps holds in every state reachable from a state
    where it holds. *)
Lemma rtc_invariant {S} (R : relation S) (P : S -> Prop) (x y : S) :
  (forall s s', R s s' -> P s -> P s') -> P x -> rtc R x y -> P y.
Proof. intros Hstep Hx Hr. induction Hr; eauto. Qed.


(** C34: the page and the API of the server are static: in every state
    the process reaches, every answer sent carries the CORS headers,
    [GET /] has shown the rendering of the initial [response] object
    (never the fetched data) and [GET /api/bins] has shown "{}". *)
Theorem server_answers_static `{Collaborators} `{Templates} (tza : Z) (n0 : net) (s : server) :
  rtc (server_step tza) (server_init n0) s -> Forall answer_ok (served s).
Proof.
  apply (rtc_invariant _ (fun s => Forall answer_ok (served s))); [apply step_answers_ok | constructor].
Qed.

(** C35: in every state the process reaches, it has sent at most two
    webhook requests per fetch of the feed since it started. *)
Theorem server_posts_per_fetch `{Collaborators} `{Templates} (tza : Z) (n0 : net) (s : server) :
  rtc (server_step tza) (server_init n0) s -> posts_per_fetch n0 s.
Proof.
  apply (rtc_invariant _ (posts_per_fetch n0)); [apply step_posts_per_fetch | unfold posts_per_fetch; simpl; lia].
Qed.


(** ** Witnesses: a process started on 2018-07-08 at 10:00 *)

(** A template that renders every data as the same page. *)
Definition page_env : Templates := {| render_main := fun _ => inr "<html>Bin Bot</html>" |}.

(** Loaded at 10:00, listening, then the 18:00 run, then [GET /] and
    [GET /api/bins]. *)
Definition jul_loaded : server := @load council_env 0 sun_10am (server_init net_ok).
Definition jul_listening : server := @listen council_env jul_loaded.
Definition jul_cron : server := @cron_run council_env 0 1531072800000 jul_listening.
Definition jul_page : server := @request page_env "GET" "/" jul_cron.
Definition jul_api : server := @request page_env "GET" "/api/bins" jul_page.

Lemma jul_loaded_some : is_Some (dataForLoad jul_loaded).
Proof. exists (Ok bins_jul). exact eq_refl. Defined.

Lemma jul_listening_some : is_Some (listening jul_cron).
Proof. exists "8000". exact eq_refl. Defined.

Lemma jul_reachable : rtc (@server_step council_env page_env 0) (server_init net_ok) jul_api.
Proof.
  apply (rtc_l _ _ jul_loaded); [apply step_load; exact eq_refl|].
  apply (rtc_l _ _ jul_listening); [apply step_listen; [exact jul_loaded_some | exact eq_refl]|].
  apply (rtc_l _ _ jul_cron); [apply step_cron; [exact jul_loaded_some | exact eq_refl]|].
  apply (rtc_l _ _ jul_page); [apply step_request; exact jul_listening_some|].
  apply rtc_once. apply step_request. exists "8000". exact eq_refl.
Defined.


Lemma server_answers_static_witness : Forall (@answer_ok page_env) (served jul_api).
Proof. apply (@server_answers_static council_env page_env 0 net_ok). exact jul_reachable. Defined.

Lemma server_posts_per_fetch_witness : posts_per_fetch net_ok jul_api.
Proof. apply (@server_posts_per_fetch council_env page_env 0 net_ok). exact jul_reachable. Defined.
